(** * BESS revenue ledger: a shallow embedding of the revenue scripts

    The repository computes, per battery resource and year, the revenue of
    day-ahead energy awards, real-time dispatch and ancillary-service (AS)
    capacity awards.  This development embeds the accumulation and
    finalisation code of

    - [calculate_bess_complete_revenues_corrected.py]  (module [Corrected]),
    - [final_bess_revenue_analysis.py]                 (module [FinalSample]),
    - [run_bess_complete_analysis_with_logging.py]     (module [WithLogging]),
    - [run_bess_complete_analysis.py]                  (module [Complete]),
    - [analyze_bess_as_revenue_structure.py]           (module [Structure]),

    and proves the properties of the ledger stated in the specification.
    [Corrected] is the reference; the other modules are the variants of the
    same logic that the repository keeps next to it.

    Numbers.  Python floats are modelled by exact rationals [Q]; the one
    non-number that the scripts test for, NaN, is the [None] of a [cell].
    Equalities between amounts are therefore [==] on [Q] (exact arithmetic).

    Tables.  A pandas DataFrame is the list of its rows, in file order,
    together with the list of its column names where the code asks for them
    ([col in df.columns]).  Columns that the code reads without asking are
    taken to be present, so the [except] branch around a file is never
    entered; the delivery date and the hour of a DAM row are never missing.
    Directory listings, logging and the writing of the output files are
    left out: a year is given by the tables that the script would read. *)

From Stdlib Require Import ZArith QArith Qabs Lia Lqa List String Bool Arith.
From Stdlib Require Import Permutation Sorted Setoid Morphisms.
Import ListNotations.

Local Open Scope string_scope.
Local Open Scope list_scope.
Local Open Scope Q_scope.

(** ** Cells and comparisons *)

(** The value of [pd.to_numeric(x, errors='coerce')]: a number, or NaN. *)
Definition cell := option Q.

(** [.fillna(0)] *)
Definition fillna0 (c : cell) : Q :=
  match c with
  | Some q => q
  | None => 0
  end.

(** [x > y] on floats that are numbers. *)
Definition Qgtb (x y : Q) : bool := negb (Qle_bool x y).

(** [pd.notna(c) and c > 0] *)
Definition notna_and_positive (c : cell) : bool :=
  match c with
  | Some q => Qgtb q 0
  | None => false
  end.

(** Two cells hold the same value. *)
Definition cell_eq (a b : cell) : Prop :=
  match a, b with
  | Some x, Some y => x == y
  | None, None => True
  | _, _ => False
  end.

(** [sum(l)] of Python: a left fold that starts at 0. *)
Definition Qsum (l : list Q) : Q := fold_left Qplus l 0.

(** [np.mean(l)] *)
Definition mean (l : list Q) : Q := Qsum l / inject_Z (Z.of_nat (List.length l)).

(** ** Python dictionaries

    A [dict] keeps its keys in insertion order; assigning to a key that is
    present replaces the value in place. *)
Module PyDict.

Definition dict (V : Type) : Type := list (string * V).

Section Ops.
Context {V : Type}.

(** [d.get(k)] *)
Fixpoint get (k : string) (d : dict V) : option V :=
  match d with
  | [] => None
  | (k', v) :: d' => if (k' =? k)%string then Some v else get k d'
  end.

(** [k in d] *)
Definition contains (k : string) (d : dict V) : bool :=
  match get k d with
  | Some _ => true
  | None => false
  end.

(** [d.get(k, default)] *)
Definition get_default (k : string) (default : V) (d : dict V) : V :=
  match get k d with
  | Some v => v
  | None => default
  end.

(** [d[k] = v] *)
Fixpoint set (k : string) (v : V) (d : dict V) : dict V :=
  match d with
  | [] => [(k, v)]
  | (k', v') :: d' =>
      if (k' =? k)%string then (k', v) :: d' else (k', v') :: set k v d'
  end.

(** [d[k] = f(d[k])] for a key that is present (the in-place [+=] on
    the value stored under [k]); nothing moves when [k] is absent. *)
Fixpoint update (k : string) (f : V -> V) (d : dict V) : dict V :=
  match d with
  | [] => []
  | (k', v') :: d' =>
      if (k' =? k)%string then (k', f v') :: d' else (k', v') :: update k f d'
  end.

Definition keys (d : dict V) : list string := map fst d.

End Ops.

(** [{k: f(v) for k, v in d.items()}] *)
Definition map_values {V W : Type} (f : V -> W) (d : dict V) : dict W :=
  map (fun kv => (fst kv, f (snd kv))) d.

End PyDict.
Import PyDict.

(** ** The input tables *)

(** [bess_resources_master_list.csv] *)
Module Registry.
Record row := mk_row {
  Resource_Name : string;
  Settlement_Point : string
}.
End Registry.

(** 60-day DAM disclosure, [DAM_Gen_Resource_Data]. *)
Module Dam.
Record row := mk_row {
  Delivery_Date : string;
  Hour_Ending : nat;
  Resource_Name : string;
  Resource_Type : string;
  Awarded_Quantity : cell;
  Energy_Settlement_Point_Price : cell;
  RegUp_Awarded : cell;
  RegDown_Awarded : cell;
  RRSPFR_Awarded : cell;
  RRSFFR_Awarded : cell;
  RRSUFR_Awarded : cell;
  ECRSSD_Awarded : cell;
  NonSpin_Awarded : cell;
  RegUp_MCPC : cell;
  RegDown_MCPC : cell;
  RRS_MCPC : cell;
  ECRS_MCPC : cell;
  NonSpin_MCPC : cell
}.

(** A file as read by [pd.read_csv]: the header and the rows. *)
Record file := mk_file {
  columns : list string;
  rows : list row
}.
End Dam.

(** 60-day SCED disclosure, [SCED_Gen_Resource_Data]. *)
Module Sced.
Record row := mk_row {
  Resource_Name : string;
  Resource_Type : string;
  Base_Point : cell
}.
End Sced.

(** Settlement point prices (the yearly parquet file). *)
Module Spp.
Record row := mk_row {
  SettlementPointName : string;
  SettlementPointPrice : Q
}.
End Spp.

(** [col in df.columns] *)
Definition has_col (col : string) (cols : list string) : bool :=
  existsb (String.eqb col) cols.

(** [df['Resource Type'] == 'PWRSTR'] *)
Definition is_PWRSTR (ty : string) : bool := (ty =? "PWRSTR")%string.

(** The five AS products of the DAM file. *)
Inductive product := RegUp | RegDown | RRS | ECRS | NonSpin.

Definition products : list product := [RegUp; RegDown; RRS; ECRS; NonSpin].

Definition mcpc_col (p : product) : string :=
  match p with
  | RegUp => "RegUp MCPC"
  | RegDown => "RegDown MCPC"
  | RRS => "RRS MCPC"
  | ECRS => "ECRS MCPC"
  | NonSpin => "NonSpin MCPC"
  end.

Definition mcpc_cell (p : product) (r : Dam.row) : cell :=
  match p with
  | RegUp => Dam.RegUp_MCPC r
  | RegDown => Dam.RegDown_MCPC r
  | RRS => Dam.RRS_MCPC r
  | ECRS => Dam.ECRS_MCPC r
  | NonSpin => Dam.NonSpin_MCPC r
  end.

(** ** [df.groupby(['Delivery Date', 'Hour Ending'])]

    The groups come in the sorted order of their keys; each group keeps
    its rows in file order. *)
Definition hour_key : Type := (string * nat)%type.

Definition key_of (r : Dam.row) : hour_key := (Dam.Delivery_Date r, Dam.Hour_Ending r).

Definition key_eqb (a b : hour_key) : bool :=
  (fst a =? fst b)%string && (snd a =? snd b)%nat.

Definition key_leb (a b : hour_key) : bool :=
  if (fst a =? fst b)%string then (snd a <=? snd b)%nat
  else String.leb (fst a) (fst b).

Fixpoint insert_sorted (k : hour_key) (l : list hour_key) : list hour_key :=
  match l with
  | [] => [k]
  | k' :: l' => if key_leb k k' then k :: l else k' :: insert_sorted k l'
  end.

Definition sort_keys (l : list hour_key) : list hour_key :=
  fold_right insert_sorted [] l.

Fixpoint distinct (l : list hour_key) : list hour_key :=
  match l with
  | [] => []
  | k :: l' => if existsb (key_eqb k) l' then distinct l' else k :: distinct l'
  end.

Definition group_keys (df : list Dam.row) : list hour_key :=
  sort_keys (distinct (map key_of df)).

Definition in_hour (k : hour_key) (r : Dam.row) : bool := key_eqb (key_of r) k.

Definition groupby (df : list Dam.row) : list (list Dam.row) :=
  map (fun k => filter (in_hour k) df) (group_keys df).

(** [pd.read_csv(file, chunksize=n)]: the rows, [n] at a time. *)
Fixpoint chunks_upto (fuel n : nat) (l : list Sced.row) : list (list Sced.row) :=
  match fuel with
  | O => []
  | S fuel' =>
      match l with
      | [] => []
      | _ :: _ => firstn n l :: chunks_upto fuel' n (skipn n l)
      end
  end.

Definition read_csv_chunks (chunksize : nat) (l : list Sced.row) : list (list Sced.row) :=
  chunks_upto (List.length l) chunksize l.

(** * [calculate_bess_complete_revenues_corrected.py] *)
Module Corrected.

(** The value of [revenues[name]]. *)
Record entry := mk_entry {
  dam_energy : Q;
  rt_energy_arbitrage : Q;
  reg_up : Q;
  reg_down : Q;
  rrs : Q;
  ecrs : Q;
  non_spin : Q;
  dam_hours : nat;
  rt_intervals : nat;
  total_discharge_mwh : Q;
  total_charge_mwh : Q
}.

Definition ledger : Type := dict entry.

Definition empty_entry : entry := mk_entry 0 0 0 0 0 0 0 0%nat 0%nat 0 0.

(** [bess_resources = {row['Resource_Name']: row for _, row in bess_df.iterrows()}] *)
Definition load_bess_resources (bess_df : list Registry.row) : dict Registry.row :=
  fold_left (fun d row => set (Registry.Resource_Name row) row d) bess_df [].

(** [for name in bess_resources: revenues[name] = {...}] *)
Definition init_revenues (bess_resources : dict Registry.row) : ledger :=
  fold_left (fun revenues name => set name empty_entry revenues)
            (keys bess_resources) [].

(** [rev[key] += v], [key] the accumulator of product [p]. *)
Definition add_as (p : product) (v : Q) (e : entry) : entry :=
  match p with
  | RegUp =>
      mk_entry (dam_energy e) (rt_energy_arbitrage e) (reg_up e + v) (reg_down e)
               (rrs e) (ecrs e) (non_spin e) (dam_hours e) (rt_intervals e)
               (total_discharge_mwh e) (total_charge_mwh e)
  | RegDown =>
      mk_entry (dam_energy e) (rt_energy_arbitrage e) (reg_up e) (reg_down e + v)
               (rrs e) (ecrs e) (non_spin e) (dam_hours e) (rt_intervals e)
               (total_discharge_mwh e) (total_charge_mwh e)
  | RRS =>
      mk_entry (dam_energy e) (rt_energy_arbitrage e) (reg_up e) (reg_down e)
               (rrs e + v) (ecrs e) (non_spin e) (dam_hours e) (rt_intervals e)
               (total_discharge_mwh e) (total_charge_mwh e)
  | ECRS =>
      mk_entry (dam_energy e) (rt_energy_arbitrage e) (reg_up e) (reg_down e)
               (rrs e) (ecrs e + v) (non_spin e) (dam_hours e) (rt_intervals e)
               (total_discharge_mwh e) (total_charge_mwh e)
  | NonSpin =>
      mk_entry (dam_energy e) (rt_energy_arbitrage e) (reg_up e) (reg_down e)
               (rrs e) (ecrs e) (non_spin e + v) (dam_hours e) (rt_intervals e)
               (total_discharge_mwh e) (total_charge_mwh e)
  end.

(** [rev['dam_energy'] += v; rev['dam_hours'] += 1] *)
Definition add_dam_energy (v : Q) (e : entry) : entry :=
  mk_entry (dam_energy e + v) (rt_energy_arbitrage e) (reg_up e) (reg_down e)
           (rrs e) (ecrs e) (non_spin e) (dam_hours e + 1)%nat (rt_intervals e)
           (total_discharge_mwh e) (total_charge_mwh e).

(** The three updates of one SCED row: the revenue, the interval count
    and the discharge or charge tally. *)
Definition add_rt (base_mw energy_mwh energy_revenue : Q) (e : entry) : entry :=
  if Qgtb base_mw 0 then
    mk_entry (dam_energy e) (rt_energy_arbitrage e + energy_revenue) (reg_up e)
             (reg_down e) (rrs e) (ecrs e) (non_spin e) (dam_hours e)
             (rt_intervals e + 1)%nat
             (total_discharge_mwh e + energy_mwh) (total_charge_mwh e)
  else
    mk_entry (dam_energy e) (rt_energy_arbitrage e + energy_revenue) (reg_up e)
             (reg_down e) (rrs e) (ecrs e) (non_spin e) (dam_hours e)
             (rt_intervals e + 1)%nat
             (total_discharge_mwh e) (total_charge_mwh e + Qabs energy_mwh).

(** ** 1. DAM files *)

(** [RRS_Total_MW]: the three RRS sub-types, each added when its column
    is there. *)
Definition rrs_cols : list (string * (Dam.row -> cell)) :=
  [("RRSPFR Awarded", Dam.RRSPFR_Awarded);
   ("RRSFFR Awarded", Dam.RRSFFR_Awarded);
   ("RRSUFR Awarded", Dam.RRSUFR_Awarded)].

Definition RRS_Total_MW (cols : list string) (r : Dam.row) : Q :=
  fold_left (fun tot col =>
               if has_col (fst col) cols then tot + fillna0 (snd col r) else tot)
            rrs_cols 0.

(** The awarded MW of a row for a product ([RegUp_MW], [RegDn_MW],
    [RRS_Total_MW], [ECRS_MW], [NS_MW]). *)
Definition award_mw (cols : list string) (p : product) (r : Dam.row) : Q :=
  match p with
  | RegUp => fillna0 (Dam.RegUp_Awarded r)
  | RegDown => fillna0 (Dam.RegDown_Awarded r)
  | RRS => RRS_Total_MW cols r
  | ECRS => fillna0 (Dam.ECRSSD_Awarded r)
  | NonSpin => fillna0 (Dam.NonSpin_Awarded r)
  end.

(** The body of [for _, row in hour_bess.iterrows()]. *)
Definition as_row_step (cols : list string) (p : product) (mcpc : Q)
           (revenues : ledger) (row : Dam.row) : ledger :=
  if contains (Dam.Resource_Name row) revenues
  then update (Dam.Resource_Name row) (add_as p (award_mw cols p row * mcpc)) revenues
  else revenues.

(** One product block of one hour group: the MCPC is read from the
    first row of the group of the whole file ([.iloc[0]]). *)
Definition as_block (cols : list string) (bess_data hour_group : list Dam.row)
           (revenues : ledger) (p : product) : ledger :=
  if has_col (mcpc_col p) cols then
    match hour_group with
    | [] => revenues
    | first :: _ =>
        let mcpc := mcpc_cell p first in
        if notna_and_positive mcpc then
          let hour_bess := filter (in_hour (key_of first)) bess_data in
          fold_left (as_row_step cols p (fillna0 mcpc)) hour_bess revenues
        else revenues
    end
  else revenues.

(** The body of [for _, hour_group in df.groupby(...)]: RegUp, RegDown,
    RRS, ECRS, NonSpin in turn. *)
Definition hour_step (cols : list string) (bess_data : list Dam.row)
           (revenues : ledger) (hour_group : list Dam.row) : ledger :=
  fold_left (as_block cols bess_data hour_group) products revenues.

(** "Track DAM energy". *)
Definition dam_energy_step (revenues : ledger) (row : Dam.row) : ledger :=
  let Energy_MW := fillna0 (Dam.Awarded_Quantity row) in
  let Energy_Price := fillna0 (Dam.Energy_Settlement_Point_Price row) in
  let Energy_Revenue := Energy_MW * Energy_Price in
  if contains (Dam.Resource_Name row) revenues
  then update (Dam.Resource_Name row) (add_dam_energy Energy_Revenue) revenues
  else revenues.

(** The work on one file once [bess_data] is cut out of [df]. *)
Definition process_dam_data (cols : list string) (df bess_data : list Dam.row)
           (revenues : ledger) : ledger :=
  let revenues := fold_left (hour_step cols bess_data) (groupby df) revenues in
  fold_left dam_energy_step bess_data revenues.

Definition bess_rows (df : list Dam.row) : list Dam.row :=
  filter (fun r => is_PWRSTR (Dam.Resource_Type r)) df.

(** The body of [for i, file in enumerate(dam_files)]. *)
Definition process_dam_file (revenues : ledger) (file : Dam.file) : ledger :=
  let df := Dam.rows file in
  let bess_data := bess_rows df in
  if (List.length bess_data =? 0)%nat then revenues
  else process_dam_data (Dam.columns file) df bess_data revenues.

(** ** 3. SCED files *)

(** The price lookup: every price of the year is appended to the list
    of its settlement point, then each list is replaced by its mean. *)
Definition load_rt_prices (price_df : list Spp.row) : dict Q :=
  let rt_prices :=
    fold_left (fun rt_prices row =>
                 let sp := Spp.SettlementPointName row in
                 let price := Spp.SettlementPointPrice row in
                 set sp (get_default sp [] rt_prices ++ [price]) rt_prices)
              price_df [] in
  map_values mean rt_prices.

(** The price used for a resource: [rt_prices.get(sp, 50)]. *)
Definition rt_price_of (bess_resources : dict Registry.row) (rt_prices : dict Q)
           (name : string) : Q :=
  match get name bess_resources with
  | Some res => get_default (Registry.Settlement_Point res) 50 rt_prices
  | None => 50
  end.

(** The body of [for _, row in bess_data.iterrows()] of a SCED chunk. *)
Definition sced_step (bess_resources : dict Registry.row) (rt_prices : dict Q)
           (revenues : ledger) (row : Sced.row) : ledger :=
  let name := Sced.Resource_Name row in
  if contains name revenues then
    let base_mw := fillna0 (Sced.Base_Point row) in
    let rt_price := rt_price_of bess_resources rt_prices name in
    let energy_mwh := base_mw * (5 # 60) in
    let energy_revenue := energy_mwh * rt_price in
    update name (add_rt base_mw energy_mwh energy_revenue) revenues
  else revenues.

Definition sced_bess_rows (chunk : list Sced.row) : list Sced.row :=
  filter (fun r => is_PWRSTR (Sced.Resource_Type r)) chunk.

(** The work on one chunk. *)
Definition process_sced_chunk (bess_resources : dict Registry.row)
           (rt_prices : dict Q) (revenues : ledger) (chunk : list Sced.row) : ledger :=
  let bess_data := sced_bess_rows chunk in
  if (List.length bess_data =? 0)%nat then revenues
  else fold_left (sced_step bess_resources rt_prices) bess_data revenues.

(** [for chunk_num, chunk in enumerate(...)]: a chunk without storage
    rows is passed over ([continue]); the loop stops after the first
    chunk with storage rows whose number is 5 or more ([break]). *)
Fixpoint sced_chunk_loop (bess_resources : dict Registry.row) (rt_prices : dict Q)
         (chunk_num : nat) (chunks : list (list Sced.row)) (revenues : ledger)
  : ledger :=
  match chunks with
  | [] => revenues
  | chunk :: rest =>
      let revenues' := process_sced_chunk bess_resources rt_prices revenues chunk in
      if (List.length (sced_bess_rows chunk) =? 0)%nat
      then sced_chunk_loop bess_resources rt_prices (S chunk_num) rest revenues'
      else if (5 <=? chunk_num)%nat then revenues'
      else sced_chunk_loop bess_resources rt_prices (S chunk_num) rest revenues'
  end.

Definition chunksize : nat := (50 * 1000)%nat.

(** The body of [for i, file in enumerate(sced_files[:10])]. *)
Definition process_sced_file (bess_resources : dict Registry.row)
           (rt_prices : dict Q) (revenues : ledger) (file : list Sced.row) : ledger :=
  sced_chunk_loop bess_resources rt_prices 0 (read_csv_chunks chunksize file) revenues.

(** ** Results *)

Record result := mk_result {
  BESS_Asset_Name : string;
  Year : nat;
  RT_Revenue : Q;
  DA_Revenue : Q;
  Spin_Revenue : Q;
  NonSpin_Revenue : Q;
  RegUp_Revenue : Q;
  RegDown_Revenue : Q;
  ECRS_Revenue : Q;
  Total_Revenue : Q;
  Total_AS_Revenue : Q;
  Energy_Pct : Q;
  AS_Pct : Q;
  Discharge_MWh : Q;
  Charge_MWh : Q
}.

Definition total_as (rev : entry) : Q :=
  reg_up rev + reg_down rev + rrs rev + ecrs rev + non_spin rev.

Definition total (rev : entry) : Q :=
  dam_energy rev + rt_energy_arbitrage rev + total_as rev.

(** [(dam_energy + rt_energy_arbitrage) / total * 100 if total > 0 else 0] *)
Definition energy_pct (rev : entry) : Q :=
  if Qgtb (total rev) 0
  then (dam_energy rev + rt_energy_arbitrage rev) / total rev * 100
  else 0.

(** [total_as / total * 100 if total > 0 else 0] *)
Definition as_pct (rev : entry) : Q :=
  if Qgtb (total rev) 0 then total_as rev / total rev * 100 else 0.

Definition result_row (year : nat) (name : string) (rev : entry) : result :=
  mk_result name year (rt_energy_arbitrage rev) (dam_energy rev) (rrs rev)
            (non_spin rev) (reg_up rev) (reg_down rev) (ecrs rev)
            (total rev) (total_as rev) (energy_pct rev) (as_pct rev)
            (total_discharge_mwh rev) (total_charge_mwh rev).

(** [for name, rev in revenues.items(): ... if total > 0: results.append(...)] *)
Definition create_results (year : nat) (revenues : ledger) : list result :=
  fold_left (fun results item =>
               let name := fst item in
               let rev := snd item in
               if Qgtb (total rev) 0
               then results ++ [result_row year name rev]
               else results)
            revenues [].

(** ** [process_year]

    The SASM pass of the script reads its files and changes nothing
    ([pass]); it has no counterpart here. *)
Record year_data := mk_year_data {
  dam_files : list Dam.file;
  sced_files : list (list Sced.row);
  price_file : option (list Spp.row)
}.

Definition accumulate_year (bess_resources : dict Registry.row) (data : year_data)
  : ledger :=
  let revenues := init_revenues bess_resources in
  let revenues := fold_left process_dam_file (dam_files data) revenues in
  let rt_prices :=
    match price_file data with
    | Some price_df => load_rt_prices price_df
    | None => []
    end in
  fold_left (process_sced_file bess_resources rt_prices)
            (firstn 10 (sced_files data)) revenues.

Definition process_year (bess_resources : dict Registry.row) (year : nat)
           (data : year_data) : list result :=
  create_results year (accumulate_year bess_resources data).

(** ** The year summary and the main loop *)

(** [df_year['Total_Revenue'].sum()] *)
Definition summary_total_revenue (results : list result) : Q :=
  Qsum (map Total_Revenue results).

(** [df_year['DA_Revenue'].sum() + df_year['RT_Revenue'].sum()] *)
Definition summary_total_energy (results : list result) : Q :=
  Qsum (map DA_Revenue results) + Qsum (map RT_Revenue results).

(** [df_year['Total_AS_Revenue'].sum()] *)
Definition summary_total_as (results : list result) : Q :=
  Qsum (map Total_AS_Revenue results).

(** The two percentages that the summary logs under [if results:]. *)
Definition summary_energy_pct (results : list result) : Q :=
  summary_total_energy results / summary_total_revenue results * 100.

Definition summary_as_pct (results : list result) : Q :=
  summary_total_as results / summary_total_revenue results * 100.

Definition years_to_process : list nat := [2022; 2023; 2024; 2025]%nat.

(** [for year in years: all_results.extend(process_year(year))], the
    tables of a year being [data year]. *)
Definition run_years (bess_resources : dict Registry.row) (years : list nat)
           (data : nat -> year_data) : list result :=
  fold_left (fun all_results year =>
               all_results ++ process_year bess_resources year (data year))
            years [].

(** [df[df['Year'] == year]] *)
Definition year_rows (df : list result) (year : nat) : list result :=
  filter (fun r => (Year r =? year)%nat) df.

(** The final summary: [year_data['Energy_Pct'].mean()] and
    [year_data['AS_Pct'].mean()] of the rows of a year. *)
Definition final_energy_pct_mean (df : list result) (year : nat) : Q :=
  mean (map Energy_Pct (year_rows df year)).

Definition final_as_pct_mean (df : list result) (year : nat) : Q :=
  mean (map AS_Pct (year_rows df year)).

End Corrected.

(** * [final_bess_revenue_analysis.py]

    The day-ahead pass and the result rows of [analyze_year_sample]; the
    ledger is keyed by the storage resources met in the sample file. *)
Module FinalSample.

Record entry := mk_entry {
  dam_energy : Q;
  rt_energy : Q;
  reg_up : Q;
  reg_down : Q;
  rrs : Q;
  ecrs : Q;
  non_spin : Q
}.

Definition ledger : Type := dict entry.

Definition empty_entry : entry := mk_entry 0 0 0 0 0 0 0.

Definition add_dam_energy (v : Q) (e : entry) : entry :=
  mk_entry (dam_energy e + v) (rt_energy e) (reg_up e) (reg_down e) (rrs e)
           (ecrs e) (non_spin e).

Definition add_as (p : product) (v : Q) (e : entry) : entry :=
  match p with
  | RegUp =>
      mk_entry (dam_energy e) (rt_energy e) (reg_up e + v) (reg_down e) (rrs e)
               (ecrs e) (non_spin e)
  | RegDown =>
      mk_entry (dam_energy e) (rt_energy e) (reg_up e) (reg_down e + v) (rrs e)
               (ecrs e) (non_spin e)
  | RRS =>
      mk_entry (dam_energy e) (rt_energy e) (reg_up e) (reg_down e) (rrs e + v)
               (ecrs e) (non_spin e)
  | ECRS =>
      mk_entry (dam_energy e) (rt_energy e) (reg_up e) (reg_down e) (rrs e)
               (ecrs e + v) (non_spin e)
  | NonSpin =>
      mk_entry (dam_energy e) (rt_energy e) (reg_up e) (reg_down e) (rrs e)
               (ecrs e) (non_spin e + v)
  end.

(** [mcpcs[service]]: the first row of the hour group, or NaN when the
    column is not there. *)
Definition mcpcs (cols : list string) (hour_group : list Dam.row) (p : product)
  : cell :=
  if has_col (mcpc_col p) cols then
    match hour_group with
    | first :: _ => mcpc_cell p first
    | [] => None
    end
  else None.

(** [if pd.notna(energy_mw) and pd.notna(energy_price)] *)
Definition energy_update (energy_price : cell) (bess : Dam.row) (e : entry) : entry :=
  match Dam.Awarded_Quantity bess, energy_price with
  | Some energy_mw, Some price => add_dam_energy (energy_mw * price) e
  | _, _ => e
  end.

(** [if pd.notna(mw) and mw > 0 and pd.notna(mcpcs[p])] *)
Definition product_update (p : product) (mw mcpc : cell) (e : entry) : entry :=
  match mw, mcpc with
  | Some mw, Some mcpc => if Qgtb mw 0 then add_as p (mw * mcpc) e else e
  | _, _ => e
  end.

Definition rrs_cols : list (string * (Dam.row -> cell)) :=
  [("RRSPFR Awarded", Dam.RRSPFR_Awarded);
   ("RRSFFR Awarded", Dam.RRSFFR_Awarded);
   ("RRSUFR Awarded", Dam.RRSUFR_Awarded)].

(** [rrs_total]: [bess.get(col, 0)] gives 0 for a column that is not
    there; a NaN is left out. *)
Definition rrs_total (cols : list string) (bess : Dam.row) : Q :=
  fold_left (fun tot col =>
               let mw := if has_col (fst col) cols then snd col bess else Some 0 in
               match mw with
               | Some mw => tot + mw
               | None => tot
               end)
            rrs_cols 0.

(** [if rrs_total > 0 and pd.notna(mcpcs['RRS'])] *)
Definition rrs_update (cols : list string) (mcpc : cell) (bess : Dam.row)
           (e : entry) : entry :=
  match mcpc with
  | Some mcpc =>
      if Qgtb (rrs_total cols bess) 0
      then add_as RRS (rrs_total cols bess * mcpc) e
      else e
  | None => e
  end.

(** [if 'ECRSSD Awarded' in bess.index] *)
Definition ecrs_update (cols : list string) (mcpc : cell) (bess : Dam.row)
           (e : entry) : entry :=
  if has_col "ECRSSD Awarded" cols
  then product_update ECRS (Dam.ECRSSD_Awarded bess) mcpc e
  else e.

(** The updates of one storage row, in the order of the script: Energy,
    RegUp, RegDown, RRS, ECRS, NonSpin. *)
Definition row_update (cols : list string) (hour_group : list Dam.row)
           (energy_price : cell) (bess : Dam.row) (e : entry) : entry :=
  let e := energy_update energy_price bess e in
  let e := product_update RegUp (Dam.RegUp_Awarded bess) (mcpcs cols hour_group RegUp) e in
  let e := product_update RegDown (Dam.RegDown_Awarded bess) (mcpcs cols hour_group RegDown) e in
  let e := rrs_update cols (mcpcs cols hour_group RRS) bess e in
  let e := ecrs_update cols (mcpcs cols hour_group ECRS) bess e in
  product_update NonSpin (Dam.NonSpin_Awarded bess) (mcpcs cols hour_group NonSpin) e.

(** The body of [for _, bess in hour_bess.iterrows()]. *)
Definition bess_step (cols : list string) (hour_group : list Dam.row)
           (energy_price : cell) (revenues : ledger) (bess : Dam.row) : ledger :=
  let name := Dam.Resource_Name bess in
  let revenues :=
    if contains name revenues then revenues else set name empty_entry revenues in
  update name (row_update cols hour_group energy_price bess) revenues.

(** The body of [for (date, hour), hour_group in df.groupby(...)]. *)
Definition hour_step (cols : list string) (revenues : ledger)
           (hour_group : list Dam.row) : ledger :=
  let hour_bess := filter (fun r => is_PWRSTR (Dam.Resource_Type r)) hour_group in
  if (List.length hour_bess =? 0)%nat then revenues
  else
    let energy_price :=
      match hour_group with
      | first :: _ => Dam.Energy_Settlement_Point_Price first
      | [] => None
      end in
    fold_left (bess_step cols hour_group energy_price) hour_bess revenues.

(** The day-ahead pass over the sample file. *)
Definition process_sample_file (file : Dam.file) : ledger :=
  fold_left (hour_step (Dam.columns file)) (groupby (Dam.rows file)) [].

Record result := mk_result {
  BESS_Asset_Name : string;
  Year : nat;
  RT_Revenue : Q;
  DA_Revenue : Q;
  Spin_Revenue : Q;
  NonSpin_Revenue : Q;
  RegUp_Revenue : Q;
  RegDown_Revenue : Q;
  ECRS_Revenue : Q;
  Total_Revenue : Q;
  Energy_Revenue : Q;
  AS_Revenue : Q;
  Energy_Pct : Q;
  AS_Pct : Q
}.

Definition total_as (rev : entry) : Q :=
  reg_up rev + reg_down rev + rrs rev + ecrs rev + non_spin rev.

(** [sum(rev.values())], the values in the order of the keys. *)
Definition total (rev : entry) : Q :=
  Qsum [dam_energy rev; rt_energy rev; reg_up rev; reg_down rev; rrs rev;
        ecrs rev; non_spin rev].

Definition energy_pct (rev : entry) : Q :=
  if Qgtb (total rev) 0
  then (dam_energy rev + rt_energy rev) / total rev * 100
  else 0.

Definition as_pct (rev : entry) : Q :=
  if Qgtb (total rev) 0 then total_as rev / total rev * 100 else 0.

Definition result_row (year : nat) (name : string) (rev : entry) : result :=
  mk_result name year (rt_energy rev) (dam_energy rev) (rrs rev) (non_spin rev)
            (reg_up rev) (reg_down rev) (ecrs rev) (total rev)
            (dam_energy rev + rt_energy rev) (total_as rev)
            (energy_pct rev) (as_pct rev).

Definition create_results (year : nat) (revenues : ledger) : list result :=
  fold_left (fun results item =>
               let name := fst item in
               let rev := snd item in
               if Qgtb (total rev) 0
               then results ++ [result_row year name rev]
               else results)
            revenues [].

(** ** The real-time pass and [analyze_year_sample] *)

Definition add_rt_energy (v : Q) (e : entry) : entry :=
  mk_entry (dam_energy e) (rt_energy e + v) (reg_up e) (reg_down e) (rrs e)
           (ecrs e) (non_spin e).

(** [bess_map = {row['Resource_Name']: row['Settlement_Point'] ...}] *)
Definition load_bess_map (bess_df : list Registry.row) : dict string :=
  fold_left (fun d row =>
               set (Registry.Resource_Name row) (Registry.Settlement_Point row) d)
            bess_df [].

(** [price_df.groupby('SettlementPointName')['SettlementPointPrice'].mean()
    .to_dict()]: the script only looks prices up in it. *)
Definition load_avg_prices (price_df : list Spp.row) : dict Q :=
  let lists :=
    fold_left (fun d row =>
                 let sp := Spp.SettlementPointName row in
                 set sp (get_default sp [] d ++ [Spp.SettlementPointPrice row]) d)
              price_df [] in
  map_values mean lists.

(** The body of [for _, row in sced_bess.iterrows()]: a resource that the
    sample DAM file did not show is passed over, and so is a base point
    that is NaN or 0. *)
Definition rt_step (bess_map : dict string) (avg_prices : dict Q)
           (revenues : ledger) (row : Sced.row) : ledger :=
  let name := Sced.Resource_Name row in
  if contains name revenues then
    match Sced.Base_Point row with
    | Some base_mw =>
        if Qeq_bool base_mw 0 then revenues
        else
          let sp := get_default name "" bess_map in
          let price := get_default sp 50 avg_prices in
          update name (add_rt_energy (base_mw * price * (5 # 60))) revenues
    | None => revenues
    end
  else revenues.

(** [pd.read_csv(sced_file, nrows=50000)] *)
Definition nrows : nat := (50 * 1000)%nat.

Definition rt_pass (bess_map : dict string) (avg_prices : dict Q)
           (sced_file : list Sced.row) (revenues : ledger) : ledger :=
  let sced_df := firstn nrows sced_file in
  let sced_bess := filter (fun r => is_PWRSTR (Sced.Resource_Type r)) sced_df in
  fold_left (rt_step bess_map avg_prices) sced_bess revenues.

(** [min(len(dam_files)//2, len(dam_files)-1)] *)
Definition sample_index (n : nat) : nat := Nat.min (n / 2) (n - 1).

Record year_data := mk_year_data {
  dam_files : list Dam.file;
  sced_files : list (list Sced.row);
  price_file : option (list Spp.row)
}.

(** The ledger of [analyze_year_sample] for a year that has DAM files;
    [None] stands for the [IndexError] of an index out of the list. *)
Definition accumulate_sample (bess_map : dict string) (data : year_data)
  : option ledger :=
  match nth_error (dam_files data) (sample_index (List.length (dam_files data))) with
  | None => None
  | Some sample_file =>
      let revenues := process_sample_file sample_file in
      match sced_files data with
      | [] => Some revenues
      | sced_file :: _ =>
          let avg_prices :=
            match price_file data with
            | Some price_df => load_avg_prices price_df
            | None => []
            end in
          Some (rt_pass bess_map avg_prices sced_file revenues)
      end
  end.

Definition analyze_year_sample (bess_map : dict string) (year : nat)
           (data : year_data) : option (list result) :=
  match dam_files data with
  | [] => Some []
  | _ :: _ => option_map (create_results year) (accumulate_sample bess_map data)
  end.

(** The summary that [analyze_year_sample] logs under [if results:]. *)
Definition summary_total_revenue (results : list result) : Q :=
  Qsum (map Total_Revenue results).

Definition summary_energy_revenue (results : list result) : Q :=
  Qsum (map Energy_Revenue results).

Definition summary_as_revenue (results : list result) : Q :=
  Qsum (map AS_Revenue results).

Definition summary_energy_pct (results : list result) : Q :=
  summary_energy_revenue results / summary_total_revenue results * 100.

Definition summary_as_pct (results : list result) : Q :=
  summary_as_revenue results / summary_total_revenue results * 100.

End FinalSample.

(** [Series.unique()]: the values in the order of their first appearance. *)
Fixpoint unique_from (seen l : list string) : list string :=
  match l with
  | [] => []
  | x :: l' =>
      if existsb (String.eqb x) seen then unique_from seen l'
      else x :: unique_from (x :: seen) l'
  end.

Definition unique (l : list string) : list string := unique_from [] l.

(** * [run_bess_complete_analysis_with_logging.py] *)
Module WithLogging.

Record entry := mk_entry {
  rt_energy : Q;
  dam_energy : Q;
  reg_up : Q;
  reg_down : Q;
  spin : Q;
  non_spin : Q;
  ecrs : Q;
  records_processed : nat
}.

Definition ledger : Type := dict entry.

Definition empty_entry : entry := mk_entry 0 0 0 0 0 0 0 0%nat.

Definition init_revenues (bess_resources : dict Registry.row) : ledger :=
  fold_left (fun revenues name => set name empty_entry revenues)
            (keys bess_resources) [].

(** [rev['dam_energy'] += v; rev['records_processed'] += n] *)
Definition add_dam_energy (v : Q) (n : nat) (e : entry) : entry :=
  mk_entry (rt_energy e) (dam_energy e + v) (reg_up e) (reg_down e) (spin e)
           (non_spin e) (ecrs e) (records_processed e + n)%nat.

Definition add_rt_energy (v : Q) (e : entry) : entry :=
  mk_entry (rt_energy e + v) (dam_energy e) (reg_up e) (reg_down e) (spin e)
           (non_spin e) (ecrs e) (records_processed e).

(** [rev[revenue_key] += v]; RRS goes to ['spin']. *)
Definition add_as (p : product) (v : Q) (e : entry) : entry :=
  match p with
  | RegUp =>
      mk_entry (rt_energy e) (dam_energy e) (reg_up e + v) (reg_down e) (spin e)
               (non_spin e) (ecrs e) (records_processed e)
  | RegDown =>
      mk_entry (rt_energy e) (dam_energy e) (reg_up e) (reg_down e + v) (spin e)
               (non_spin e) (ecrs e) (records_processed e)
  | RRS =>
      mk_entry (rt_energy e) (dam_energy e) (reg_up e) (reg_down e) (spin e + v)
               (non_spin e) (ecrs e) (records_processed e)
  | ECRS =>
      mk_entry (rt_energy e) (dam_energy e) (reg_up e) (reg_down e) (spin e)
               (non_spin e) (ecrs e + v) (records_processed e)
  | NonSpin =>
      mk_entry (rt_energy e) (dam_energy e) (reg_up e) (reg_down e) (spin e)
               (non_spin e + v) (ecrs e) (records_processed e)
  end.

(** [bess_data[bess_data['Resource Name'] == name]] *)
Definition rows_of (name : string) (bess_data : list Dam.row) : list Dam.row :=
  filter (fun r => (Dam.Resource_Name r =? name)%string) bess_data.

Definition unique_names (bess_data : list Dam.row) : list string :=
  unique (map Dam.Resource_Name bess_data).

(** [for name in bess_data['Resource Name'].unique(): if name in revenues:
    revenues[name][...] += bess_data[...][column].sum()], the column being
    [amount] row by row. *)
Definition credit_by_name (amount : Dam.row -> Q) (add : Q -> entry -> entry)
           (bess_data : list Dam.row) (revenues : ledger) : ledger :=
  fold_left (fun revenues name =>
               if contains name revenues then
                 let rev := Qsum (map amount (rows_of name bess_data)) in
                 update name (add rev) revenues
               else revenues)
            (unique_names bess_data) revenues.

(** "Energy revenue" *)
Definition dam_energy_pass (cols : list string) (bess_data : list Dam.row)
           (revenues : ledger) : ledger :=
  if has_col "Awarded Quantity" cols && has_col "Energy Settlement Point Price" cols
  then
    fold_left (fun revenues name =>
                 if contains name revenues then
                   let rows := rows_of name bess_data in
                   let rev :=
                     Qsum (map (fun r =>
                                  fillna0 (Dam.Awarded_Quantity r)
                                  * fillna0 (Dam.Energy_Settlement_Point_Price r))
                               rows) in
                   update name (add_dam_energy rev (List.length rows)) revenues
                 else revenues)
              (unique_names bess_data) revenues
  else revenues.

(** [as_services]: award column, price column, revenue key. *)
Definition as_services
  : list ((string * (Dam.row -> cell)) * (string * (Dam.row -> cell)) * product) :=
  [(("RegUp Awarded", Dam.RegUp_Awarded), ("RegUp MCPC", Dam.RegUp_MCPC), RegUp);
   (("RegDown Awarded", Dam.RegDown_Awarded), ("RegDown MCPC", Dam.RegDown_MCPC), RegDown);
   (("ECRSSD Awarded", Dam.ECRSSD_Awarded), ("ECRS MCPC", Dam.ECRS_MCPC), ECRS);
   (("NonSpin Awarded", Dam.NonSpin_Awarded), ("NonSpin MCPC", Dam.NonSpin_MCPC), NonSpin)].

(** [df[[price_col]].drop_duplicates()[price_col].iloc[0]]: the value of the
    first row of the file. *)
Definition first_price (price : Dam.row -> cell) (df : list Dam.row) : option cell :=
  match df with
  | [] => None
  | first :: _ => Some (price first)
  end.

(** The body of [for award_col, (price_col, revenue_key) in as_services.items()]. *)
Definition as_service_step (cols : list string) (df bess_data : list Dam.row)
           (revenues : ledger)
           (service : (string * (Dam.row -> cell)) * (string * (Dam.row -> cell)) * product)
  : ledger :=
  let award_col := fst (fst service) in
  let price_col := snd (fst service) in
  let revenue_key := snd service in
  if has_col (fst award_col) cols && has_col (fst price_col) cols then
    match first_price (snd price_col) df with
    | Some price =>
        if notna_and_positive price then
          credit_by_name (fun r => fillna0 (snd award_col r) * fillna0 price)
                         (add_as revenue_key) bess_data revenues
        else revenues
    | None => revenues
    end
  else revenues.

Definition rrs_types : list (string * (Dam.row -> cell)) :=
  [("RRSPFR Awarded", Dam.RRSPFR_Awarded);
   ("RRSFFR Awarded", Dam.RRSFFR_Awarded);
   ("RRSUFR Awarded", Dam.RRSUFR_Awarded)].

(** "RRS (Spin) - combine all RRS types" *)
Definition rrs_pass (cols : list string) (df bess_data : list Dam.row)
           (revenues : ledger) : ledger :=
  if has_col "RRS MCPC" cols then
    match first_price Dam.RRS_MCPC df with
    | Some rrs_price =>
        if notna_and_positive rrs_price then
          fold_left (fun revenues rrs_col =>
                       if has_col (fst rrs_col) cols then
                         credit_by_name
                           (fun r => fillna0 (snd rrs_col r) * fillna0 rrs_price)
                           (add_as RRS) bess_data revenues
                       else revenues)
                    rrs_types revenues
        else revenues
    | None => revenues
    end
  else revenues.

(** The body of [for i, file in enumerate(dam_files)]. *)
Definition process_dam_file (revenues : ledger) (file : Dam.file) : ledger :=
  let cols := Dam.columns file in
  let df := Dam.rows file in
  let bess_data := filter (fun r => is_PWRSTR (Dam.Resource_Type r)) df in
  if (List.length bess_data =? 0)%nat then revenues
  else
    let revenues := dam_energy_pass cols bess_data revenues in
    let revenues := fold_left (as_service_step cols df bess_data) as_services revenues in
    rrs_pass cols df bess_data revenues.

(** [price_df.groupby('SettlementPointName')['SettlementPointPrice'].mean()
    .to_dict()]: the script only looks prices up in it. *)
Definition load_rt_prices (price_df : list Spp.row) : dict Q :=
  let lists :=
    fold_left (fun d row =>
                 let sp := Spp.SettlementPointName row in
                 set sp (get_default sp [] d ++ [Spp.SettlementPointPrice row]) d)
              price_df [] in
  map_values mean lists.

(** The body of [for name in bess_data['Resource Name'].unique()] of a
    SCED chunk: a resource whose settlement point has no price is passed
    over. *)
Definition sced_name_step (bess_resources : dict Registry.row) (rt_prices : dict Q)
           (bess_data : list Sced.row) (revenues : ledger) (name : string) : ledger :=
  if contains name revenues then
    match get name bess_resources with
    | Some res =>
        match get (Registry.Settlement_Point res) rt_prices with
        | Some price =>
            let base_points :=
              map (fun r => fillna0 (Sced.Base_Point r))
                  (filter (fun r => (Sced.Resource_Name r =? name)%string) bess_data) in
            let rev := Qsum base_points * price * (5 # 60) in
            update name (add_rt_energy rev) revenues
        | None => revenues
        end
    | None => revenues
    end
  else revenues.

Definition process_sced_chunk (bess_resources : dict Registry.row)
           (rt_prices : dict Q) (revenues : ledger) (chunk : list Sced.row) : ledger :=
  let bess_data := filter (fun r => is_PWRSTR (Sced.Resource_Type r)) chunk in
  if (List.length bess_data =? 0)%nat then revenues
  else
    fold_left (sced_name_step bess_resources rt_prices bess_data)
              (unique (map Sced.Resource_Name bess_data)) revenues.

Definition chunk_size : nat := (100 * 1000)%nat.

Record result := mk_result {
  BESS_Asset_Name : string;
  Year : nat;
  RT_Revenue : Q;
  DA_Revenue : Q;
  Spin_Revenue : Q;
  NonSpin_Revenue : Q;
  RegUp_Revenue : Q;
  RegDown_Revenue : Q;
  ECRS_Revenue : Q;
  Total_Revenue : Q
}.

(** [sum([rev[k] for k in ['rt_energy', 'dam_energy', 'spin', 'non_spin',
    'reg_up', 'reg_down', 'ecrs']])] *)
Definition total (rev : entry) : Q :=
  Qsum [rt_energy rev; dam_energy rev; spin rev; non_spin rev; reg_up rev;
        reg_down rev; ecrs rev].

Definition result_row (year : nat) (name : string) (rev : entry) : result :=
  mk_result name year (rt_energy rev) (dam_energy rev) (spin rev) (non_spin rev)
            (reg_up rev) (reg_down rev) (ecrs rev) (total rev).

Definition create_results (year : nat) (revenues : ledger) : list result :=
  fold_left (fun results item =>
               let name := fst item in
               let rev := snd item in
               if Qgtb (total rev) 0
               then results ++ [result_row year name rev]
               else results)
            revenues [].

Record year_data := mk_year_data {
  dam_files : list Dam.file;
  sced_files : list (list Sced.row);
  price_file : option (list Spp.row)
}.

Definition accumulate_year (bess_resources : dict Registry.row) (data : year_data)
  : ledger :=
  let revenues := init_revenues bess_resources in
  let revenues := fold_left process_dam_file (dam_files data) revenues in
  let rt_prices :=
    match price_file data with
    | Some price_df => load_rt_prices price_df
    | None => []
    end in
  fold_left (fun revenues file =>
               fold_left (process_sced_chunk bess_resources rt_prices)
                         (read_csv_chunks chunk_size file) revenues)
            (firstn 5 (sced_files data)) revenues.

Definition process_year (bess_resources : dict Registry.row) (year : nat)
           (data : year_data) : list result :=
  match dam_files data, sced_files data with
  | [], [] => []
  | _, _ => create_results year (accumulate_year bess_resources data)
  end.

(** ** The years of the files, the main loop and the summary *)

(** The year of a file name that ends in [-yy]: [int(parts[-1])] below 50
    is read as 20yy, from 50 on as 19yy. *)
Definition year_of_suffix (year_val : nat) : nat :=
  if (year_val <? 50)%nat then (2000 + year_val)%nat else (1900 + year_val)%nat.

(** The number in the file pattern of a year: [year % 100]. *)
Definition pattern_suffix (year : nat) : nat := (year mod 100)%nat.

(** [years.add(y)] on a set kept as a list without repetition. *)
Definition set_add (y : nat) (years : list nat) : list nat :=
  if existsb (Nat.eqb y) years then years else y :: years.

Fixpoint insert_year (y : nat) (l : list nat) : list nat :=
  match l with
  | [] => [y]
  | z :: l' => if (y <=? z)%nat then y :: l else z :: insert_year y l'
  end.

(** [sorted(list(years))] *)
Definition sorted (years : list nat) : list nat := fold_right insert_year [] years.

(** "Finding available years": a file name gives [Some year_val] when it
    has three parts or more and its last part is a number, and [None]
    otherwise. *)
Definition available_years (file_suffixes : list (option nat)) : list nat :=
  sorted (fold_left (fun years suffix =>
                       match suffix with
                       | Some year_val => set_add (year_of_suffix year_val) years
                       | None => years
                       end)
                    file_suffixes []).

(** [for year in years: all_results.extend(process_year(year))] *)
Definition run_years (bess_resources : dict Registry.row) (years : list nat)
           (data : nat -> year_data) : list result :=
  fold_left (fun all_results year =>
               all_results ++ process_year bess_resources year (data year))
            years [].

(** A line of "BESS Revenue Summary by Year", in millions. *)
Record summary := mk_summary {
  n_resources : nat;
  total_rev : Q;
  rt_rev : Q;
  dam_rev : Q;
  as_rev : Q
}.

Definition summary_line (results_df : list result) (year : nat) : summary :=
  let year_data := filter (fun r => (Year r =? year)%nat) results_df in
  mk_summary
    (List.length year_data)
    (Qsum (map Total_Revenue year_data) / 1000000)
    (Qsum (map RT_Revenue year_data) / 1000000)
    (Qsum (map DA_Revenue year_data) / 1000000)
    ((Qsum (map Spin_Revenue year_data) + Qsum (map NonSpin_Revenue year_data)
      + Qsum (map RegUp_Revenue year_data) + Qsum (map RegDown_Revenue year_data)
      + Qsum (map ECRS_Revenue year_data)) / 1000000).

End WithLogging.

(** * [analyze_bess_as_revenue_structure.py]: the AS revenue of a sample file *)
Module Structure.

(** [as_services]: award column and price column of a service; RRSPFR
    stands for RRS. *)
Definition award_col (p : product) : string * (Dam.row -> cell) :=
  match p with
  | RegUp => ("RegUp Awarded", Dam.RegUp_Awarded)
  | RegDown => ("RegDown Awarded", Dam.RegDown_Awarded)
  | RRS => ("RRSPFR Awarded", Dam.RRSPFR_Awarded)
  | ECRS => ("ECRSSD Awarded", Dam.ECRSSD_Awarded)
  | NonSpin => ("NonSpin Awarded", Dam.NonSpin_Awarded)
  end.

(** [pd.to_numeric(df[price_col], errors='coerce').dropna()] *)
Definition dropna (l : list cell) : list Q :=
  flat_map (fun c => match c with Some q => [q] | None => [] end) l.

(** [mcpcs[mcpcs > 0].mean() if (mcpcs > 0).any() else 0] *)
Definition avg_mcpc (mcpcs : list Q) : Q :=
  let positive := filter (fun q => Qgtb q 0) mcpcs in
  match positive with
  | [] => 0
  | _ :: _ => mean positive
  end.

(** [as_revenues[service]], when the service is computed at all. *)
Definition as_revenue (cols : list string) (df : list Dam.row) (p : product)
  : option Q :=
  let bess_df := filter (fun r => is_PWRSTR (Dam.Resource_Type r)) df in
  if (0 <? List.length bess_df)%nat
     && has_col (fst (award_col p)) cols && has_col (mcpc_col p) cols
  then
    let mcpcs := dropna (map (mcpc_cell p) df) in
    match mcpcs with
    | [] => None
    | _ :: _ =>
        let awards := map (fun r => fillna0 (snd (award_col p) r)) bess_df in
        Some (Qsum (map (fun a => a * avg_mcpc mcpcs) awards))
    end
  else None.

End Structure.

(** * [run_bess_complete_analysis.py]: the result rows *)
Module Complete.

Record entry := mk_entry {
  rt_energy : Q;
  dam_energy : Q;
  reg_up : Q;
  reg_down : Q;
  spin : Q;
  non_spin : Q;
  ecrs : Q
}.

Definition ledger : Type := dict entry.

Record result := mk_result {
  BESS_Asset_Name : string;
  Year : nat;
  RT_Revenue : Q;
  DA_Revenue : Q;
  Spin_Revenue : Q;
  NonSpin_Revenue : Q;
  RegUp_Revenue : Q;
  RegDown_Revenue : Q;
  ECRS_Revenue : Q;
  Total_Revenue : Q
}.

(** [sum(rev.values())], the values in the order of the keys. *)
Definition total (rev : entry) : Q :=
  Qsum [rt_energy rev; dam_energy rev; reg_up rev; reg_down rev; spin rev;
        non_spin rev; ecrs rev].

Definition result_row (year : nat) (name : string) (rev : entry) : result :=
  mk_result name year (rt_energy rev) (dam_energy rev) (spin rev) (non_spin rev)
            (reg_up rev) (reg_down rev) (ecrs rev) (total rev).

Definition create_results (year : nat) (revenues : ledger) : list result :=
  fold_left (fun results item =>
               let name := fst item in
               let rev := snd item in
               if Qgtb (total rev) 0
               then results ++ [result_row year name rev]
               else results)
            revenues [].

(** ** The passes over the files

    This variant has no [.fillna(0)]: a product with a NaN is a NaN, and
    [Series.sum()] leaves the NaNs out. *)

Definition empty_entry : entry := mk_entry 0 0 0 0 0 0 0.

Definition init_revenues (bess_resources : dict Registry.row) : ledger :=
  fold_left (fun revenues name => set name empty_entry revenues)
            (keys bess_resources) [].

(** [a * b] on cells *)
Definition nanmul (a b : cell) : cell :=
  match a, b with
  | Some x, Some y => Some (x * y)
  | _, _ => None
  end.

(** [Series.sum()] *)
Definition nansum (l : list cell) : Q := Qsum (Structure.dropna l).

Definition add_rt_energy (v : Q) (e : entry) : entry :=
  mk_entry (rt_energy e + v) (dam_energy e) (reg_up e) (reg_down e) (spin e)
           (non_spin e) (ecrs e).

Definition add_dam_energy (v : Q) (e : entry) : entry :=
  mk_entry (rt_energy e) (dam_energy e + v) (reg_up e) (reg_down e) (spin e)
           (non_spin e) (ecrs e).

(** [rev[revenue_key] += v]; RRS goes to ['spin']. *)
Definition add_as (p : product) (v : Q) (e : entry) : entry :=
  match p with
  | RegUp =>
      mk_entry (rt_energy e) (dam_energy e) (reg_up e + v) (reg_down e) (spin e)
               (non_spin e) (ecrs e)
  | RegDown =>
      mk_entry (rt_energy e) (dam_energy e) (reg_up e) (reg_down e + v) (spin e)
               (non_spin e) (ecrs e)
  | RRS =>
      mk_entry (rt_energy e) (dam_energy e) (reg_up e) (reg_down e) (spin e + v)
               (non_spin e) (ecrs e)
  | ECRS =>
      mk_entry (rt_energy e) (dam_energy e) (reg_up e) (reg_down e) (spin e)
               (non_spin e) (ecrs e + v)
  | NonSpin =>
      mk_entry (rt_energy e) (dam_energy e) (reg_up e) (reg_down e) (spin e)
               (non_spin e + v) (ecrs e)
  end.

(** [for name in bess_data['Resource Name'].unique(): if name in revenues:
    revenues[name][...] += bess_data[...][column].sum()], the column being
    [amount] row by row. *)
Definition credit_by_name (amount : Dam.row -> cell) (add : Q -> entry -> entry)
           (bess_data : list Dam.row) (revenues : ledger) : ledger :=
  fold_left (fun revenues name =>
               if contains name revenues then
                 let rows :=
                   filter (fun r => (Dam.Resource_Name r =? name)%string) bess_data in
                 update name (add (nansum (map amount rows))) revenues
               else revenues)
            (unique (map Dam.Resource_Name bess_data)) revenues.

(** "Energy revenue" *)
Definition dam_energy_pass (cols : list string) (bess_data : list Dam.row)
           (revenues : ledger) : ledger :=
  if has_col "Awarded Quantity" cols && has_col "Energy Settlement Point Price" cols
  then
    credit_by_name (fun r => nanmul (Dam.Awarded_Quantity r)
                                    (Dam.Energy_Settlement_Point_Price r))
                   add_dam_energy bess_data revenues
  else revenues.

(** [as_services]: award column, price column, revenue key. *)
Definition as_services
  : list ((string * (Dam.row -> cell)) * (string * (Dam.row -> cell)) * product) :=
  [(("RegUp Awarded", Dam.RegUp_Awarded), ("RegUp MCPC", Dam.RegUp_MCPC), RegUp);
   (("RegDown Awarded", Dam.RegDown_Awarded), ("RegDown MCPC", Dam.RegDown_MCPC), RegDown);
   (("ECRSSD Awarded", Dam.ECRSSD_Awarded), ("ECRS MCPC", Dam.ECRS_MCPC), ECRS);
   (("NonSpin Awarded", Dam.NonSpin_Awarded), ("NonSpin MCPC", Dam.NonSpin_MCPC), NonSpin)].

(** The body of [for award_col, (price_col, revenue_key) in as_services.items()]:
    each row is multiplied by the MCPC of the row itself. *)
Definition as_service_step (cols : list string) (bess_data : list Dam.row)
           (revenues : ledger)
           (service : (string * (Dam.row -> cell)) * (string * (Dam.row -> cell)) * product)
  : ledger :=
  let award_col := fst (fst service) in
  let price_col := snd (fst service) in
  let revenue_key := snd service in
  if has_col (fst award_col) cols && has_col (fst price_col) cols then
    credit_by_name (fun r => nanmul (snd award_col r) (snd price_col r))
                   (add_as revenue_key) bess_data revenues
  else revenues.

Definition rrs_types : list (string * (Dam.row -> cell)) :=
  [("RRSPFR Awarded", Dam.RRSPFR_Awarded);
   ("RRSFFR Awarded", Dam.RRSFFR_Awarded);
   ("RRSUFR Awarded", Dam.RRSUFR_Awarded)].

(** "RRS (Spin) - combine all RRS types" *)
Definition rrs_pass (cols : list string) (bess_data : list Dam.row)
           (revenues : ledger) : ledger :=
  if has_col "RRS MCPC" cols then
    fold_left (fun revenues rrs_col =>
                 if has_col (fst rrs_col) cols then
                   credit_by_name (fun r => nanmul (snd rrs_col r) (Dam.RRS_MCPC r))
                                  (add_as RRS) bess_data revenues
                 else revenues)
              rrs_types revenues
  else revenues.

(** The body of [for file in dam_files[:5]]. *)
Definition process_dam_file (revenues : ledger) (file : Dam.file) : ledger :=
  let cols := Dam.columns file in
  let bess_data := filter (fun r => is_PWRSTR (Dam.Resource_Type r)) (Dam.rows file) in
  if (List.length bess_data =? 0)%nat then revenues
  else
    let revenues := dam_energy_pass cols bess_data revenues in
    let revenues := fold_left (as_service_step cols bess_data) as_services revenues in
    rrs_pass cols bess_data revenues.

(** [rt_prices[sp] = price], row after row: the last quote of a settlement
    point stays. *)
Definition load_rt_prices (price_df : list Spp.row) : dict Q :=
  fold_left (fun rt_prices row =>
               set (Spp.SettlementPointName row) (Spp.SettlementPointPrice row)
                   rt_prices)
            price_df [].

(** The body of [for name in bess_data['Resource Name'].unique()] of a
    SCED chunk. *)
Definition sced_name_step (bess_resources : dict Registry.row) (rt_prices : dict Q)
           (bess_data : list Sced.row) (revenues : ledger) (name : string) : ledger :=
  if contains name revenues then
    match get name bess_resources with
    | Some res =>
        match get (Registry.Settlement_Point res) rt_prices with
        | Some price =>
            let base_points :=
              map Sced.Base_Point
                  (filter (fun r => (Sced.Resource_Name r =? name)%string) bess_data) in
            update name (add_rt_energy (nansum base_points * price * (5 # 60))) revenues
        | None => revenues
        end
    | None => revenues
    end
  else revenues.

Definition process_sced_chunk (bess_resources : dict Registry.row)
           (rt_prices : dict Q) (revenues : ledger) (chunk : list Sced.row) : ledger :=
  let bess_data := filter (fun r => is_PWRSTR (Sced.Resource_Type r)) chunk in
  if (List.length bess_data =? 0)%nat then revenues
  else
    fold_left (sced_name_step bess_resources rt_prices bess_data)
              (unique (map Sced.Resource_Name bess_data)) revenues.

Definition chunksize : nat := (50 * 1000)%nat.

Record year_data := mk_year_data {
  dam_files : list Dam.file;
  sced_files : list (list Sced.row);
  price_file : option (list Spp.row)
}.

Definition accumulate_year (bess_resources : dict Registry.row) (data : year_data)
  : ledger :=
  let revenues := init_revenues bess_resources in
  let revenues := fold_left process_dam_file (firstn 5 (dam_files data)) revenues in
  let rt_prices :=
    match price_file data with
    | Some price_df => load_rt_prices price_df
    | None => []
    end in
  fold_left (fun revenues file =>
               fold_left (process_sced_chunk bess_resources rt_prices)
                         (read_csv_chunks chunksize file) revenues)
            (firstn 2 (sced_files data)) revenues.

Definition process_year (bess_resources : dict Registry.row) (year : nat)
           (data : year_data) : list result :=
  create_results year (accumulate_year bess_resources data).

(** [years[-3:]] *)
Definition last_three (years : list nat) : list nat :=
  skipn (List.length years - 3) years.

(** "Get available years": the lines of the logging variant, word for
    word. *)
Definition available_years (file_suffixes : list (option nat)) : list nat :=
  WithLogging.available_years file_suffixes.

End Complete.

(** * [analyze_bess_results.py]

    The script reads [bess_annual_revenues_complete.csv], the table that
    the two variants [run_bess_complete_analysis*.py] write. *)
Module Results.

Definition revenue_cols : list (string * (WithLogging.result -> Q)) :=
  [("RT_Revenue", WithLogging.RT_Revenue);
   ("DA_Revenue", WithLogging.DA_Revenue);
   ("Spin_Revenue", WithLogging.Spin_Revenue);
   ("NonSpin_Revenue", WithLogging.NonSpin_Revenue);
   ("RegUp_Revenue", WithLogging.RegUp_Revenue);
   ("RegDown_Revenue", WithLogging.RegDown_Revenue);
   ("ECRS_Revenue", WithLogging.ECRS_Revenue)].

(** [(total / df['Total_Revenue'].sum() * 100) if df['Total_Revenue'].sum() > 0
    else 0], with [total = df[col].sum()]. *)
Definition pct (df : list WithLogging.result) (col : WithLogging.result -> Q) : Q :=
  let total := Qsum (map col df) in
  if Qgtb (Qsum (map WithLogging.Total_Revenue df)) 0
  then total / Qsum (map WithLogging.Total_Revenue df) * 100
  else 0.

(** The percentages of "Revenue Breakdown (All Years)", in the order of
    [revenue_cols]. *)
Definition breakdown (df : list WithLogging.result) : list Q :=
  map (fun col => pct df (snd col)) revenue_cols.

End Results.

(** * [quick_as_revenue_check.py]: the revenue of the sample hour *)
Module QuickCheck.

(** [pd.to_numeric(hour_all[col].iloc[0], errors='coerce')] *)
Definition first_mcpc (p : product) (hour_all : list Dam.row) : cell :=
  match hour_all with
  | first :: _ => mcpc_cell p first
  | [] => None
  end.

(** [if pd.notna(mw) and mw > 0 and pd.notna(mcpc): bess_revenue += mw * mcpc] *)
Definition add_award (mw mcpc : cell) (bess_revenue : Q) : Q :=
  match mw, mcpc with
  | Some mw, Some mcpc => if Qgtb mw 0 then bess_revenue + mw * mcpc else bess_revenue
  | _, _ => bess_revenue
  end.

(** [rrs_total]: a sub-type is added when its column is there and its
    cell is a number. *)
Definition rrs_total (cols : list string) (bess : Dam.row) : Q :=
  fold_left (fun tot col =>
               if has_col (fst col) cols then
                 match snd col bess with
                 | Some rrs_mw => tot + rrs_mw
                 | None => tot
                 end
               else tot)
            FinalSample.rrs_cols 0.

(** The body of [for _, bess in hour_data.iterrows()] up to the test of
    [bess_revenue]: RegUp, RegDown, RRS, ECRS. *)
Definition bess_revenue (cols : list string) (hour_all : list Dam.row)
           (bess : Dam.row) : Q :=
  let bess_revenue := 0 in
  let bess_revenue :=
    add_award (Dam.RegUp_Awarded bess) (first_mcpc RegUp hour_all) bess_revenue in
  let bess_revenue :=
    add_award (Dam.RegDown_Awarded bess) (first_mcpc RegDown hour_all) bess_revenue in
  let bess_revenue :=
    add_award (Some (rrs_total cols bess)) (first_mcpc RRS hour_all) bess_revenue in
  add_award (Dam.ECRSSD_Awarded bess) (first_mcpc ECRS hour_all) bess_revenue.

(** [total_as_revenue] of the sample hour, the hour of the first storage
    row; [None] stands for the [IndexError] of a file without storage
    rows. *)
Definition total_as_revenue (cols : list string) (df : list Dam.row) : option Q :=
  let bess_df := filter (fun r => is_PWRSTR (Dam.Resource_Type r)) df in
  match bess_df with
  | [] => None
  | first :: _ =>
      let hour_data := filter (in_hour (key_of first)) bess_df in
      let hour_all := filter (in_hour (key_of first)) df in
      if (0 <? List.length hour_all)%nat then
        Some (fold_left (fun total_as_revenue bess =>
                           let bess_revenue := bess_revenue cols hour_all bess in
                           if Qgtb bess_revenue 0
                           then total_as_revenue + bess_revenue
                           else total_as_revenue)
                        hour_data 0)
      else Some 0
  end.

End QuickCheck.

(** * Vocabulary of the statements *)

(** [sumQ g l] is the sum of [g a] over the elements [a] of [l]. *)
Fixpoint sumQ {A : Type} (g : A -> Q) (l : list A) : Q :=
  match l with
  | [] => 0
  | a :: l' => g a + sumQ g l'
  end.

(** The seven monetary accumulators of a ledger entry. *)
Inductive component :=
| DamEnergy
| RtEnergy
| As (p : product).

Definition value (c : component) (e : Corrected.entry) : Q :=
  match c with
  | DamEnergy => Corrected.dam_energy e
  | RtEnergy => Corrected.rt_energy_arbitrage e
  | As RegUp => Corrected.reg_up e
  | As RegDown => Corrected.reg_down e
  | As RRS => Corrected.rrs e
  | As ECRS => Corrected.ecrs e
  | As NonSpin => Corrected.non_spin e
  end.

(** Two ledgers list the same resources and agree, as numbers, on every
    accumulator of every resource. *)
Definition same_values (a b : Corrected.ledger) : Prop :=
  keys a = keys b /\
  forall name ea eb,
    get name a = Some ea -> get name b = Some eb ->
    forall c, value c ea == value c eb.

(** Every row of an hour carries the same MCPC, product by product. *)
Definition uniform_mcpc (df : list Dam.row) : Prop :=
  forall r1 r2, In r1 df -> In r2 df -> key_of r1 = key_of r2 ->
                forall p, cell_eq (mcpc_cell p r1) (mcpc_cell p r2).

(** A ledger transformer [T] adds [delta name c] to accumulator [c] of
    every listed resource [name], and lists the same resources. *)
Definition adds (T : Corrected.ledger -> Corrected.ledger)
           (delta : string -> component -> Q) : Prop :=
  forall d,
    keys (T d) = keys d /\
    forall name e, get name d = Some e ->
                   exists e', get name (T d) = Some e' /\
                              forall c, value c e' == value c e + delta name c.

(** What one storage row of a DAM file is worth with the MCPC it carries
    itself. *)
Definition own_as_amount (cols : list string) (p : product) (r : Dam.row) : Q :=
  if has_col (mcpc_col p) cols && notna_and_positive (mcpc_cell p r)
  then Corrected.award_mw cols p r * fillna0 (mcpc_cell p r)
  else 0.

Definition dam_row_amount (cols : list string) (r : Dam.row) (c : component) : Q :=
  match c with
  | DamEnergy =>
      fillna0 (Dam.Awarded_Quantity r) * fillna0 (Dam.Energy_Settlement_Point_Price r)
  | RtEnergy => 0
  | As p => own_as_amount cols p r
  end.

(** What one SCED row is worth. *)
Definition sced_row_amount (bess_resources : dict Registry.row) (rt_prices : dict Q)
           (r : Sced.row) (c : component) : Q :=
  match c with
  | RtEnergy =>
      fillna0 (Sced.Base_Point r) * (5 # 60)
      * Corrected.rt_price_of bess_resources rt_prices (Sced.Resource_Name r)
  | _ => 0
  end.

(** The number of SCED rows priced with the fallback of 50: rows of a
    listed resource whose settlement point has no price. *)
Definition fallback_uses (bess_resources : dict Registry.row) (rt_prices : dict Q)
           (revenues : Corrected.ledger) (rows : list Sced.row) : nat :=
  List.length
    (filter (fun r =>
               contains (Sced.Resource_Name r) revenues &&
               match get (Sced.Resource_Name r) bess_resources with
               | Some res => negb (contains (Registry.Settlement_Point res) rt_prices)
               | None => true
               end)
            rows).

Definition product_eqb (p q : product) : bool :=
  match p, q with
  | RegUp, RegUp | RegDown, RegDown | RRS, RRS | ECRS, ECRS | NonSpin, NonSpin => true
  | _, _ => false
  end.

(** The amount [v], credited to the accumulator of product [p], as seen
    from accumulator [c]. *)
Definition as_inc (p : product) (v : Q) (c : component) : Q :=
  match c with
  | As q => if product_eqb p q then v else 0
  | _ => 0
  end.

(** The amount [v], credited to resource [owner], as seen from [name]. *)
Definition for_name (owner name : string) (v : Q) : Q :=
  if (owner =? name)%string then v else 0.

(** What [as_block] adds: the storage rows of the hour, all priced with
    the MCPC of the first row of the group. *)
Definition block_delta (cols : list string) (bess_data hour_group : list Dam.row)
           (p : product) (name : string) (c : component) : Q :=
  if has_col (mcpc_col p) cols then
    match hour_group with
    | [] => 0
    | first :: _ =>
        if notna_and_positive (mcpc_cell p first) then
          sumQ (fun row =>
                  for_name (Dam.Resource_Name row) name
                           (as_inc p (Corrected.award_mw cols p row
                                      * fillna0 (mcpc_cell p first)) c))
               (filter (in_hour (key_of first)) bess_data)
        else 0
    end
  else 0.

Definition energy_inc (row : Dam.row) (c : component) : Q :=
  match c with
  | DamEnergy =>
      fillna0 (Dam.Awarded_Quantity row)
      * fillna0 (Dam.Energy_Settlement_Point_Price row)
  | _ => 0
  end.

(** What [process_dam_data] adds. *)
Definition dam_delta (cols : list string) (df bess_data : list Dam.row)
           (name : string) (c : component) : Q :=
  sumQ (fun g => sumQ (fun p => block_delta cols bess_data g p name c) products)
       (groupby df)
  + sumQ (fun row => for_name (Dam.Resource_Name row) name (energy_inc row c))
         bess_data.

(** What a list of storage rows adds when each row is priced with the
    MCPC it carries itself. *)
Definition dam_rows_delta (cols : list string) (bess_data : list Dam.row)
           (name : string) (c : component) : Q :=
  sumQ (fun row => for_name (Dam.Resource_Name row) name (dam_row_amount cols row c))
       bess_data.

(** What a list of SCED storage rows adds. *)
Definition sced_rows_delta (bess_resources : dict Registry.row) (rt_prices : dict Q)
           (bess_data : list Sced.row) (name : string) (c : component) : Q :=
  sumQ (fun row =>
          for_name (Sced.Resource_Name row) name
                   (sced_row_amount bess_resources rt_prices row c))
       bess_data.

(** The AS part of [dam_row_amount]. *)
Definition as_part (cols : list string) (r : Dam.row) (c : component) : Q :=
  match c with
  | As p => own_as_amount cols p r
  | _ => 0
  end.

(** The two accumulation loops of [Corrected.process_year] run over every
    file and every chunk they are given: the DAM files first, then the
    SCED chunks. *)
Definition accumulate (bess_resources : dict Registry.row) (rt_prices : dict Q)
           (files : list Dam.file) (chunks : list (list Sced.row))
           (revenues : Corrected.ledger) : Corrected.ledger :=
  fold_left (Corrected.process_sced_chunk bess_resources rt_prices) chunks
            (fold_left Corrected.process_dam_file files revenues).

(** The input of a year of [Corrected.process_year] for records that are
    split into files: the day-ahead records, with the header [cols], in
    the files [dam_parts]; the dispatch records in the files
    [sced_parts]. *)
Definition partitioned_year (cols : list string) (dam_parts : list (list Dam.row))
           (sced_parts : list (list Sced.row)) (price_file : option (list Spp.row))
  : Corrected.year_data :=
  Corrected.mk_year_data (map (Dam.mk_file cols) dam_parts) sced_parts price_file.

(** The dispatch files stay within the sample that [process_year] reads:
    [sced_files[:10]], and of each file the chunks up to the [break] at
    [chunk_num >= 5], six chunks of [chunksize] rows. *)
Definition within_sample (sced_parts : list (list Sced.row)) : Prop :=
  (List.length sced_parts <= 10)%nat /\
  forall file, In file sced_parts ->
               (List.length file <= 6 * Corrected.chunksize)%nat.

(** [name in revenues] for the resource of a row. *)
Definition known_dam (revenues : Corrected.ledger) (row : Dam.row) : bool :=
  contains (Dam.Resource_Name row) revenues.

Definition known_sced (revenues : Corrected.ledger) (row : Sced.row) : bool :=
  contains (Sced.Resource_Name row) revenues.

(** The statement that some reading of the ledger counts the uses of the
    fallback price: it goes up by [fallback_uses] over any run of SCED rows. *)
Definition fallback_counted : Prop :=
  exists counter : Corrected.ledger -> nat,
    forall bess_resources rt_prices revenues rows,
      counter (fold_left (Corrected.sced_step bess_resources rt_prices) rows revenues)
      = (counter revenues + fallback_uses bess_resources rt_prices revenues rows)%nat.

(** * Sample inputs

    One resource [R1] at settlement point [SP1], and rows of the hour
    ending 1 of one delivery day. *)
Module Sample.

Definition cols : list string :=
  ["Delivery Date"; "Hour Ending"; "Resource Name"; "Resource Type";
   "Awarded Quantity"; "Energy Settlement Point Price";
   "RegUp Awarded"; "RegDown Awarded"; "RRSPFR Awarded"; "RRSFFR Awarded";
   "RRSUFR Awarded"; "ECRSSD Awarded"; "NonSpin Awarded";
   "RegUp MCPC"; "RegDown MCPC"; "RRS MCPC"; "ECRS MCPC"; "NonSpin MCPC"].

Definition bess_resources : dict Registry.row :=
  Corrected.load_bess_resources [Registry.mk_row "R1" "SP1"].

Definition revenues0 : Corrected.ledger := Corrected.init_revenues bess_resources.

(** A storage row of [R1] with an energy award and a RegUp award. *)
Definition dam_row (energy_mw energy_price regup_mw regup_mcpc : Q) : Dam.row :=
  Dam.mk_row "01/01/2024" 1 "R1" "PWRSTR" (Some energy_mw) (Some energy_price)
             (Some regup_mw) (Some 0) (Some 0) (Some 0) (Some 0) (Some 0) (Some 0)
             (Some regup_mcpc) (Some 0) (Some 0) (Some 0) (Some 0).

(** A storage row of [R1] in the hour ending 2, with a RegUp award. *)
Definition dam_row_hour2 (regup_mw regup_mcpc : Q) : Dam.row :=
  Dam.mk_row "01/01/2024" 2 "R1" "PWRSTR" (Some 0) (Some 0)
             (Some regup_mw) (Some 0) (Some 0) (Some 0) (Some 0) (Some 0) (Some 0)
             (Some regup_mcpc) (Some 0) (Some 0) (Some 0) (Some 0).

(** Two hours with MCPCs of 8 and 9, and RegUp awards of 1 MW and 3 MW. *)
Definition two_hours : Dam.file :=
  Dam.mk_file cols [dam_row 0 0 1 8; dam_row_hour2 3 9].

(** The same for a resource that is not in the master list. *)
Definition stranger_row : Dam.row :=
  Dam.mk_row "01/01/2024" 1 "X9" "PWRSTR" (Some 7) (Some 20)
             (Some 3) (Some 0) (Some 0) (Some 0) (Some 0) (Some 0) (Some 0)
             (Some 8) (Some 0) (Some 0) (Some 0) (Some 0).

Definition sced_row (name : string) (base_point : Q) : Sced.row :=
  Sced.mk_row name "PWRSTR" (Some base_point).

(** The end-to-end scenario: 10 MW at $20, 5 MW of RegUp at $8, and one
    interval of +12 MW at $30. *)
Definition scenario : Corrected.year_data :=
  Corrected.mk_year_data
    [Dam.mk_file cols [dam_row 10 20 5 8]]
    [[sced_row "R1" 12]]
    (Some [Spp.mk_row "SP1" 30]).

(** Two quotes for [SP1], $30 for the interval of the dispatch and $10
    for another interval of the year. *)
Definition two_quotes : Corrected.year_data :=
  Corrected.mk_year_data []
    [[sced_row "R1" 12]]
    (Some [Spp.mk_row "SP1" 30; Spp.mk_row "SP1" 10]).

(** One charging interval and no price file. *)
Definition charging_only : Corrected.year_data :=
  Corrected.mk_year_data [] [[sced_row "R1" (-12)]] None.

(** One discharging interval: without any price, and with a quote of $50. *)
Definition no_quote : Corrected.year_data :=
  Corrected.mk_year_data [] [[sced_row "R1" 12]] None.

Definition quote_of_50 : Corrected.year_data :=
  Corrected.mk_year_data [] [[sced_row "R1" 12]] (Some [Spp.mk_row "SP1" 50]).

(** The output row of the scenario. *)
Definition scenario_row : Corrected.result :=
  Corrected.result_row
    2024 "R1"
    (Corrected.mk_entry 200 (1800 # 60) 40 0 0 0 0 1%nat 1%nat (60 # 60) 0).

(** Eleven dispatch rows of +12 MW, priced at $30: in one SCED file, and
    in eleven files of one row. *)
Definition eleven_rows : list Sced.row := repeat (sced_row "R1" 12) 11.

Definition one_file : Corrected.year_data :=
  partitioned_year cols [] [eleven_rows] (Some [Spp.mk_row "SP1" 30]).

Definition eleven_files : Corrected.year_data :=
  partitioned_year cols [] (map (fun r => [r]) eleven_rows)
                   (Some [Spp.mk_row "SP1" 30]).

End Sample.

(** * Vocabulary of the further statements *)

(** [adds] for any ledger: [T] adds [delta name c] to what [val c] reads
    in the entry of every listed resource [name], and lists the same
    resources. *)
Definition adds_to {V C : Type} (val : C -> V -> Q)
           (T : dict V -> dict V) (delta : string -> C -> Q) : Prop :=
  forall d,
    keys (T d) = keys d /\
    forall name e, get name d = Some e ->
                   exists e', get name (T d) = Some e' /\
                              forall c, val c e' == val c e + delta name c.

(** Every entry of a dictionary satisfies [P]. *)
Definition all_entries {V : Type} (P : string -> V -> Prop) (d : dict V) : Prop :=
  forall name e, get name d = Some e -> P name e.

(** The counters and tallies of an entry of [Corrected], read as numbers. *)
Inductive tally := DamHours | RtIntervals | Discharge | Charge.

Definition tally_value (t : tally) (e : Corrected.entry) : Q :=
  match t with
  | DamHours => inject_Z (Z.of_nat (Corrected.dam_hours e))
  | RtIntervals => inject_Z (Z.of_nat (Corrected.rt_intervals e))
  | Discharge => Corrected.total_discharge_mwh e
  | Charge => Corrected.total_charge_mwh e
  end.

(** The accumulators of the variants, read through [component]. *)
Definition with_logging_value (c : component) (e : WithLogging.entry) : Q :=
  match c with
  | DamEnergy => WithLogging.dam_energy e
  | RtEnergy => WithLogging.rt_energy e
  | As RegUp => WithLogging.reg_up e
  | As RegDown => WithLogging.reg_down e
  | As RRS => WithLogging.spin e
  | As ECRS => WithLogging.ecrs e
  | As NonSpin => WithLogging.non_spin e
  end.

Definition complete_value (c : component) (e : Complete.entry) : Q :=
  match c with
  | DamEnergy => Complete.dam_energy e
  | RtEnergy => Complete.rt_energy e
  | As RegUp => Complete.reg_up e
  | As RegDown => Complete.reg_down e
  | As RRS => Complete.spin e
  | As ECRS => Complete.ecrs e
  | As NonSpin => Complete.non_spin e
  end.

Definition final_sample_value (c : component) (e : FinalSample.entry) : Q :=
  match c with
  | DamEnergy => FinalSample.dam_energy e
  | RtEnergy => FinalSample.rt_energy e
  | As RegUp => FinalSample.reg_up e
  | As RegDown => FinalSample.reg_down e
  | As RRS => FinalSample.rrs e
  | As ECRS => FinalSample.ecrs e
  | As NonSpin => FinalSample.non_spin e
  end.

(** A cell that is NaN or a number that is not negative. *)
Definition not_negative (c : cell) : Prop :=
  match c with
  | Some q => 0 <= q
  | None => True
  end.

(** The quotes of a settlement point, in file order. *)
Definition quotes_of (sp : string) (price_df : list Spp.row) : list Q :=
  map Spp.SettlementPointPrice
      (filter (fun row => (Spp.SettlementPointName row =? sp)%string) price_df).

(** The number of storage rows of a resource. *)
Definition dam_row_count (name : string) (df : list Dam.row) : nat :=
  List.length (filter (fun r => (Dam.Resource_Name r =? name)%string)
                      (Corrected.bess_rows df)).

Definition sced_row_count (name : string) (rows : list Sced.row) : nat :=
  List.length (filter (fun r => (Sced.Resource_Name r =? name)%string)
                      (Corrected.sced_bess_rows rows)).

(** A ledger transformer keeps a property of the entries. *)
Definition keeps {V : Type} (P : string -> V -> Prop) (T : dict V -> dict V) : Prop :=
  forall d, all_entries P d -> all_entries P (T d).

(** The real-time revenue of an entry is [price] times the net energy of
    its two tallies, and the tallies are not negative. *)
Definition rt_balanced (price : Q) (e : Corrected.entry) : Prop :=
  Corrected.rt_energy_arbitrage e
  == price * (Corrected.total_discharge_mwh e - Corrected.total_charge_mwh e)
  /\ 0 <= Corrected.total_discharge_mwh e
  /\ 0 <= Corrected.total_charge_mwh e.

(** The price table of a year. *)
Definition year_prices (data : Corrected.year_data) : dict Q :=
  match Corrected.price_file data with
  | Some price_df => Corrected.load_rt_prices price_df
  | None => []
  end.

(** What one storage row of a DAM file, and one dispatch row, add to the
    counters and tallies. *)
Definition dam_tally_inc (t : tally) : Q :=
  match t with
  | DamHours => 1
  | _ => 0
  end.

Definition rt_tally_inc (row : Sced.row) (t : tally) : Q :=
  let base_mw := fillna0 (Sced.Base_Point row) in
  match t with
  | DamHours => 0
  | RtIntervals => 1
  | Discharge => if Qgtb base_mw 0 then base_mw * (5 # 60) else 0
  | Charge => if Qgtb base_mw 0 then 0 else Qabs (base_mw * (5 # 60))
  end.

(** No award cell of the row holds a negative number. *)
Definition awards_not_negative (r : Dam.row) : Prop :=
  not_negative (Dam.RegUp_Awarded r) /\
  not_negative (Dam.RegDown_Awarded r) /\
  not_negative (Dam.RRSPFR_Awarded r) /\
  not_negative (Dam.RRSFFR_Awarded r) /\
  not_negative (Dam.RRSUFR_Awarded r) /\
  not_negative (Dam.ECRSSD_Awarded r) /\
  not_negative (Dam.NonSpin_Awarded r).

(** No MCPC cell of the row holds a negative number. *)
Definition mcpcs_not_negative (r : Dam.row) : Prop :=
  forall p, not_negative (mcpc_cell p r).

(** The quotes of a settlement point in the price file of a year; a year
    without a price file has none. *)
Definition year_quotes (price_file : option (list Spp.row)) (sp : string) : list Q :=
  match price_file with
  | Some price_df => quotes_of sp price_df
  | None => []
  end.

(** The award column of a product that has one column. *)
Definition award_col (p : product) : string :=
  match p with
  | RegUp => "RegUp Awarded"
  | RegDown => "RegDown Awarded"
  | RRS => "RRS Awarded"
  | ECRS => "ECRSSD Awarded"
  | NonSpin => "NonSpin Awarded"
  end.

(** A product is paid from a file by the two variants
    [run_bess_complete_analysis*.py] when the file has its MCPC column
    and, RRS apart, its award column. *)
Definition paid_from (cols : list string) (p : product) : bool :=
  match p with
  | RRS => has_col "RRS MCPC" cols
  | _ => has_col (award_col p) cols && has_col (mcpc_col p) cols
  end.

Definition has_energy_cols (cols : list string) : bool :=
  has_col "Awarded Quantity" cols && has_col "Energy Settlement Point Price" cols.

(** What one storage row is worth in [run_bess_complete_analysis.py]: the
    award times the MCPC of the row itself, an unparseable cell counting
    as 0, and no test of the sign of the MCPC. *)
Definition complete_row_amount (cols : list string) (r : Dam.row) (c : component) : Q :=
  match c with
  | DamEnergy =>
      if has_energy_cols cols
      then fillna0 (Dam.Awarded_Quantity r) * fillna0 (Dam.Energy_Settlement_Point_Price r)
      else 0
  | RtEnergy => 0
  | As p =>
      if paid_from cols p
      then Corrected.award_mw cols p r * fillna0 (mcpc_cell p r)
      else 0
  end.

(** What one storage row is worth in the logging variant: the award times
    the MCPC of the first row of the file, when that one is a number
    greater than 0. *)
Definition with_logging_row_amount (cols : list string) (df : list Dam.row)
           (r : Dam.row) (c : component) : Q :=
  match c with
  | DamEnergy =>
      if has_energy_cols cols
      then fillna0 (Dam.Awarded_Quantity r) * fillna0 (Dam.Energy_Settlement_Point_Price r)
      else 0
  | RtEnergy => 0
  | As p =>
      match df with
      | [] => 0
      | first :: _ =>
          if paid_from cols p && notna_and_positive (mcpc_cell p first)
          then Corrected.award_mw cols p r * fillna0 (mcpc_cell p first)
          else 0
      end
  end.

(** The file has the energy columns and the four award columns that the
    corrected calculator reads without a test. *)
Definition has_award_cols (cols : list string) : bool :=
  has_energy_cols cols
  && has_col "RegUp Awarded" cols && has_col "RegDown Awarded" cols
  && has_col "ECRSSD Awarded" cols && has_col "NonSpin Awarded" cols.

(** Every row of the file carries the same MCPC, product by product. *)
Definition one_mcpc_per_file (df : list Dam.row) : Prop :=
  forall r1 r2, In r1 df -> In r2 df ->
                forall p, cell_eq (mcpc_cell p r1) (mcpc_cell p r2).

(** What one dispatch row is worth in [run_bess_complete_analysis.py]: the
    base point, an unparseable one counting as 0, times the price of the
    settlement point of the resource for five minutes, and nothing when
    the resource has no registry row or its settlement point no price. *)
Definition complete_sced_amount (bess_resources : dict Registry.row)
           (rt_prices : dict Q) (r : Sced.row) (c : component) : Q :=
  match c with
  | RtEnergy =>
      match get (Sced.Resource_Name r) bess_resources with
      | Some res =>
          match get (Registry.Settlement_Point res) rt_prices with
          | Some price => fillna0 (Sced.Base_Point r) * price * (5 # 60)
          | None => 0
          end
      | None => 0
      end
  | _ => 0
  end.

(** The year of [run_bess_complete_analysis.py], row by row: the storage
    rows of the first five DAM files and of the first two SCED files. *)
Definition complete_year_amount (bess_resources : dict Registry.row)
           (data : Complete.year_data) (name : string) (c : component) : Q :=
  let rt_prices :=
    match Complete.price_file data with
    | Some price_df => Complete.load_rt_prices price_df
    | None => []
    end in
  sumQ (fun file =>
          sumQ (fun r => for_name (Dam.Resource_Name r) name
                                  (complete_row_amount (Dam.columns file) r c))
               (Corrected.bess_rows (Dam.rows file)))
       (firstn 5 (Complete.dam_files data))
  + sumQ (fun file =>
            sumQ (fun r => for_name (Sced.Resource_Name r) name
                                    (complete_sced_amount bess_resources rt_prices r c))
                 (Corrected.sced_bess_rows file))
         (firstn 2 (Complete.sced_files data)).

(** What one dispatch row is worth in the sample analysis: the price is
    [avg_prices.get(bess_map.get(name, ''), 50)]. *)
Definition final_sample_rt_amount (bess_map : dict string) (avg_prices : dict Q)
           (r : Sced.row) (c : component) : Q :=
  match c with
  | RtEnergy =>
      fillna0 (Sced.Base_Point r)
      * get_default (get_default (Sced.Resource_Name r) "" bess_map) 50 avg_prices
      * (5 # 60)
  | _ => 0
  end.

(** An award that is a number greater than 0, times a price that is a
    number; 0 otherwise. *)
Definition paid_award (mw mcpc : cell) : Q :=
  match mw, mcpc with
  | Some mw, Some mcpc => if Qgtb mw 0 then mw * mcpc else 0
  | _, _ => 0
  end.

(** [hour_group['Energy Settlement Point Price'].iloc[0]] *)
Definition first_energy_price (hour_group : list Dam.row) : cell :=
  match hour_group with
  | first :: _ => Dam.Energy_Settlement_Point_Price first
  | [] => None
  end.

(** What one storage row is worth in the day-ahead pass of the sample
    analysis, given the hour group it belongs to: the energy award is
    multiplied by the settlement point price of the first row of the
    group, an AS award by the MCPC of the first row of the group. *)
Definition final_sample_row_amount (cols : list string) (hour_group : list Dam.row)
           (r : Dam.row) (c : component) : Q :=
  match c with
  | DamEnergy =>
      match Dam.Awarded_Quantity r, first_energy_price hour_group with
      | Some energy_mw, Some price => energy_mw * price
      | _, _ => 0
      end
  | RtEnergy => 0
  | As RegUp =>
      paid_award (Dam.RegUp_Awarded r) (FinalSample.mcpcs cols hour_group RegUp)
  | As RegDown =>
      paid_award (Dam.RegDown_Awarded r) (FinalSample.mcpcs cols hour_group RegDown)
  | As RRS =>
      paid_award (Some (FinalSample.rrs_total cols r))
                 (FinalSample.mcpcs cols hour_group RRS)
  | As ECRS =>
      if has_col "ECRSSD Awarded" cols
      then paid_award (Dam.ECRSSD_Awarded r) (FinalSample.mcpcs cols hour_group ECRS)
      else 0
  | As NonSpin =>
      paid_award (Dam.NonSpin_Awarded r) (FinalSample.mcpcs cols hour_group NonSpin)
  end.

(** An accumulator of a resource in the ledger of the sample analysis; 0
    for a resource that has no entry. *)
Definition entry_value (c : component) (name : string) (revenues : FinalSample.ledger)
  : Q :=
  match get name revenues with
  | Some e => final_sample_value c e
  | None => 0
  end.

(** The file has the four MCPC columns and the ECRS award column that
    [quick_as_revenue_check.py] reads without a test. *)
Definition has_quick_check_cols (cols : list string) : bool :=
  has_col "RegUp MCPC" cols && has_col "RegDown MCPC" cols
  && has_col "RRS MCPC" cols && has_col "ECRS MCPC" cols
  && has_col "ECRSSD Awarded" cols.

(** * Facts about numbers and sums *)

Lemma Qgtb_true (x y : Q) : Qgtb x y = true <-> y < x.
Proof.
  unfold Qgtb. rewrite negb_true_iff.
  split; intro H.
  - apply Qnot_le_lt. intro Hle. apply Qle_bool_iff in Hle. congruence.
  - destruct (Qle_bool x y) eqn:E; [|reflexivity].
    apply Qle_bool_iff in E. exfalso. apply (Qlt_not_le _ _ H E).
Qed.

Lemma Qgtb_false (x y : Q) : Qgtb x y = false <-> x <= y.
Proof.
  unfold Qgtb. rewrite negb_false_iff. apply Qle_bool_iff.
Qed.

Lemma Qgtb_compat (x x' y : Q) : x == x' -> Qgtb x y = Qgtb x' y.
Proof.
  intro H. destruct (Qgtb x' y) eqn:E.
  - apply Qgtb_true. apply Qgtb_true in E. rewrite H. exact E.
  - apply Qgtb_false. apply Qgtb_false in E. rewrite H. exact E.
Qed.

Lemma cell_eq_positive (a b : cell) :
  cell_eq a b -> notna_and_positive a = notna_and_positive b.
Proof.
  destruct a, b; simpl; intro H; try contradiction; try reflexivity.
  apply Qgtb_compat; assumption.
Qed.

Lemma cell_eq_fillna0 (a b : cell) : cell_eq a b -> fillna0 a == fillna0 b.
Proof.
  destruct a, b; simpl; intro H; try contradiction; [assumption | reflexivity].
Qed.

Section Sums.
Context {A : Type}.

Lemma sumQ_app (g : A -> Q) (l1 l2 : list A) :
  sumQ g (l1 ++ l2) == sumQ g l1 + sumQ g l2.
Proof.
  induction l1 as [|a l1 IH]; simpl.
  - ring.
  - rewrite IH. ring.
Qed.

Lemma sumQ_ext_in (f g : A -> Q) (l : list A) :
  (forall a, In a l -> f a == g a) -> sumQ f l == sumQ g l.
Proof.
  induction l as [|a l IH]; simpl; intro H.
  - reflexivity.
  - rewrite (H a (or_introl eq_refl)), IH; [reflexivity|].
    intros b Hb. apply H. right. exact Hb.
Qed.

Lemma sumQ_zero (f : A -> Q) (l : list A) :
  (forall a, In a l -> f a == 0) -> sumQ f l == 0.
Proof.
  induction l as [|a l IH]; simpl; intro H.
  - reflexivity.
  - rewrite (H a (or_introl eq_refl)), IH; [ring|].
    intros b Hb. apply H. right. exact Hb.
Qed.

Lemma sumQ_plus (f g : A -> Q) (l : list A) :
  sumQ (fun a => f a + g a) l == sumQ f l + sumQ g l.
Proof.
  induction l as [|a l IH]; simpl.
  - ring.
  - rewrite IH. ring.
Qed.

Lemma sumQ_perm (g : A -> Q) (l1 l2 : list A) :
  Permutation l1 l2 -> sumQ g l1 == sumQ g l2.
Proof.
  induction 1; simpl.
  - reflexivity.
  - rewrite IHPermutation. reflexivity.
  - ring.
  - rewrite IHPermutation1. exact IHPermutation2.
Qed.

Lemma sumQ_filter (g : A -> Q) (b : A -> bool) (l : list A) :
  sumQ g (filter b l) == sumQ (fun a => if b a then g a else 0) l.
Proof.
  induction l as [|a l IH]; simpl.
  - reflexivity.
  - destruct (b a); simpl; rewrite IH; ring.
Qed.

End Sums.

Lemma sumQ_flat_map {A B : Type} (g : B -> Q) (h : A -> list B) (l : list A) :
  sumQ g (flat_map h l) == sumQ (fun a => sumQ g (h a)) l.
Proof.
  induction l as [|a l IH]; simpl.
  - reflexivity.
  - rewrite sumQ_app, IH. reflexivity.
Qed.

Lemma sumQ_concat {A : Type} (g : A -> Q) (ls : list (list A)) :
  sumQ g (List.concat ls) == sumQ (fun l => sumQ g l) ls.
Proof.
  induction ls as [|l ls IH]; simpl.
  - reflexivity.
  - rewrite sumQ_app, IH. reflexivity.
Qed.

Lemma sumQ_swap {A B : Type} (g : A -> B -> Q) (la : list A) (lb : list B) :
  sumQ (fun a => sumQ (g a) lb) la == sumQ (fun b => sumQ (fun a => g a b) la) lb.
Proof.
  induction la as [|a la IH]; simpl.
  - symmetry. apply sumQ_zero. reflexivity.
  - rewrite IH, <- sumQ_plus. reflexivity.
Qed.

(** * Facts about dictionaries *)

Section DictFacts.
Context {V : Type}.

Lemma get_update (k k' : string) (f : V -> V) (d : dict V) :
  get k' (update k f d) =
  if (k =? k')%string then option_map f (get k' d) else get k' d.
Proof.
  induction d as [|[k0 v0] d IH]; simpl.
  - destruct (k =? k')%string; reflexivity.
  - destruct (k0 =? k)%string eqn:E0; simpl.
    + apply String.eqb_eq in E0. subst k0.
      destruct (k =? k')%string; reflexivity.
    + destruct (k0 =? k')%string eqn:E1.
      * apply String.eqb_eq in E1. subst k0.
        rewrite String.eqb_sym, E0. reflexivity.
      * exact IH.
Qed.

Lemma keys_update (k : string) (f : V -> V) (d : dict V) :
  keys (update k f d) = keys d.
Proof.
  unfold keys. induction d as [|[k0 v0] d IH]; simpl.
  - reflexivity.
  - destruct (k0 =? k)%string; simpl; [reflexivity | now rewrite IH].
Qed.

Lemma update_absent (k : string) (f : V -> V) (d : dict V) :
  get k d = None -> update k f d = d.
Proof.
  induction d as [|[k0 v0] d IH]; simpl; intro H.
  - reflexivity.
  - destruct (k0 =? k)%string; [discriminate | now rewrite IH].
Qed.

(** The guard [if k in d] around an in-place update changes nothing. *)
Lemma guarded_update (k : string) (f : V -> V) (d : dict V) :
  (if contains k d then update k f d else d) = update k f d.
Proof.
  unfold contains. destruct (get k d) eqn:E; [reflexivity|].
  symmetry. apply update_absent. exact E.
Qed.

Lemma get_None_keys (k : string) (d : dict V) :
  get k d = None <-> ~ In k (keys d).
Proof.
  unfold keys. induction d as [|[k0 v0] d IH]; simpl.
  - tauto.
  - destruct (k0 =? k)%string eqn:E.
    + apply String.eqb_eq in E. split; [discriminate | intro H; exfalso; auto].
    + apply String.eqb_neq in E. rewrite IH. tauto.
Qed.

Lemma get_set (k k' : string) (v : V) (d : dict V) :
  get k' (set k v d) = if (k =? k')%string then Some v else get k' d.
Proof.
  induction d as [|[k0 v0] d IH]; simpl.
  - reflexivity.
  - destruct (k0 =? k)%string eqn:E0; simpl.
    + apply String.eqb_eq in E0. subst k0.
      destruct (k =? k')%string; reflexivity.
    + destruct (k0 =? k')%string eqn:E1.
      * apply String.eqb_eq in E1. subst k0.
        rewrite String.eqb_sym, E0. reflexivity.
      * exact IH.
Qed.

End DictFacts.

(** * Ledger transformers that add *)

Lemma adds_ext (T : Corrected.ledger -> Corrected.ledger)
      (delta delta' : string -> component -> Q) :
  adds T delta -> (forall n c, delta n c == delta' n c) -> adds T delta'.
Proof.
  intros HT Heq d. destruct (HT d) as [Hk Hv]. split; [exact Hk|].
  intros name e He. destruct (Hv name e He) as [e' [Hg Hc]].
  exists e'. split; [exact Hg|]. intro c. rewrite Hc, Heq. reflexivity.
Qed.

Lemma adds_eq (T T' : Corrected.ledger -> Corrected.ledger)
      (delta : string -> component -> Q) :
  (forall d, T d = T' d) -> adds T' delta -> adds T delta.
Proof.
  intros HT H d. rewrite HT. apply H.
Qed.

Lemma adds_id : adds (fun d => d) (fun _ _ => 0).
Proof.
  intro d. split; [reflexivity|].
  intros name e He. exists e. split; [exact He|]. intro c. ring.
Qed.

Lemma adds_compose (T1 T2 : Corrected.ledger -> Corrected.ledger)
      (d1 d2 : string -> component -> Q) :
  adds T1 d1 -> adds T2 d2 ->
  adds (fun d => T2 (T1 d)) (fun n c => d1 n c + d2 n c).
Proof.
  intros H1 H2 d.
  destruct (H1 d) as [Hk1 Hv1]. destruct (H2 (T1 d)) as [Hk2 Hv2].
  split; [congruence|].
  intros name e He.
  destruct (Hv1 name e He) as [e1 [Hg1 Hc1]].
  destruct (Hv2 name e1 Hg1) as [e2 [Hg2 Hc2]].
  exists e2. split; [exact Hg2|].
  intro c. rewrite Hc2, Hc1. ring.
Qed.

Lemma adds_fold {A : Type} (step : Corrected.ledger -> A -> Corrected.ledger)
      (delta : A -> string -> component -> Q) (l : list A) :
  (forall a, In a l -> adds (fun d => step d a) (delta a)) ->
  adds (fun d => fold_left step l d) (fun n c => sumQ (fun a => delta a n c) l).
Proof.
  induction l as [|a l IH]; intro H; simpl.
  - apply adds_id.
  - apply (adds_compose (fun d => step d a) (fun d => fold_left step l d)).
    + apply H. left. reflexivity.
    + apply IH. intros b Hb. apply H. right. exact Hb.
Qed.

Lemma adds_update (k : string) (f : Corrected.entry -> Corrected.entry)
      (inc : component -> Q) :
  (forall e c, value c (f e) == value c e + inc c) ->
  adds (update k f) (fun n c => for_name k n (inc c)).
Proof.
  intros Hf d. split; [apply keys_update|].
  intros name e He. rewrite get_update, He. unfold for_name.
  destruct (k =? name)%string; simpl.
  - exists (f e). split; [reflexivity|]. intro c. apply Hf.
  - exists e. split; [reflexivity|]. intro c. ring.
Qed.

Lemma adds_same_values (T1 T2 : Corrected.ledger -> Corrected.ledger)
      (d1 d2 : string -> component -> Q) (d : Corrected.ledger) :
  adds T1 d1 -> adds T2 d2 -> (forall n c, d1 n c == d2 n c) ->
  same_values (T1 d) (T2 d).
Proof.
  intros H1 H2 Heq.
  destruct (H1 d) as [Hk1 Hv1]. destruct (H2 d) as [Hk2 Hv2].
  split; [congruence|].
  intros name ea eb Ha Hb c.
  destruct (get name d) as [e|] eqn:He.
  - destruct (Hv1 name e He) as [e1 [Hg1 Hc1]].
    destruct (Hv2 name e He) as [e2 [Hg2 Hc2]].
    assert (ea = e1) by congruence. assert (eb = e2) by congruence. subst.
    rewrite Hc1, Hc2, Heq. reflexivity.
  - exfalso. apply get_None_keys in He. rewrite <- Hk1 in He.
    apply get_None_keys in He. congruence.
Qed.

(** * The accumulation steps of [Corrected] add *)

Lemma value_add_as (p : product) (v : Q) (e : Corrected.entry) (c : component) :
  value c (Corrected.add_as p v e) == value c e + as_inc p v c.
Proof.
  destruct c as [| |q]; destruct p; try destruct q; simpl; ring.
Qed.

Lemma value_add_dam_energy (row : Dam.row) (e : Corrected.entry) (c : component) :
  value c (Corrected.add_dam_energy
             (fillna0 (Dam.Awarded_Quantity row)
              * fillna0 (Dam.Energy_Settlement_Point_Price row)) e)
  == value c e + energy_inc row c.
Proof.
  destruct c as [| |q]; try destruct q; simpl; ring.
Qed.

Lemma value_add_rt (base_mw energy_mwh energy_revenue : Q) (e : Corrected.entry)
      (c : component) :
  value c (Corrected.add_rt base_mw energy_mwh energy_revenue e)
  == value c e + match c with RtEnergy => energy_revenue | _ => 0 end.
Proof.
  unfold Corrected.add_rt.
  destruct (Qgtb base_mw 0); destruct c as [| |q]; try destruct q; simpl; ring.
Qed.

Lemma adds_as_row_step (cols : list string) (p : product) (mcpc : Q) (row : Dam.row) :
  adds (fun d => Corrected.as_row_step cols p mcpc d row)
       (fun n c => for_name (Dam.Resource_Name row) n
                            (as_inc p (Corrected.award_mw cols p row * mcpc) c)).
Proof.
  eapply adds_eq.
  - intro d. unfold Corrected.as_row_step. apply guarded_update.
  - apply adds_update. intros e c. apply value_add_as.
Qed.

Lemma adds_as_block (cols : list string) (bess_data hour_group : list Dam.row)
      (p : product) :
  adds (fun d => Corrected.as_block cols bess_data hour_group d p)
       (block_delta cols bess_data hour_group p).
Proof.
  unfold Corrected.as_block, block_delta.
  destruct (has_col (mcpc_col p) cols); [|apply adds_id].
  destruct hour_group as [|first rest]; [apply adds_id|].
  destruct (notna_and_positive (mcpc_cell p first)); [|apply adds_id].
  apply (adds_fold (Corrected.as_row_step cols p (fillna0 (mcpc_cell p first)))).
  intros row _. apply adds_as_row_step.
Qed.

Lemma adds_hour_step (cols : list string) (bess_data hour_group : list Dam.row) :
  adds (fun d => Corrected.hour_step cols bess_data d hour_group)
       (fun n c => sumQ (fun p => block_delta cols bess_data hour_group p n c) products).
Proof.
  unfold Corrected.hour_step.
  apply (adds_fold (Corrected.as_block cols bess_data hour_group)).
  intros p _. apply adds_as_block.
Qed.

Lemma adds_dam_energy_step (row : Dam.row) :
  adds (fun d => Corrected.dam_energy_step d row)
       (fun n c => for_name (Dam.Resource_Name row) n (energy_inc row c)).
Proof.
  eapply adds_eq.
  - intro d. unfold Corrected.dam_energy_step. cbv zeta. apply guarded_update.
  - apply adds_update. intros e c. apply value_add_dam_energy.
Qed.

Lemma adds_process_dam_data (cols : list string) (df bess_data : list Dam.row) :
  adds (Corrected.process_dam_data cols df bess_data) (dam_delta cols df bess_data).
Proof.
  unfold Corrected.process_dam_data, dam_delta.
  apply (adds_compose
           (fun d => fold_left (Corrected.hour_step cols bess_data) (groupby df) d)
           (fun d => fold_left Corrected.dam_energy_step bess_data d)).
  - apply (adds_fold (Corrected.hour_step cols bess_data)).
    intros g _. apply adds_hour_step.
  - apply (adds_fold Corrected.dam_energy_step).
    intros row _. apply adds_dam_energy_step.
Qed.

Lemma adds_sced_step (bess_resources : dict Registry.row) (rt_prices : dict Q)
      (row : Sced.row) :
  adds (fun d => Corrected.sced_step bess_resources rt_prices d row)
       (fun n c => for_name (Sced.Resource_Name row) n
                            (sced_row_amount bess_resources rt_prices row c)).
Proof.
  eapply adds_eq.
  - intro d. unfold Corrected.sced_step. cbv zeta. apply guarded_update.
  - apply adds_update. intros e c. rewrite value_add_rt.
    destruct c; simpl; reflexivity.
Qed.

Lemma adds_process_sced_chunk (bess_resources : dict Registry.row)
      (rt_prices : dict Q) (chunk : list Sced.row) :
  adds (fun d => Corrected.process_sced_chunk bess_resources rt_prices d chunk)
       (sced_rows_delta bess_resources rt_prices (Corrected.sced_bess_rows chunk)).
Proof.
  unfold Corrected.process_sced_chunk, sced_rows_delta.
  destruct (Corrected.sced_bess_rows chunk) as [|r l] eqn:E.
  - simpl. apply adds_id.
  - cbv zeta. change (List.length (r :: l) =? 0)%nat with false. cbv iota.
    apply (adds_fold (Corrected.sced_step bess_resources rt_prices)).
    intros row _. apply adds_sced_step.
Qed.

(** * Hour groups *)

Lemma key_eqb_eq (a b : hour_key) : key_eqb a b = true <-> a = b.
Proof.
  destruct a as [d1 h1], b as [d2 h2]. unfold key_eqb. simpl.
  rewrite andb_true_iff, String.eqb_eq, Nat.eqb_eq.
  split; [intros [-> ->]; reflexivity | intro H; inversion H; auto].
Qed.

Lemma key_eqb_refl (a : hour_key) : key_eqb a a = true.
Proof. apply key_eqb_eq. reflexivity. Qed.

Lemma existsb_key_eqb (k : hour_key) (l : list hour_key) :
  existsb (key_eqb k) l = true <-> In k l.
Proof.
  rewrite existsb_exists. split.
  - intros [x [Hx E]]. apply key_eqb_eq in E. subst. exact Hx.
  - intro H. exists k. split; [exact H | apply key_eqb_refl].
Qed.

Lemma In_distinct (k : hour_key) (l : list hour_key) :
  In k (distinct l) <-> In k l.
Proof.
  induction l as [|a l IH]; simpl; [tauto|].
  destruct (existsb (key_eqb a) l) eqn:E.
  - apply existsb_key_eqb in E. rewrite IH. split; [tauto|].
    intros [<-|H]; assumption.
  - simpl. rewrite IH. tauto.
Qed.

Lemma NoDup_distinct (l : list hour_key) : NoDup (distinct l).
Proof.
  induction l as [|a l IH]; simpl; [constructor|].
  destruct (existsb (key_eqb a) l) eqn:E; [exact IH|].
  constructor; [|exact IH].
  rewrite In_distinct. intro H. apply existsb_key_eqb in H. congruence.
Qed.

Lemma Permutation_insert_sorted (k : hour_key) (l : list hour_key) :
  Permutation (insert_sorted k l) (k :: l).
Proof.
  induction l as [|a l IH]; simpl; [reflexivity|].
  destruct (key_leb k a); [reflexivity|].
  rewrite IH. apply perm_swap.
Qed.

Lemma Permutation_sort_keys (l : list hour_key) : Permutation (sort_keys l) l.
Proof.
  induction l as [|a l IH]; simpl; [reflexivity|].
  rewrite Permutation_insert_sorted, IH. reflexivity.
Qed.

Lemma NoDup_group_keys (df : list Dam.row) : NoDup (group_keys df).
Proof.
  unfold group_keys.
  apply (Permutation_NoDup (l := distinct (map key_of df))).
  - symmetry. apply Permutation_sort_keys.
  - apply NoDup_distinct.
Qed.

Lemma In_group_keys (k : hour_key) (df : list Dam.row) :
  In k (group_keys df) <-> exists r, In r df /\ key_of r = k.
Proof.
  unfold group_keys.
  rewrite (Permutation_in' (eq_refl k) (Permutation_sort_keys _)).
  rewrite In_distinct, in_map_iff.
  split; intros [r [H1 H2]]; exists r; tauto.
Qed.

Lemma sumQ_map {A B : Type} (g : B -> Q) (h : A -> B) (l : list A) :
  sumQ g (map h l) = sumQ (fun a => g (h a)) l.
Proof.
  induction l as [|a l IH]; simpl; [reflexivity | now rewrite IH].
Qed.

Lemma sumQ_indicator (k0 : hour_key) (v : Q) (ks : list hour_key) :
  NoDup ks -> In k0 ks ->
  sumQ (fun k => if key_eqb k0 k then v else 0) ks == v.
Proof.
  induction 1 as [|a ks Hna Hnd IH]; simpl; intro Hin; [contradiction|].
  destruct (key_eqb k0 a) eqn:E.
  - apply key_eqb_eq in E. subst a.
    rewrite sumQ_zero; [ring|].
    intros b Hb. destruct (key_eqb k0 b) eqn:Eb; [|reflexivity].
    apply key_eqb_eq in Eb. subst b. contradiction.
  - destruct Hin as [->|Hin]; [rewrite key_eqb_refl in E; discriminate|].
    rewrite IH by exact Hin. ring.
Qed.

(** Summing hour by hour is summing over all rows. *)
Lemma sumQ_by_hour (h : Dam.row -> Q) (ks : list hour_key) (l : list Dam.row) :
  NoDup ks -> (forall r, In r l -> In (key_of r) ks) ->
  sumQ (fun k => sumQ h (filter (in_hour k) l)) ks == sumQ h l.
Proof.
  intros Hnd. induction l as [|r l IH]; intro Hin; simpl.
  - apply sumQ_zero. reflexivity.
  - rewrite <- IH by (intros r' Hr'; apply Hin; right; exact Hr').
    rewrite <- (sumQ_indicator (key_of r) (h r) ks Hnd)
      by (apply Hin; left; reflexivity).
    rewrite <- sumQ_plus. apply sumQ_ext_in. intros k _.
    unfold in_hour at 1. destruct (key_eqb (key_of r) k); simpl; ring.
Qed.

Lemma sum_products_as_inc (f : product -> Q) (c : component) :
  sumQ (fun p => as_inc p (f p) c) products
  == match c with As q => f q | _ => 0 end.
Proof.
  unfold products. destruct c as [| |q]; simpl; try ring.
  destruct q; simpl; ring.
Qed.

Lemma for_name_compat (owner name : string) (v w : Q) :
  v == w -> for_name owner name v == for_name owner name w.
Proof.
  unfold for_name. destruct (owner =? name)%string; [tauto | reflexivity].
Qed.

Lemma as_inc_compat (p : product) (v w : Q) (c : component) :
  v == w -> as_inc p v c == as_inc p w c.
Proof.
  unfold as_inc. destruct c as [| |q]; try reflexivity.
  destruct (product_eqb p q); [tauto | reflexivity].
Qed.

(** * Rows priced with their own MCPC *)

Section Uniform.
Variables (cols : list string) (df bess_data : list Dam.row).
Hypothesis Huniform : uniform_mcpc df.
Hypothesis Hsub : forall r, In r bess_data -> In r df.

Lemma block_delta_uniform (k : hour_key) (p : product) (n : string) (c : component) :
  In k (group_keys df) ->
  block_delta cols bess_data (filter (in_hour k) df) p n c
  == sumQ (fun row => for_name (Dam.Resource_Name row) n
                               (as_inc p (own_as_amount cols p row) c))
          (filter (in_hour k) bess_data).
Proof.
  intro Hk. apply In_group_keys in Hk. destruct Hk as [r0 [Hr0 Hk0]].
  unfold block_delta, own_as_amount.
  destruct (has_col (mcpc_col p) cols); simpl.
  2:{ symmetry. apply sumQ_zero. intros row _. unfold for_name, as_inc.
      destruct (_ =? _)%string; [|reflexivity].
      destruct c as [| |q]; try reflexivity. destruct (product_eqb p q); reflexivity. }
  destruct (filter (in_hour k) df) as [|first rest] eqn:E.
  { exfalso. assert (H : In r0 (filter (in_hour k) df)).
    { apply filter_In. split; [exact Hr0|]. unfold in_hour. apply key_eqb_eq. exact Hk0. }
    rewrite E in H. exact H. }
  assert (Hfirst : In first df /\ key_of first = k).
  { assert (H : In first (filter (in_hour k) df)) by (rewrite E; left; reflexivity).
    apply filter_In in H. destruct H as [H1 H2]. split; [exact H1|].
    unfold in_hour in H2. apply key_eqb_eq in H2. exact H2. }
  destruct Hfirst as [Hf1 Hf2]. rewrite Hf2.
  assert (Hrow : forall row, In row (filter (in_hour k) bess_data) ->
                             cell_eq (mcpc_cell p row) (mcpc_cell p first)).
  { intros row Hrow. apply filter_In in Hrow. destruct Hrow as [H1 H2].
    unfold in_hour in H2. apply key_eqb_eq in H2.
    apply Huniform; [apply Hsub; exact H1 | exact Hf1 | congruence]. }
  destruct (notna_and_positive (mcpc_cell p first)) eqn:Epos.
  - apply sumQ_ext_in. intros row Hin.
    rewrite (cell_eq_positive _ _ (Hrow row Hin)), Epos.
    apply for_name_compat, as_inc_compat.
    rewrite (cell_eq_fillna0 _ _ (Hrow row Hin)). reflexivity.
  - symmetry. apply sumQ_zero. intros row Hin.
    rewrite (cell_eq_positive _ _ (Hrow row Hin)), Epos.
    unfold for_name, as_inc.
    destruct (_ =? _)%string; [|reflexivity].
    destruct c as [| |q]; try reflexivity. destruct (product_eqb p q); reflexivity.
Qed.

Lemma dam_delta_uniform (n : string) (c : component) :
  dam_delta cols df bess_data n c == dam_rows_delta cols bess_data n c.
Proof.
  unfold dam_delta, dam_rows_delta, groupby.
  rewrite sumQ_map.
  assert (Hsplit :
    sumQ (fun row => for_name (Dam.Resource_Name row) n (dam_row_amount cols row c))
         bess_data
    == sumQ (fun row => for_name (Dam.Resource_Name row) n (as_part cols row c))
            bess_data
       + sumQ (fun row => for_name (Dam.Resource_Name row) n (energy_inc row c))
              bess_data).
  { rewrite <- sumQ_plus. apply sumQ_ext_in. intros row _.
    unfold for_name. destruct (_ =? _)%string; [|ring].
    destruct c as [| |q]; simpl; ring. }
  rewrite Hsplit. apply Qplus_inj_r.
  rewrite <- (sumQ_by_hour _ (group_keys df) bess_data (NoDup_group_keys df)).
  2:{ intros r Hr. apply In_group_keys. exists r. split; [apply Hsub; exact Hr | reflexivity]. }
  apply sumQ_ext_in. intros k Hk.
  rewrite (sumQ_ext_in _ _ products
             (fun p _ => block_delta_uniform k p n c Hk)).
  rewrite sumQ_swap. apply sumQ_ext_in. intros row _.
  unfold for_name. destruct (_ =? _)%string.
  - rewrite sum_products_as_inc. destruct c; reflexivity.
  - apply sumQ_zero. reflexivity.
Qed.

End Uniform.

(** * Files and chunks *)

Lemma process_dam_data_nil (cols : list string) (df : list Dam.row)
      (revenues : Corrected.ledger) :
  Corrected.process_dam_data cols df [] revenues = revenues.
Proof.
  unfold Corrected.process_dam_data. simpl.
  induction (groupby df) as [|g gs IH]; simpl; [reflexivity|].
  assert (H : Corrected.hour_step cols [] revenues g = revenues).
  { unfold Corrected.hour_step, products. simpl. unfold Corrected.as_block.
    repeat match goal with
           | |- context [if ?b then _ else _] => destruct b
           | |- context [match ?l with [] => _ | _ :: _ => _ end] => destruct l
           end; reflexivity. }
  rewrite H. exact IH.
Qed.

Lemma process_dam_file_data (revenues : Corrected.ledger) (file : Dam.file) :
  Corrected.process_dam_file revenues file
  = Corrected.process_dam_data (Dam.columns file) (Dam.rows file)
                               (Corrected.bess_rows (Dam.rows file)) revenues.
Proof.
  unfold Corrected.process_dam_file. cbv zeta.
  destruct (Corrected.bess_rows (Dam.rows file)) as [|r l]; simpl.
  - symmetry. apply process_dam_data_nil.
  - reflexivity.
Qed.

Lemma adds_process_dam_file (file : Dam.file) :
  adds (fun d => Corrected.process_dam_file d file)
       (dam_delta (Dam.columns file) (Dam.rows file)
                  (Corrected.bess_rows (Dam.rows file))).
Proof.
  eapply adds_eq.
  - intro d. apply process_dam_file_data.
  - apply adds_process_dam_data.
Qed.

Lemma uniform_mcpc_incl (l1 l2 : list Dam.row) :
  (forall r, In r l1 -> In r l2) -> uniform_mcpc l2 -> uniform_mcpc l1.
Proof.
  intros Hsub H r1 r2 H1 H2. apply H; apply Hsub; assumption.
Qed.

Lemma adds_dam_files (cols : list string) (files : list Dam.file) :
  (forall f, In f files -> Dam.columns f = cols) ->
  uniform_mcpc (flat_map Dam.rows files) ->
  adds (fun d => fold_left Corrected.process_dam_file files d)
       (dam_rows_delta cols (Corrected.bess_rows (flat_map Dam.rows files))).
Proof.
  intros Hcols Huni.
  eapply adds_ext.
  - apply (adds_fold Corrected.process_dam_file).
    intros f _. apply adds_process_dam_file.
  - intros n c. cbv beta. symmetry.
    unfold dam_rows_delta, Corrected.bess_rows.
    rewrite sumQ_filter, sumQ_flat_map.
    apply sumQ_ext_in. intros f Hf.
    rewrite <- sumQ_filter, <- (Hcols f Hf). symmetry.
    apply dam_delta_uniform.
    + apply (uniform_mcpc_incl _ (flat_map Dam.rows files)); [|exact Huni].
      intros r Hr. apply in_flat_map. exists f. split; assumption.
    + intros r Hr. unfold Corrected.bess_rows in Hr. apply filter_In in Hr. tauto.
Qed.

Lemma adds_sced_chunks (bess_resources : dict Registry.row) (rt_prices : dict Q)
      (chunks : list (list Sced.row)) :
  adds (fun d => fold_left (Corrected.process_sced_chunk bess_resources rt_prices)
                           chunks d)
       (sced_rows_delta bess_resources rt_prices
                        (Corrected.sced_bess_rows (List.concat chunks))).
Proof.
  eapply adds_ext.
  - apply (adds_fold (Corrected.process_sced_chunk bess_resources rt_prices)).
    intros chunk _. apply adds_process_sced_chunk.
  - intros n c. cbv beta.
    unfold sced_rows_delta, Corrected.sced_bess_rows.
    rewrite (sumQ_filter _ _ (List.concat chunks)), sumQ_concat.
    apply sumQ_ext_in. intros chunk _. rewrite sumQ_filter. reflexivity.
Qed.

Lemma dam_rows_delta_perm (cols : list string) (l1 l2 : list Dam.row)
      (n : string) (c : component) :
  Permutation l1 l2 ->
  dam_rows_delta cols (Corrected.bess_rows l1) n c
  == dam_rows_delta cols (Corrected.bess_rows l2) n c.
Proof.
  intro H. unfold dam_rows_delta, Corrected.bess_rows.
  rewrite !sumQ_filter. apply sumQ_perm. exact H.
Qed.

Lemma sced_rows_delta_perm (bess_resources : dict Registry.row) (rt_prices : dict Q)
      (l1 l2 : list Sced.row) (n : string) (c : component) :
  Permutation l1 l2 ->
  sced_rows_delta bess_resources rt_prices (Corrected.sced_bess_rows l1) n c
  == sced_rows_delta bess_resources rt_prices (Corrected.sced_bess_rows l2) n c.
Proof.
  intro H. unfold sced_rows_delta, Corrected.sced_bess_rows.
  rewrite !sumQ_filter. apply sumQ_perm. exact H.
Qed.

Lemma uniform_mcpc_perm (l1 l2 : list Dam.row) :
  Permutation l1 l2 -> uniform_mcpc l1 -> uniform_mcpc l2.
Proof.
  intros Hp. apply uniform_mcpc_incl.
  intros r Hr. apply (Permutation_in r (Permutation_sym Hp)). exact Hr.
Qed.

(** The chunk loop of a SCED file runs over all its chunks when there
    are at most six of them. *)
Lemma sced_chunk_loop_all (bess_resources : dict Registry.row) (rt_prices : dict Q)
      (chunks : list (list Sced.row)) :
  forall (chunk_num : nat) (revenues : Corrected.ledger),
    (chunk_num + List.length chunks <= 6)%nat ->
    Corrected.sced_chunk_loop bess_resources rt_prices chunk_num chunks revenues
    = fold_left (Corrected.process_sced_chunk bess_resources rt_prices) chunks revenues.
Proof.
  induction chunks as [|chunk rest IH]; intros chunk_num revenues Hlen;
    cbn [Corrected.sced_chunk_loop fold_left List.length] in *.
  - reflexivity.
  - destruct (List.length (Corrected.sced_bess_rows chunk) =? 0)%nat.
    + apply IH. lia.
    + destruct (5 <=? chunk_num)%nat eqn:E.
      * apply Nat.leb_le in E. destruct rest; [reflexivity | simpl in Hlen; lia].
      * apply IH. lia.
Qed.

(** The chunks of a file are its rows, cut in pieces. *)
Lemma chunks_upto_concat (n fuel : nat) :
  (0 < n)%nat ->
  forall l : list Sced.row,
    (List.length l <= fuel)%nat -> List.concat (chunks_upto fuel n l) = l.
Proof.
  intro Hn. induction fuel as [|fuel IH]; intros l Hl.
  - destruct l; [reflexivity | simpl in Hl; lia].
  - destruct l as [|r l]; [reflexivity|].
    cbn [chunks_upto List.concat]. rewrite IH.
    + apply firstn_skipn.
    + rewrite length_skipn. cbn [List.length] in *. lia.
Qed.

Lemma read_csv_chunks_concat (n : nat) (l : list Sced.row) :
  (0 < n)%nat -> List.concat (read_csv_chunks n l) = l.
Proof.
  intro Hn. apply chunks_upto_concat; [exact Hn | apply Nat.le_refl].
Qed.

Lemma fold_left_flat_map {A B C : Type} (f : A -> C -> A) (g : B -> list C)
      (l : list B) :
  forall a : A,
    fold_left f (flat_map g l) a = fold_left (fun a x => fold_left f (g x) a) l a.
Proof.
  induction l as [|x l IH]; intro a; simpl.
  - reflexivity.
  - rewrite fold_left_app. apply IH.
Qed.

Lemma fold_left_ext_in {A B : Type} (f g : A -> B -> A) (l : list B) :
  (forall a x, In x l -> f a x = g a x) ->
  forall a : A, fold_left f l a = fold_left g l a.
Proof.
  induction l as [|x l IH]; intros H a; simpl.
  - reflexivity.
  - rewrite (H a x (or_introl eq_refl)). apply IH.
    intros a' y Hy. apply H. right. exact Hy.
Qed.

(** On a year with at most ten SCED files of at most six chunks each, the
    year is accumulated over all its files and chunks. *)
Lemma accumulate_year_all (bess_resources : dict Registry.row)
      (data : Corrected.year_data) :
  (List.length (Corrected.sced_files data) <= 10)%nat ->
  (forall file, In file (Corrected.sced_files data) ->
                (List.length (read_csv_chunks Corrected.chunksize file) <= 6)%nat) ->
  Corrected.accumulate_year bess_resources data
  = accumulate bess_resources
               match Corrected.price_file data with
               | Some price_df => Corrected.load_rt_prices price_df
               | None => []
               end
               (Corrected.dam_files data)
               (flat_map (read_csv_chunks Corrected.chunksize)
                         (Corrected.sced_files data))
               (Corrected.init_revenues bess_resources).
Proof.
  intros Hfiles Hchunks.
  unfold Corrected.accumulate_year, accumulate. cbv zeta.
  rewrite firstn_all2 by exact Hfiles.
  rewrite fold_left_flat_map.
  apply fold_left_ext_in. intros revenues file Hfile.
  unfold Corrected.process_sced_file.
  apply sced_chunk_loop_all. simpl. apply Hchunks. exact Hfile.
Qed.

(** The end-to-end scenario of the specification: 10 MW at $20 and 5 MW of
    RegUp at $8 day-ahead, one interval of +12 MW at $30. *)
Lemma end_to_end_scenario :
  Corrected.process_year Sample.bess_resources 2024 Sample.scenario
  = [Sample.scenario_row]
  /\ Corrected.DA_Revenue Sample.scenario_row == 200
  /\ Corrected.RegUp_Revenue Sample.scenario_row == 40
  /\ Corrected.RT_Revenue Sample.scenario_row == 30
  /\ Corrected.Total_Revenue Sample.scenario_row == 270
  /\ Corrected.AS_Pct Sample.scenario_row == 40 / 270 * 100.
Proof.
  split; [vm_compute; reflexivity|].
  repeat split.
Qed.

(** * C3. Order and chunking of the input *)

(** The two accumulation loops, run over every file and every chunk they
    are given, do not depend on how the records are split. *)
Lemma accumulate_same_values
      (bess_resources : dict Registry.row) (rt_prices : dict Q)
      (cols : list string) (files1 files2 : list Dam.file)
      (chunks1 chunks2 : list (list Sced.row)) (revenues : Corrected.ledger) :
  (forall f, In f files1 -> Dam.columns f = cols) ->
  (forall f, In f files2 -> Dam.columns f = cols) ->
  Permutation (flat_map Dam.rows files1) (flat_map Dam.rows files2) ->
  uniform_mcpc (flat_map Dam.rows files1) ->
  Permutation (List.concat chunks1) (List.concat chunks2) ->
  same_values (accumulate bess_resources rt_prices files1 chunks1 revenues)
              (accumulate bess_resources rt_prices files2 chunks2 revenues).
Proof.
  intros Hc1 Hc2 Hperm Huni Hchunks.
  unfold accumulate.
  apply (adds_same_values
           (fun d => fold_left (Corrected.process_sced_chunk bess_resources rt_prices)
                               chunks1 (fold_left Corrected.process_dam_file files1 d))
           (fun d => fold_left (Corrected.process_sced_chunk bess_resources rt_prices)
                               chunks2 (fold_left Corrected.process_dam_file files2 d))
           (fun n c =>
              dam_rows_delta cols (Corrected.bess_rows (flat_map Dam.rows files1)) n c
              + sced_rows_delta bess_resources rt_prices
                                (Corrected.sced_bess_rows (List.concat chunks1)) n c)
           (fun n c =>
              dam_rows_delta cols (Corrected.bess_rows (flat_map Dam.rows files2)) n c
              + sced_rows_delta bess_resources rt_prices
                                (Corrected.sced_bess_rows (List.concat chunks2)) n c)).
  - apply (adds_compose (fun d => fold_left Corrected.process_dam_file files1 d)).
    + apply adds_dam_files; assumption.
    + apply adds_sced_chunks.
  - apply (adds_compose (fun d => fold_left Corrected.process_dam_file files2 d)).
    + apply adds_dam_files; [assumption|].
      apply (uniform_mcpc_perm _ _ Hperm Huni).
    + apply adds_sced_chunks.
  - intros n c.
    rewrite (dam_rows_delta_perm cols _ _ n c Hperm).
    rewrite (sced_rows_delta_perm bess_resources rt_prices _ _ n c Hchunks).
    reflexivity.
Qed.

(** A file of at most [k] times [n] rows is read in at most [k] chunks. *)
Lemma chunks_upto_length (n fuel : nat) :
  (0 < n)%nat ->
  forall (l : list Sced.row) (k : nat),
    (List.length l <= k * n)%nat ->
    (List.length (chunks_upto fuel n l) <= k)%nat.
Proof.
  intro Hn. induction fuel as [|fuel IH]; intros l k Hl; cbn [chunks_upto].
  - cbn [List.length]. lia.
  - destruct l as [|r l]; [cbn [List.length]; lia|].
    destruct k as [|k]; [cbn [List.length] in Hl; lia|].
    cbn [List.length]. apply le_n_S. apply IH.
    rewrite length_skipn. cbn [List.length] in *. lia.
Qed.

Lemma within_sample_chunks (sced_parts : list (list Sced.row)) :
  within_sample sced_parts ->
  forall file, In file sced_parts ->
               (List.length (read_csv_chunks Corrected.chunksize file) <= 6)%nat.
Proof.
  intros [_ H] file Hfile. unfold read_csv_chunks.
  apply chunks_upto_length; [unfold Corrected.chunksize; lia | apply H; exact Hfile].
Qed.

Lemma concat_chunks (n : nat) (files : list (list Sced.row)) :
  (0 < n)%nat ->
  List.concat (flat_map (read_csv_chunks n) files) = List.concat files.
Proof.
  intro Hn. induction files as [|file files IH]; cbn [flat_map List.concat].
  - reflexivity.
  - rewrite concat_app, IH, (read_csv_chunks_concat n file Hn). reflexivity.
Qed.

Lemma rows_of_parts (cols : list string) (dam_parts : list (list Dam.row)) :
  flat_map Dam.rows (map (Dam.mk_file cols) dam_parts) = List.concat dam_parts.
Proof.
  induction dam_parts as [|part parts IH]; cbn [map flat_map List.concat].
  - reflexivity.
  - rewrite IH. reflexivity.
Qed.

(** C3, as amended.  Take the day-ahead and real-time records of a period
    in which all rows of a delivery hour carry the same MCPC, product by
    product.  Split them into DAM files and SCED files in two ways, in any
    orders, so that the SCED files of either way stay within the sample
    that [process_year] reads: at most ten files, each of at most six
    chunks.  Then the two ledgers of the year, as [process_year]
    accumulates them, list the same resources and agree on [dam_energy],
    [rt_energy_arbitrage] and the five AS accumulators of every
    resource. *)
Theorem accumulation_order_independent
        (bess_resources : dict Registry.row) (cols : list string)
        (dam_parts1 dam_parts2 : list (list Dam.row))
        (sced_parts1 sced_parts2 : list (list Sced.row))
        (price_file : option (list Spp.row)) :
  Permutation (List.concat dam_parts1) (List.concat dam_parts2) ->
  uniform_mcpc (List.concat dam_parts1) ->
  Permutation (List.concat sced_parts1) (List.concat sced_parts2) ->
  within_sample sced_parts1 ->
  within_sample sced_parts2 ->
  same_values
    (Corrected.accumulate_year
       bess_resources (partitioned_year cols dam_parts1 sced_parts1 price_file))
    (Corrected.accumulate_year
       bess_resources (partitioned_year cols dam_parts2 sced_parts2 price_file)).
Proof.
  intros Hdam Huni Hsced Hs1 Hs2.
  assert (Hsize : (0 < Corrected.chunksize)%nat) by (unfold Corrected.chunksize; lia).
  rewrite !accumulate_year_all;
    try (apply within_sample_chunks; assumption);
    try (destruct Hs1 as [H1 _]; exact H1);
    try (destruct Hs2 as [H2 _]; exact H2).
  unfold partitioned_year.
  cbn [Corrected.dam_files Corrected.sced_files Corrected.price_file].
  apply (accumulate_same_values _ _ cols).
  - intros f Hf. apply in_map_iff in Hf. destruct Hf as [part [<- _]]. reflexivity.
  - intros f Hf. apply in_map_iff in Hf. destruct Hf as [part [<- _]]. reflexivity.
  - rewrite !rows_of_parts. exact Hdam.
  - rewrite rows_of_parts. exact Huni.
  - rewrite !(concat_chunks _ _ Hsize). exact Hsced.
Qed.

(** A run of C3: two rows of one hour with the same MCPC in one file or in
    two, two dispatch rows in one file or in two. *)
Lemma accumulation_order_independent_witness :
  same_values
    (Corrected.accumulate_year
       Sample.bess_resources
       (partitioned_year
          Sample.cols
          [[Sample.dam_row 10 20 5 8; Sample.dam_row 4 25 2 8]]
          [[Sample.sced_row "R1" 12; Sample.sced_row "R1" (-8)]]
          (Some [Spp.mk_row "SP1" 30])))
    (Corrected.accumulate_year
       Sample.bess_resources
       (partitioned_year
          Sample.cols
          [[Sample.dam_row 4 25 2 8]; [Sample.dam_row 10 20 5 8]]
          [[Sample.sced_row "R1" (-8)]; [Sample.sced_row "R1" 12]]
          (Some [Spp.mk_row "SP1" 30]))).
Proof.
  apply accumulation_order_independent.
  - cbn [List.concat app]. apply perm_swap.
  - intros r1 r2 [<-|[<-|[]]] [<-|[<-|[]]] _ p; destruct p; simpl; reflexivity.
  - cbn [List.concat app]. apply perm_swap.
  - split; [cbn [List.length]; lia|].
    intros file [<-|[]]. cbn [List.length]. unfold Corrected.chunksize. lia.
  - split; [cbn [List.length]; lia|].
    intros file [<-|[<-|[]]]; cbn [List.length]; unfold Corrected.chunksize; lia.
Defined.

(** C3 as stated fails on records that the sample leaves out: eleven
    dispatch rows of +12 MW at $30 earn 330 when they come in one SCED
    file, and 300 when they come in eleven files, of which [process_year]
    reads the first ten. *)
Lemma sampling_cap_changes_rt_energy :
  Permutation (List.concat (Corrected.sced_files Sample.one_file))
              (List.concat (Corrected.sced_files Sample.eleven_files))
  /\ (exists e1 e2,
         get "R1" (Corrected.accumulate_year Sample.bess_resources Sample.one_file)
         = Some e1 /\
         get "R1" (Corrected.accumulate_year Sample.bess_resources Sample.eleven_files)
         = Some e2 /\
         Corrected.rt_energy_arbitrage e1 == 330 /\
         Corrected.rt_energy_arbitrage e2 == 300)
  /\ ~ same_values
       (Corrected.accumulate_year Sample.bess_resources Sample.one_file)
       (Corrected.accumulate_year Sample.bess_resources Sample.eleven_files).
Proof.
  split; [reflexivity|]. split.
  - eexists. eexists. split; [vm_compute; reflexivity|].
    split; [vm_compute; reflexivity|]. split; reflexivity.
  - intros [_ H].
    specialize (H "R1" _ _ eq_refl eq_refl RtEnergy).
    vm_compute in H. discriminate H.
Qed.

(** The hypothesis on the MCPCs is used: the price of an hour is read from
    the first row of the hour group, so two rows of one hour that carry
    different RegUp MCPCs (8 and 9) give 16 in one file, where both are
    priced at 8, and 17 in two files. *)
Lemma first_row_prices_the_hour :
  Permutation
    (flat_map Dam.rows
              [Dam.mk_file Sample.cols [Sample.dam_row 0 0 1 8; Sample.dam_row 0 0 1 9]])
    (flat_map Dam.rows
              [Dam.mk_file Sample.cols [Sample.dam_row 0 0 1 8];
               Dam.mk_file Sample.cols [Sample.dam_row 0 0 1 9]])
  /\ ~ same_values
       (accumulate Sample.bess_resources []
                   [Dam.mk_file Sample.cols [Sample.dam_row 0 0 1 8; Sample.dam_row 0 0 1 9]]
                   [] Sample.revenues0)
       (accumulate Sample.bess_resources []
                   [Dam.mk_file Sample.cols [Sample.dam_row 0 0 1 8];
                    Dam.mk_file Sample.cols [Sample.dam_row 0 0 1 9]]
                   [] Sample.revenues0).
Proof.
  split; [reflexivity|].
  intros [_ H].
  specialize (H "R1" _ _ eq_refl eq_refl (As RegUp)).
  vm_compute in H. discriminate H.
Qed.

(** * C1. One clearing price per product and hour *)

Lemma product_eqb_eq (p q : product) : product_eqb p q = true <-> p = q.
Proof.
  destruct p, q; simpl; split; intro H; try reflexivity; discriminate H.
Qed.

Lemma as_inc_same (p : product) (v : Q) : as_inc p v (As p) = v.
Proof.
  unfold as_inc. destruct (product_eqb p p) eqn:E; [reflexivity|].
  assert (H : product_eqb p p = true) by (apply product_eqb_eq; reflexivity).
  congruence.
Qed.

Lemma as_inc_other (p : product) (v : Q) (c : component) :
  c <> As p -> as_inc p v c = 0.
Proof.
  intro H. destruct c as [| |q]; simpl; try reflexivity.
  destruct (product_eqb p q) eqn:E; [|reflexivity].
  apply product_eqb_eq in E. subst. contradiction.
Qed.

Lemma block_delta_other (cols : list string) (bess_data hour_group : list Dam.row)
      (p : product) (n : string) (c : component) :
  c <> As p -> block_delta cols bess_data hour_group p n c == 0.
Proof.
  intro H. unfold block_delta.
  destruct (has_col (mcpc_col p) cols); [|reflexivity].
  destruct hour_group as [|first rest]; [reflexivity|].
  destruct (notna_and_positive (mcpc_cell p first)); [|reflexivity].
  apply sumQ_zero. intros row _. rewrite (as_inc_other p _ c H).
  unfold for_name. destruct (_ =? _)%string; reflexivity.
Qed.

(** The block reads the MCPC of the first row of the group and of no
    other row. *)
Lemma as_block_reads_first_row
      (cols : list string) (bess_data rest rest' : list Dam.row) (first : Dam.row)
      (revenues : Corrected.ledger) (p : product) :
  Corrected.as_block cols bess_data (first :: rest) revenues p
  = Corrected.as_block cols bess_data (first :: rest') revenues p.
Proof.
  reflexivity.
Qed.

Lemma as_block_uniform_group
      (cols : list string) (bess_data hour_group : list Dam.row) (k : hour_key)
      (p : product) (m : Q) (revenues : Corrected.ledger)
      (name : string) (rev : Corrected.entry) :
  has_col (mcpc_col p) cols = true ->
  hour_group <> [] ->
  (forall r, In r hour_group -> key_of r = k /\ cell_eq (mcpc_cell p r) (Some m)) ->
  get name revenues = Some rev ->
  exists rev',
    get name (Corrected.as_block cols bess_data hour_group revenues p) = Some rev' /\
    value (As p) rev'
    == value (As p) rev
       + (if Qgtb m 0
          then sumQ (fun row => Corrected.award_mw cols p row * m)
                    (filter (fun row => (Dam.Resource_Name row =? name)%string)
                            (filter (in_hour k) bess_data))
          else 0) /\
    forall c, c <> As p -> value c rev' == value c rev.
Proof.
  intros Hcol Hne Hrows Hget.
  destruct (adds_as_block cols bess_data hour_group p revenues) as [_ Hv].
  destruct (Hv name rev Hget) as [rev' [Hg Hc]].
  exists rev'. split; [exact Hg|]. split.
  - rewrite Hc. apply Qplus_inj_l.
    unfold block_delta. rewrite Hcol.
    destruct hour_group as [|first rest]; [contradiction|].
    destruct (Hrows first (or_introl eq_refl)) as [Hk Hm].
    destruct (mcpc_cell p first) as [m'|]; simpl in Hm; [|contradiction].
    cbn [notna_and_positive fillna0]. rewrite (Qgtb_compat m' m 0 Hm).
    destruct (Qgtb m 0); [|reflexivity].
    rewrite Hk, (sumQ_filter _ _ (filter (in_hour k) bess_data)).
    apply sumQ_ext_in. intros row _.
    rewrite as_inc_same. unfold for_name.
    destruct (_ =? _)%string; [rewrite Hm|]; reflexivity.
  - intros c Hneq. rewrite Hc, (block_delta_other _ _ _ _ _ _ Hneq). ring.
Qed.

(** C1, as amended.  In [Corrected.process_year], the block of product [p]
    for the hour [k] of a file reads one price, the MCPC of the first row
    of the hour group.  When the MCPC column is there and every row of the
    file for that hour carries the value [m], a listed resource [name] is
    credited, on the accumulator of [p], with [award_mw * m] for each of
    its storage rows of that hour if [m > 0], and with nothing otherwise;
    its other accumulators stay as they are. *)
Theorem as_block_single_price
        (cols : list string) (df : list Dam.row) (k : hour_key)
        (p : product) (m : Q) (revenues : Corrected.ledger)
        (name : string) (rev : Corrected.entry) :
  In k (group_keys df) ->
  has_col (mcpc_col p) cols = true ->
  (forall r, In r df -> key_of r = k -> cell_eq (mcpc_cell p r) (Some m)) ->
  get name revenues = Some rev ->
  exists rev',
    get name (Corrected.as_block cols (Corrected.bess_rows df)
                                 (filter (in_hour k) df) revenues p)
    = Some rev' /\
    value (As p) rev'
    == value (As p) rev
       + (if Qgtb m 0
          then sumQ (fun row => Corrected.award_mw cols p row * m)
                    (filter (fun row => (Dam.Resource_Name row =? name)%string)
                            (filter (in_hour k) (Corrected.bess_rows df)))
          else 0) /\
    forall c, c <> As p -> value c rev' == value c rev.
Proof.
  intros Hk Hcol Hrows Hget.
  apply as_block_uniform_group; try assumption.
  - apply In_group_keys in Hk. destruct Hk as [r [Hr Hkr]].
    intro E.
    assert (H : In r (filter (in_hour k) df)).
    { apply filter_In. split; [exact Hr|]. apply key_eqb_eq. exact Hkr. }
    rewrite E in H. exact H.
  - intros r Hr. apply filter_In in Hr. destruct Hr as [Hr1 Hr2].
    apply key_eqb_eq in Hr2. split; [exact Hr2|]. apply Hrows; assumption.
Qed.

(** A run of C1: 5 MW of RegUp at an MCPC of 8. *)
Lemma as_block_single_price_witness :
  exists rev',
    get "R1" (Corrected.as_block
                Sample.cols (Corrected.bess_rows [Sample.dam_row 10 20 5 8])
                (filter (in_hour ("01/01/2024", 1%nat)) [Sample.dam_row 10 20 5 8])
                Sample.revenues0 RegUp)
    = Some rev' /\
    value (As RegUp) rev'
    == value (As RegUp) Corrected.empty_entry
       + (if Qgtb 8 0
          then sumQ (fun row => Corrected.award_mw Sample.cols RegUp row * 8)
                    (filter (fun row => (Dam.Resource_Name row =? "R1")%string)
                            (filter (in_hour ("01/01/2024", 1%nat))
                                    (Corrected.bess_rows [Sample.dam_row 10 20 5 8])))
          else 0) /\
    forall c, c <> As RegUp -> value c rev' == value c Corrected.empty_entry.
Proof.
  apply as_block_single_price.
  - left. reflexivity.
  - reflexivity.
  - intros r [<-|[]] _. reflexivity.
  - reflexivity.
Defined.

(** The variants price differently.  In
    [run_bess_complete_analysis_with_logging.py] the price of a product is
    the MCPC of the first row of the file, for every hour of the file: with
    1 MW at 8 in hour 1 and 3 MW at 9 in hour 2, [reg_up] is 32
    (1 * 8 + 3 * 8), where the hourly prices give 35. *)
Lemma with_logging_prices_file_with_first_row :
  (exists rev,
      get "R1" (WithLogging.process_dam_file
                  (WithLogging.init_revenues Sample.bess_resources) Sample.two_hours)
      = Some rev /\ WithLogging.reg_up rev == 32) /\
  (exists rev,
      get "R1" (Corrected.process_dam_file Sample.revenues0 Sample.two_hours)
      = Some rev /\ Corrected.reg_up rev == 35).
Proof.
  split; eexists; (split; [vm_compute; reflexivity|]); vm_compute; reflexivity.
Qed.

(** In [analyze_bess_as_revenue_structure.py] the price of a product is
    the mean of the positive MCPCs of all rows of the file: the same file
    gives (1 + 3) * 8.5 = 34. *)
Lemma structure_script_averages_mcpc :
  exists revenue,
    Structure.as_revenue Sample.cols (Dam.rows Sample.two_hours) RegUp = Some revenue
    /\ revenue == 34.
Proof.
  eexists. split; [vm_compute; reflexivity|]. vm_compute. reflexivity.
Qed.

(** C1 as stated fails: when every row of the hour carries an MCPC of -1,
    a RegUp award of 5 MW is not credited with 5 * (-1); nothing is
    credited. *)
Lemma negative_mcpc_is_not_multiplied :
  (forall r, In r [Sample.dam_row 10 20 5 (-1)] ->
             cell_eq (mcpc_cell RegUp r) (Some (-1))) /\
  exists rev',
    get "R1" (Corrected.as_block Sample.cols [Sample.dam_row 10 20 5 (-1)]
                                 [Sample.dam_row 10 20 5 (-1)] Sample.revenues0 RegUp)
    = Some rev' /\
    ~ (value (As RegUp) rev'
       == value (As RegUp) Corrected.empty_entry
          + Corrected.award_mw Sample.cols RegUp (Sample.dam_row 10 20 5 (-1)) * (-1)).
Proof.
  split.
  - intros r [<-|[]]. simpl. reflexivity.
  - exists Corrected.empty_entry. split; [reflexivity|].
    vm_compute. discriminate.
Qed.

(** * C2. The real-time price *)

(** What the code does for every dispatch row of a listed resource: the
    amount is [base_mw * (5/60)] times the one price the year has for the
    resource, [rt_price_of]. *)
Lemma sced_step_amount (bess_resources : dict Registry.row) (rt_prices : dict Q)
      (revenues : Corrected.ledger) (row : Sced.row) (rev : Corrected.entry) :
  get (Sced.Resource_Name row) revenues = Some rev ->
  exists rev',
    get (Sced.Resource_Name row)
        (Corrected.sced_step bess_resources rt_prices revenues row) = Some rev' /\
    Corrected.rt_energy_arbitrage rev'
    == Corrected.rt_energy_arbitrage rev
       + fillna0 (Sced.Base_Point row) * (5 # 60)
         * Corrected.rt_price_of bess_resources rt_prices (Sced.Resource_Name row).
Proof.
  intro Hget.
  destruct (adds_sced_step bess_resources rt_prices row revenues) as [_ Hv].
  destruct (Hv _ rev Hget) as [rev' [Hg Hc]].
  exists rev'. split; [exact Hg|].
  specialize (Hc RtEnergy). simpl in Hc. rewrite Hc.
  unfold for_name. rewrite String.eqb_refl. reflexivity.
Qed.

(** The price of a settlement point is the mean of all its quotes. *)
Lemma two_quotes_price :
  Corrected.load_rt_prices [Spp.mk_row "SP1" 30; Spp.mk_row "SP1" 10]
  = [("SP1", mean [30; 10])]
  /\ mean [30; 10] == 20.
Proof.
  split; reflexivity.
Qed.

(** C2 on the failing input: [SP1] is quoted at $30 in the interval of the
    dispatch and at $10 in another interval of the year; the +12 MW
    interval is paid 12 * (5/60) * 20 = 20, not 12 * (5/60) * 30 = 30. *)
Theorem rt_interval_priced_at_yearly_mean :
  exists rev,
    get "R1" (Corrected.accumulate_year Sample.bess_resources Sample.two_quotes)
    = Some rev /\
    Corrected.rt_energy_arbitrage rev == 12 * (5 # 60) * 20 /\
    ~ Corrected.rt_energy_arbitrage rev == 12 * (5 # 60) * 30.
Proof.
  eexists. split; [vm_compute; reflexivity|].
  split; vm_compute; [reflexivity | discriminate].
Qed.

(** * C6. The sign of an AS award *)

(** An unparseable award is worth 0. *)
Lemma unparseable_award_is_zero (cols : list string) (r : Dam.row) :
  Dam.RegUp_Awarded r = None -> Corrected.award_mw cols RegUp r = 0.
Proof.
  intro H. simpl. rewrite H. reflexivity.
Qed.

(** C6 on the failing input: a RegUp award of -5 MW at an MCPC of 8 is
    extracted as -5 and takes 40 off the [reg_up] accumulator. *)
Theorem negative_award_reduces_reg_up :
  Corrected.award_mw Sample.cols RegUp (Sample.dam_row 10 20 (-5) 8) == -5 /\
  exists rev,
    get "R1" (Corrected.process_dam_file
                Sample.revenues0
                (Dam.mk_file Sample.cols [Sample.dam_row 10 20 (-5) 8]))
    = Some rev /\
    Corrected.reg_up rev == -40 /\
    Corrected.reg_up rev < Corrected.reg_up Corrected.empty_entry.
Proof.
  split; [reflexivity|].
  eexists. split; [vm_compute; reflexivity|].
  split; vm_compute; reflexivity.
Qed.

(** The sibling [final_bess_revenue_analysis.py] credits an award only when
    it is greater than 0. *)
Lemma sample_analysis_skips_nonpositive_award
      (p : product) (mw : Q) (mcpc : cell) (e : FinalSample.entry) :
  mw <= 0 -> FinalSample.product_update p (Some mw) mcpc e = e.
Proof.
  intro H. unfold FinalSample.product_update.
  destruct mcpc; [|reflexivity].
  rewrite (proj2 (Qgtb_false _ _) H). reflexivity.
Qed.

(** * C9. The gate on the clearing price *)

(** In [Corrected], a product block whose MCPC is missing, unparseable,
    zero or negative leaves the ledger as it is. *)
Lemma as_block_needs_positive_mcpc
      (cols : list string) (bess_data rest : list Dam.row) (first : Dam.row)
      (revenues : Corrected.ledger) (p : product) :
  notna_and_positive (mcpc_cell p first) = false ->
  Corrected.as_block cols bess_data (first :: rest) revenues p = revenues.
Proof.
  intro H. unfold Corrected.as_block. rewrite H.
  destruct (has_col (mcpc_col p) cols); reflexivity.
Qed.

Lemma as_block_needs_mcpc_column
      (cols : list string) (bess_data hour_group : list Dam.row)
      (revenues : Corrected.ledger) (p : product) :
  has_col (mcpc_col p) cols = false ->
  Corrected.as_block cols bess_data hour_group revenues p = revenues.
Proof.
  intro H. unfold Corrected.as_block. rewrite H. reflexivity.
Qed.

Lemma not_positive_cases (c : cell) :
  notna_and_positive c = false <-> c = None \/ exists q, c = Some q /\ q <= 0.
Proof.
  destruct c as [q|]; simpl.
  - rewrite Qgtb_false. split.
    + intro H. right. exists q. split; [reflexivity | exact H].
    + intros [H|[q' [H1 H2]]]; [discriminate | congruence].
  - split; [intros _; left; reflexivity | reflexivity].
Qed.

(** C9 on the failing input: in [final_bess_revenue_analysis.py] a RegUp
    award of 5 MW in an hour whose MCPC is -2 takes 10 off [reg_up]. *)
Theorem sample_analysis_multiplies_negative_mcpc :
  exists rev,
    get "R1" (FinalSample.process_sample_file
                (Dam.mk_file Sample.cols [Sample.dam_row 10 20 5 (-2)]))
    = Some rev /\
    FinalSample.reg_up rev == -10 /\
    FinalSample.reg_up rev < FinalSample.reg_up FinalSample.empty_entry.
Proof.
  eexists. split; [vm_compute; reflexivity|].
  split; vm_compute; reflexivity.
Qed.

(** * Result rows *)

Lemma fold_append {A B : Type} (keep : A -> bool) (mk : A -> B) (l : list A) :
  forall acc : list B,
    fold_left (fun results item => if keep item then results ++ [mk item] else results)
              l acc
    = acc ++ map mk (filter keep l).
Proof.
  induction l as [|a l IH]; intro acc; simpl.
  - symmetry. apply app_nil_r.
  - rewrite IH. destruct (keep a); simpl; [rewrite <- app_assoc|]; reflexivity.
Qed.

Lemma corrected_create_results (year : nat) (revenues : Corrected.ledger) :
  Corrected.create_results year revenues
  = map (fun item => Corrected.result_row year (fst item) (snd item))
        (filter (fun item => Qgtb (Corrected.total (snd item)) 0) revenues).
Proof.
  exact (fold_append (fun item => Qgtb (Corrected.total (snd item)) 0)
                     (fun item => Corrected.result_row year (fst item) (snd item))
                     revenues []).
Qed.

Lemma final_sample_create_results (year : nat) (revenues : FinalSample.ledger) :
  FinalSample.create_results year revenues
  = map (fun item => FinalSample.result_row year (fst item) (snd item))
        (filter (fun item => Qgtb (FinalSample.total (snd item)) 0) revenues).
Proof.
  exact (fold_append (fun item => Qgtb (FinalSample.total (snd item)) 0)
                     (fun item => FinalSample.result_row year (fst item) (snd item))
                     revenues []).
Qed.

Lemma with_logging_create_results (year : nat) (revenues : WithLogging.ledger) :
  WithLogging.create_results year revenues
  = map (fun item => WithLogging.result_row year (fst item) (snd item))
        (filter (fun item => Qgtb (WithLogging.total (snd item)) 0) revenues).
Proof.
  exact (fold_append (fun item => Qgtb (WithLogging.total (snd item)) 0)
                     (fun item => WithLogging.result_row year (fst item) (snd item))
                     revenues []).
Qed.

Lemma complete_create_results (year : nat) (revenues : Complete.ledger) :
  Complete.create_results year revenues
  = map (fun item => Complete.result_row year (fst item) (snd item))
        (filter (fun item => Qgtb (Complete.total (snd item)) 0) revenues).
Proof.
  exact (fold_append (fun item => Qgtb (Complete.total (snd item)) 0)
                     (fun item => Complete.result_row year (fst item) (snd item))
                     revenues []).
Qed.

Lemma in_kept_rows {A B : Type} (keep : A -> bool) (mk : A -> B) (l : list A) (b : B) :
  In b (map mk (filter keep l)) <-> exists a, In a l /\ keep a = true /\ b = mk a.
Proof.
  rewrite in_map_iff. split.
  - intros [a [E H]]. apply filter_In in H. exists a. intuition.
  - intros [a [H1 [H2 E]]]. exists a. split; [auto | apply filter_In; auto].
Qed.

(** * C4. The two percentages *)

Lemma corrected_percent_sum (rev : Corrected.entry) :
  0 < Corrected.total rev ->
  Corrected.energy_pct rev + Corrected.as_pct rev == 100.
Proof.
  intro H. unfold Corrected.energy_pct, Corrected.as_pct.
  rewrite (proj2 (Qgtb_true _ _) H).
  assert (Hnz : ~ Corrected.total rev == 0) by (intro E; rewrite E in H; discriminate H).
  unfold Corrected.total in *. field. exact Hnz.
Qed.

Lemma final_sample_total (rev : FinalSample.entry) :
  FinalSample.total rev
  == FinalSample.dam_energy rev + FinalSample.rt_energy rev + FinalSample.total_as rev.
Proof.
  unfold FinalSample.total, FinalSample.total_as, Qsum. simpl. ring.
Qed.

Lemma final_sample_percent_sum (rev : FinalSample.entry) :
  0 < FinalSample.total rev ->
  FinalSample.energy_pct rev + FinalSample.as_pct rev == 100.
Proof.
  intro H. unfold FinalSample.energy_pct, FinalSample.as_pct.
  rewrite (proj2 (Qgtb_true _ _) H).
  assert (Hnz : ~ FinalSample.total rev == 0) by (intro E; rewrite E in H; discriminate H).
  assert (Ht := final_sample_total rev).
  transitivity ((FinalSample.dam_energy rev + FinalSample.rt_energy rev
                 + FinalSample.total_as rev) / FinalSample.total rev * 100).
  - field. exact Hnz.
  - rewrite <- Ht. field. exact Hnz.
Qed.

(** C4.  In [Corrected.process_year] and in [FinalSample]: an entry with
    [total > 0] has [Energy_Pct + AS_Pct = 100]; for an entry with
    [total <= 0] the two percentage expressions are 0; and every row of the
    finalized output has [Total_Revenue > 0] and percentages that sum
    to 100. *)
Theorem percent_invariant :
  (forall rev, 0 < Corrected.total rev ->
               Corrected.energy_pct rev + Corrected.as_pct rev == 100) /\
  (forall rev, Corrected.total rev <= 0 ->
               Corrected.energy_pct rev = 0 /\ Corrected.as_pct rev = 0) /\
  (forall year revenues row,
      In row (Corrected.create_results year revenues) ->
      0 < Corrected.Total_Revenue row /\
      Corrected.Energy_Pct row + Corrected.AS_Pct row == 100) /\
  (forall rev, 0 < FinalSample.total rev ->
               FinalSample.energy_pct rev + FinalSample.as_pct rev == 100) /\
  (forall rev, FinalSample.total rev <= 0 ->
               FinalSample.energy_pct rev = 0 /\ FinalSample.as_pct rev = 0) /\
  (forall year revenues row,
      In row (FinalSample.create_results year revenues) ->
      0 < FinalSample.Total_Revenue row /\
      FinalSample.Energy_Pct row + FinalSample.AS_Pct row == 100).
Proof.
  split; [exact corrected_percent_sum|].
  split.
  { intros rev H. unfold Corrected.energy_pct, Corrected.as_pct.
    rewrite (proj2 (Qgtb_false _ _) H). split; reflexivity. }
  split.
  { intros year revenues row H.
    rewrite corrected_create_results in H. apply in_kept_rows in H.
    destruct H as [item [_ [Hpos ->]]]. apply Qgtb_true in Hpos.
    split; [exact Hpos|]. apply corrected_percent_sum. exact Hpos. }
  split; [exact final_sample_percent_sum|].
  split.
  { intros rev H. unfold FinalSample.energy_pct, FinalSample.as_pct.
    rewrite (proj2 (Qgtb_false _ _) H). split; reflexivity. }
  intros year revenues row H.
  rewrite final_sample_create_results in H. apply in_kept_rows in H.
  destruct H as [item [_ [Hpos ->]]]. apply Qgtb_true in Hpos.
  split; [exact Hpos|]. apply final_sample_percent_sum. exact Hpos.
Qed.

(** A run of C4 on the end-to-end scenario: the one output row has a
    total of 270 and percentages that sum to 100. *)
Lemma percent_invariant_witness :
  In Sample.scenario_row
     (Corrected.process_year Sample.bess_resources 2024 Sample.scenario) /\
  0 < Corrected.Total_Revenue Sample.scenario_row /\
  Corrected.Energy_Pct Sample.scenario_row + Corrected.AS_Pct Sample.scenario_row == 100.
Proof.
  assert (H : In Sample.scenario_row
                 (Corrected.create_results
                    2024 (Corrected.accumulate_year Sample.bess_resources
                                                    Sample.scenario))).
  { vm_compute. left. reflexivity. }
  split; [exact H|].
  exact (proj1 (proj2 (proj2 percent_invariant)) 2024%nat _ _ H).
Defined.

(** * C5. Which entries are reported *)

(** C5, as amended.  A row of the finalized output stands for an entry of
    the ledger whose total is greater than 0, and every such entry has its
    row: entries whose total is 0 and entries whose total is negative are
    both left out.  The same holds for [run_bess_complete_analysis.py]. *)
Theorem reported_iff_total_positive :
  (forall year revenues row,
      In row (Corrected.create_results year revenues) <->
      exists name rev, In (name, rev) revenues /\ 0 < Corrected.total rev /\
                       row = Corrected.result_row year name rev) /\
  (forall year revenues row,
      In row (Complete.create_results year revenues) <->
      exists name rev, In (name, rev) revenues /\ 0 < Complete.total rev /\
                       row = Complete.result_row year name rev).
Proof.
  split; intros year revenues row.
  - rewrite corrected_create_results, in_kept_rows. split.
    + intros [[name rev] [H1 [H2 H3]]]. exists name, rev.
      simpl in *. rewrite Qgtb_true in H2. auto.
    + intros [name [rev [H1 [H2 H3]]]]. exists (name, rev).
      simpl. rewrite Qgtb_true. auto.
  - rewrite complete_create_results, in_kept_rows. split.
    + intros [[name rev] [H1 [H2 H3]]]. exists name, rev.
      simpl in *. rewrite Qgtb_true in H2. auto.
    + intros [name [rev [H1 [H2 H3]]]]. exists (name, rev).
      simpl. rewrite Qgtb_true. auto.
Qed.

(** C5 as stated fails: a resource that only charged, 12 MW for one
    interval at the price of 50, has a total of -50 and is not reported. *)
Lemma negative_total_is_dropped :
  (exists rev,
      get "R1" (Corrected.accumulate_year Sample.bess_resources Sample.charging_only)
      = Some rev /\
      Corrected.total rev == -50 /\ Corrected.total rev < 0) /\
  Corrected.process_year Sample.bess_resources 2024 Sample.charging_only = [].
Proof.
  split.
  - eexists. split; [vm_compute; reflexivity|].
    split; vm_compute; reflexivity.
  - vm_compute. reflexivity.
Qed.

(** * C10. Totals of a result row *)

(** C10.  In every row of the finalized output of [Corrected.process_year],
    [Total_AS_Revenue] is the sum of the five AS columns and
    [Total_Revenue] is [DA_Revenue + RT_Revenue + Total_AS_Revenue]; in
    every row of [run_bess_complete_analysis_with_logging.py], which has no
    [Total_AS_Revenue] column, [Total_Revenue] is [DA_Revenue + RT_Revenue]
    plus the sum of the five AS columns. *)
Theorem result_row_consistent :
  (forall year revenues row,
      In row (Corrected.create_results year revenues) ->
      Corrected.Total_AS_Revenue row
      == Corrected.RegUp_Revenue row + Corrected.RegDown_Revenue row
         + Corrected.Spin_Revenue row + Corrected.ECRS_Revenue row
         + Corrected.NonSpin_Revenue row /\
      Corrected.Total_Revenue row
      == Corrected.DA_Revenue row + Corrected.RT_Revenue row
         + Corrected.Total_AS_Revenue row) /\
  (forall year revenues row,
      In row (WithLogging.create_results year revenues) ->
      WithLogging.Total_Revenue row
      == WithLogging.DA_Revenue row + WithLogging.RT_Revenue row
         + (WithLogging.RegUp_Revenue row + WithLogging.RegDown_Revenue row
            + WithLogging.Spin_Revenue row + WithLogging.ECRS_Revenue row
            + WithLogging.NonSpin_Revenue row)).
Proof.
  split; intros year revenues row H.
  - rewrite corrected_create_results in H. apply in_kept_rows in H.
    destruct H as [item [_ [_ ->]]]. simpl. split; reflexivity.
  - rewrite with_logging_create_results in H. apply in_kept_rows in H.
    destruct H as [item [_ [_ ->]]]. simpl.
    unfold WithLogging.total, Qsum. simpl. ring.
Qed.

(** A run of C10 on the end-to-end scenario. *)
Lemma result_row_consistent_witness :
  In Sample.scenario_row
     (Corrected.process_year Sample.bess_resources 2024 Sample.scenario) /\
  Corrected.Total_AS_Revenue Sample.scenario_row
  == Corrected.RegUp_Revenue Sample.scenario_row
     + Corrected.RegDown_Revenue Sample.scenario_row
     + Corrected.Spin_Revenue Sample.scenario_row
     + Corrected.ECRS_Revenue Sample.scenario_row
     + Corrected.NonSpin_Revenue Sample.scenario_row /\
  Corrected.Total_Revenue Sample.scenario_row
  == Corrected.DA_Revenue Sample.scenario_row + Corrected.RT_Revenue Sample.scenario_row
     + Corrected.Total_AS_Revenue Sample.scenario_row.
Proof.
  assert (H : In Sample.scenario_row
                 (Corrected.create_results
                    2024 (Corrected.accumulate_year Sample.bess_resources
                                                    Sample.scenario))).
  { vm_compute. left. reflexivity. }
  split; [exact H|].
  exact (proj1 result_row_consistent 2024%nat _ _ H).
Defined.

(** * C7. Records of resources that are not listed *)

Lemma contains_keys {V : Type} (d1 d2 : dict V) (n : string) :
  keys d1 = keys d2 -> contains n d1 = contains n d2.
Proof.
  intro H. unfold contains.
  destruct (get n d1) eqn:E1, (get n d2) eqn:E2; try reflexivity; exfalso.
  - apply get_None_keys in E2. rewrite <- H in E2.
    apply get_None_keys in E2. congruence.
  - apply get_None_keys in E1. rewrite H in E1.
    apply get_None_keys in E1. congruence.
Qed.

Lemma filter_filter_comm {A : Type} (f g : A -> bool) (l : list A) :
  filter f (filter g l) = filter g (filter f l).
Proof.
  induction l as [|a l IH]; simpl; [reflexivity|].
  destruct (f a) eqn:Ef, (g a) eqn:Eg; simpl; rewrite ?Ef, ?Eg, IH; reflexivity.
Qed.

Section Skip.
Variable revenues : Corrected.ledger.

(** A loop whose body does nothing for an unlisted resource can leave
    the rows of unlisted resources out. *)
Lemma fold_skip_unknown {R : Type} (nm : R -> string)
      (step : Corrected.ledger -> R -> Corrected.ledger) :
  (forall d r, contains (nm r) d = false -> step d r = d) ->
  (forall d r, keys (step d r) = keys d) ->
  forall l d, keys d = keys revenues ->
              fold_left step l d
              = fold_left step (filter (fun r => contains (nm r) revenues) l) d.
Proof.
  intros Hskip Hkeys. induction l as [|a l IH]; intros d Hd; simpl.
  - reflexivity.
  - destruct (contains (nm a) revenues) eqn:E; simpl.
    + apply IH. rewrite Hkeys. exact Hd.
    + rewrite Hskip by (rewrite (contains_keys d revenues _ Hd); exact E).
      apply IH. exact Hd.
Qed.

Lemma fold_left_same_keys {A : Type}
      (f f' : Corrected.ledger -> A -> Corrected.ledger) :
  (forall d x, keys d = keys revenues -> f d x = f' d x) ->
  (forall d x, keys (f d x) = keys d) ->
  forall l d, keys d = keys revenues -> fold_left f l d = fold_left f' l d.
Proof.
  intros Hff Hkeys. induction l as [|a l IH]; intros d Hd; simpl.
  - reflexivity.
  - rewrite <- Hff by exact Hd. apply IH. rewrite Hkeys. exact Hd.
Qed.

Lemma as_block_skip (cols : list string) (bess_data g : list Dam.row)
      (d : Corrected.ledger) (p : product) :
  keys d = keys revenues ->
  Corrected.as_block cols bess_data g d p
  = Corrected.as_block cols (filter (known_dam revenues) bess_data) g d p.
Proof.
  intro Hd. unfold Corrected.as_block.
  destruct (has_col (mcpc_col p) cols); [|reflexivity].
  destruct g as [|first rest]; [reflexivity|].
  destruct (notna_and_positive (mcpc_cell p first)); [|reflexivity].
  cbv zeta. rewrite filter_filter_comm.
  apply (fold_skip_unknown Dam.Resource_Name); [| |exact Hd].
  - intros d' r H. unfold Corrected.as_row_step. rewrite H. reflexivity.
  - intros d' r. apply (adds_as_row_step cols p _ r d').
Qed.

Lemma hour_step_skip (cols : list string) (bess_data g : list Dam.row)
      (d : Corrected.ledger) :
  keys d = keys revenues ->
  Corrected.hour_step cols bess_data d g
  = Corrected.hour_step cols (filter (known_dam revenues) bess_data) d g.
Proof.
  intro Hd. unfold Corrected.hour_step.
  apply fold_left_same_keys; [| |exact Hd].
  - intros d' p Hd'. apply as_block_skip. exact Hd'.
  - intros d' p. apply (adds_as_block cols bess_data g p d').
Qed.

Lemma process_dam_data_skip (cols : list string) (df bess_data : list Dam.row) :
  Corrected.process_dam_data cols df bess_data revenues
  = Corrected.process_dam_data cols df (filter (known_dam revenues) bess_data)
                               revenues.
Proof.
  unfold Corrected.process_dam_data. cbv zeta.
  rewrite (fold_left_same_keys
             (Corrected.hour_step cols bess_data)
             (Corrected.hour_step cols (filter (known_dam revenues) bess_data))).
  - apply (fold_skip_unknown Dam.Resource_Name).
    + intros d r H. unfold Corrected.dam_energy_step. cbv zeta.
      rewrite H. reflexivity.
    + intros d r. apply (adds_dam_energy_step r d).
    + apply (adds_fold (Corrected.hour_step cols _) _ (groupby df)
                       (fun g _ => adds_hour_step cols _ g) revenues).
  - intros d g Hd. apply hour_step_skip. exact Hd.
  - intros d g. apply (adds_hour_step cols bess_data g d).
  - reflexivity.
Qed.

Lemma process_sced_chunk_fold (bess_resources : dict Registry.row)
      (rt_prices : dict Q) (d : Corrected.ledger) (chunk : list Sced.row) :
  Corrected.process_sced_chunk bess_resources rt_prices d chunk
  = fold_left (Corrected.sced_step bess_resources rt_prices)
              (Corrected.sced_bess_rows chunk) d.
Proof.
  unfold Corrected.process_sced_chunk. cbv zeta.
  destruct (Corrected.sced_bess_rows chunk); reflexivity.
Qed.

Lemma process_sced_chunk_skip (bess_resources : dict Registry.row)
      (rt_prices : dict Q) (chunk : list Sced.row) :
  Corrected.process_sced_chunk bess_resources rt_prices revenues chunk
  = Corrected.process_sced_chunk bess_resources rt_prices revenues
                                 (filter (known_sced revenues) chunk).
Proof.
  rewrite !process_sced_chunk_fold. unfold Corrected.sced_bess_rows.
  rewrite filter_filter_comm.
  apply (fold_skip_unknown Sced.Resource_Name); [| |reflexivity].
  - intros d r H. unfold Corrected.sced_step. cbv zeta. rewrite H. reflexivity.
  - intros d r. apply (adds_sced_step bess_resources rt_prices r d).
Qed.

End Skip.

Lemma filter_drop_one {A : Type} (f : A -> bool) (l1 l2 : list A) (a : A) :
  f a = false -> filter f (l1 ++ a :: l2) = filter f (l1 ++ l2).
Proof.
  intro H. rewrite !filter_app. simpl. rewrite H. reflexivity.
Qed.

Lemma contains_existsb_keys {V : Type} (n : string) (d : dict V) :
  contains n d = existsb (String.eqb n) (keys d).
Proof.
  unfold contains, keys. induction d as [|[k v] d IH]; simpl; [reflexivity|].
  rewrite (String.eqb_sym n k). destruct (k =? n)%string; [reflexivity | exact IH].
Qed.

Lemma contains_fold_set {V : Type} (n : string) (v : V) (ks : list string) :
  forall acc : dict V,
    contains n (fold_left (fun d k => set k v d) ks acc)
    = contains n acc || existsb (String.eqb n) ks.
Proof.
  induction ks as [|k ks IH]; intro acc; simpl.
  - rewrite orb_false_r. reflexivity.
  - rewrite IH. unfold contains at 1. rewrite get_set, (String.eqb_sym n k).
    destruct (k =? n)%string; simpl.
    + rewrite orb_true_r. reflexivity.
    + reflexivity.
Qed.

(** The ledger of a year lists the resources of the registry. *)
Lemma init_revenues_lists_registry (bess_resources : dict Registry.row) (n : string) :
  contains n (Corrected.init_revenues bess_resources) = contains n bess_resources.
Proof.
  unfold Corrected.init_revenues.
  rewrite contains_fold_set, (contains_existsb_keys n bess_resources).
  reflexivity.
Qed.

(** C7.  Let the ledger list the resources of the registry.  A storage row
    whose resource is not in the registry can be taken out of the award
    rows of a DAM file, or out of a SCED chunk, and the ledger that comes
    out is the same, entry for entry; the functions are total, so no error
    is raised on the way. *)
Theorem unknown_resource_skip
        (bess_resources : dict Registry.row) (rt_prices : dict Q)
        (revenues : Corrected.ledger) :
  (forall name, contains name revenues = contains name bess_resources) ->
  (forall cols df rows1 rows2 row,
      contains (Dam.Resource_Name row) bess_resources = false ->
      Corrected.process_dam_data cols df (rows1 ++ row :: rows2) revenues
      = Corrected.process_dam_data cols df (rows1 ++ rows2) revenues) /\
  (forall rows1 rows2 row,
      contains (Sced.Resource_Name row) bess_resources = false ->
      Corrected.process_sced_chunk bess_resources rt_prices revenues
                                   (rows1 ++ row :: rows2)
      = Corrected.process_sced_chunk bess_resources rt_prices revenues
                                     (rows1 ++ rows2)).
Proof.
  intro Hreg. split.
  - intros cols df rows1 rows2 row H. rewrite <- Hreg in H.
    rewrite (process_dam_data_skip revenues cols df (rows1 ++ row :: rows2)).
    rewrite (process_dam_data_skip revenues cols df (rows1 ++ rows2)).
    rewrite (filter_drop_one (known_dam revenues) rows1 rows2 row H).
    reflexivity.
  - intros rows1 rows2 row H. rewrite <- Hreg in H.
    rewrite (process_sced_chunk_skip revenues _ _ (rows1 ++ row :: rows2)).
    rewrite (process_sced_chunk_skip revenues _ _ (rows1 ++ rows2)).
    rewrite (filter_drop_one (known_sced revenues) rows1 rows2 row H).
    reflexivity.
Qed.

(** A run of C7: the rows of the unlisted resource [X9] next to those of
    [R1]. *)
Lemma unknown_resource_skip_witness :
  Corrected.process_dam_data
    Sample.cols [Sample.stranger_row; Sample.dam_row 10 20 5 8]
    ([] ++ Sample.stranger_row :: [Sample.dam_row 10 20 5 8]) Sample.revenues0
  = Corrected.process_dam_data
      Sample.cols [Sample.stranger_row; Sample.dam_row 10 20 5 8]
      ([] ++ [Sample.dam_row 10 20 5 8]) Sample.revenues0
  /\ Corrected.process_sced_chunk
       Sample.bess_resources [("SP1", 30)] Sample.revenues0
       ([Sample.sced_row "R1" 12] ++ Sample.sced_row "X9" 40 :: [])
     = Corrected.process_sced_chunk
         Sample.bess_resources [("SP1", 30)] Sample.revenues0
         ([Sample.sced_row "R1" 12] ++ []).
Proof.
  destruct (unknown_resource_skip
              Sample.bess_resources [("SP1", 30)] Sample.revenues0
              (init_revenues_lists_registry Sample.bess_resources)) as [Hdam Hsced].
  split.
  - apply Hdam. reflexivity.
  - apply Hsced. reflexivity.
Defined.

(** * C8. The fallback price *)

Lemma rt_price_of_fallback (bess_resources : dict Registry.row) (rt_prices : dict Q)
      (name : string) (res : Registry.row) :
  get name bess_resources = Some res ->
  get (Registry.Settlement_Point res) rt_prices = None ->
  Corrected.rt_price_of bess_resources rt_prices name = 50
  /\ Corrected.rt_price_of bess_resources
                           (set (Registry.Settlement_Point res) 50 rt_prices) name
     = 50.
Proof.
  intros Hres Hnone. unfold Corrected.rt_price_of, get_default.
  rewrite Hres, Hnone, get_set, String.eqb_refl. split; reflexivity.
Qed.

(** C8, as amended.  When the settlement point of a listed resource has no
    price, its dispatch row is priced at the fallback of 50: the entry
    receives [base_mw * (5/60) * 50] on [rt_energy_arbitrage], one more
    [rt_intervals] and the discharge or charge tally, and nothing else;
    the ledger is the one that a real quote of 50 would have given. *)
Theorem fallback_price_is_silent
        (bess_resources : dict Registry.row) (rt_prices : dict Q)
        (revenues : Corrected.ledger) (row : Sced.row)
        (res : Registry.row) (rev : Corrected.entry) :
  get (Sced.Resource_Name row) bess_resources = Some res ->
  get (Registry.Settlement_Point res) rt_prices = None ->
  get (Sced.Resource_Name row) revenues = Some rev ->
  let base_mw := fillna0 (Sced.Base_Point row) in
  get (Sced.Resource_Name row)
      (Corrected.sced_step bess_resources rt_prices revenues row)
  = Some (Corrected.add_rt base_mw (base_mw * (5 # 60)) (base_mw * (5 # 60) * 50) rev)
  /\ Corrected.sced_step bess_resources rt_prices revenues row
     = Corrected.sced_step bess_resources
                           (set (Registry.Settlement_Point res) 50 rt_prices)
                           revenues row.
Proof.
  intros Hres Hnone Hrev base_mw.
  destruct (rt_price_of_fallback _ _ _ _ Hres Hnone) as [H1 H2].
  unfold Corrected.sced_step. cbv zeta. rewrite H1, H2.
  split; [|reflexivity].
  unfold contains. rewrite Hrev, get_update, String.eqb_refl, Hrev.
  reflexivity.
Qed.

(** A run of C8: +12 MW for [R1] when no price is loaded. *)
Lemma fallback_price_is_silent_witness :
  get "R1" (Corrected.sced_step Sample.bess_resources [] Sample.revenues0
                                (Sample.sced_row "R1" 12))
  = Some (Corrected.add_rt 12 (12 * (5 # 60)) (12 * (5 # 60) * 50)
                           Corrected.empty_entry)
  /\ Corrected.sced_step Sample.bess_resources [] Sample.revenues0
                         (Sample.sced_row "R1" 12)
     = Corrected.sced_step Sample.bess_resources (set "SP1" 50 [])
                           Sample.revenues0 (Sample.sced_row "R1" 12).
Proof.
  apply (fallback_price_is_silent
           Sample.bess_resources [] Sample.revenues0 (Sample.sced_row "R1" 12)
           (Registry.mk_row "R1" "SP1") Corrected.empty_entry);
    reflexivity.
Defined.

(** [run_bess_complete_analysis_with_logging.py] has no fallback: a
    resource whose settlement point has no price is passed over. *)
Lemma with_logging_skips_unpriced
      (bess_resources : dict Registry.row) (rt_prices : dict Q)
      (bess_data : list Sced.row) (revenues : WithLogging.ledger)
      (name : string) (res : Registry.row) :
  get name bess_resources = Some res ->
  get (Registry.Settlement_Point res) rt_prices = None ->
  WithLogging.sced_name_step bess_resources rt_prices bess_data revenues name
  = revenues.
Proof.
  intros Hres Hnone. unfold WithLogging.sced_name_step.
  rewrite Hres, Hnone. destruct (contains name revenues); reflexivity.
Qed.

(** C8 as stated fails: the interval priced with the fallback and the
    interval priced with a real quote of 50 leave the same ledger and the
    same output, so nothing that is read from them counts the uses of the
    fallback. *)
Lemma fallback_use_is_not_counted :
  fallback_uses Sample.bess_resources [] Sample.revenues0 [Sample.sced_row "R1" 12]
  = 1%nat /\
  fallback_uses Sample.bess_resources [("SP1", 50)] Sample.revenues0
                [Sample.sced_row "R1" 12]
  = 0%nat /\
  Corrected.accumulate_year Sample.bess_resources Sample.no_quote
  = Corrected.accumulate_year Sample.bess_resources Sample.quote_of_50 /\
  Corrected.process_year Sample.bess_resources 2024 Sample.no_quote
  = Corrected.process_year Sample.bess_resources 2024 Sample.quote_of_50 /\
  ~ fallback_counted.
Proof.
  split; [reflexivity|]. split; [reflexivity|].
  split; [vm_compute; reflexivity|]. split; [vm_compute; reflexivity|].
  intros [counter H].
  pose proof (H Sample.bess_resources [] Sample.revenues0
                [Sample.sced_row "R1" 12]) as HA.
  pose proof (H Sample.bess_resources [("SP1", 50)] Sample.revenues0
                [Sample.sced_row "R1" 12]) as HB.
  change (fallback_uses Sample.bess_resources [] Sample.revenues0
                        [Sample.sced_row "R1" 12]) with 1%nat in HA.
  change (fallback_uses Sample.bess_resources [("SP1", 50)] Sample.revenues0
                        [Sample.sced_row "R1" 12]) with 0%nat in HB.
  assert (E : fold_left (Corrected.sced_step Sample.bess_resources [])
                        [Sample.sced_row "R1" 12] Sample.revenues0
              = fold_left (Corrected.sced_step Sample.bess_resources [("SP1", 50)])
                          [Sample.sced_row "R1" 12] Sample.revenues0)
    by (vm_compute; reflexivity).
  rewrite E in HA. lia.
Qed.

(** * Further facts about dictionaries *)

Lemma find_append {A : Type} (f : A -> bool) (l1 l2 : list A) :
  find f (l1 ++ l2)
  = match find f l1 with
    | Some x => Some x
    | None => find f l2
    end.
Proof.
  induction l1 as [|a l1 IH]; simpl; [reflexivity|].
  destruct (f a); [reflexivity | exact IH].
Qed.

Section MoreDictFacts.
Context {V : Type}.

Lemma keys_set (k : string) (v : V) (d : dict V) :
  keys (set k v d) = if contains k d then keys d else keys d ++ [k].
Proof.
  unfold contains, keys. induction d as [|[k0 v0] d IH]; simpl.
  - reflexivity.
  - destruct (k0 =? k)%string eqn:E; simpl.
    + reflexivity.
    + rewrite IH. destruct (get k d); reflexivity.
Qed.

Lemma contains_true_keys (k : string) (d : dict V) :
  contains k d = true <-> In k (keys d).
Proof.
  rewrite contains_existsb_keys, existsb_exists. split.
  - intros [x [Hx E]]. apply String.eqb_eq in E. subst. exact Hx.
  - intro H. exists k. split; [exact H | apply String.eqb_refl].
Qed.

Lemma NoDup_keys_set (k : string) (v : V) (d : dict V) :
  NoDup (keys d) -> NoDup (keys (set k v d)).
Proof.
  intro H. rewrite keys_set. destruct (contains k d) eqn:E; [exact H|].
  apply NoDup_app; [exact H | constructor; [intros [] | constructor] |].
  intros x Hx [<-|[]].
  apply contains_true_keys in Hx. congruence.
Qed.

(** A dictionary filled by assignments, key after key: the keys are
    distinct, and a key holds the value of its last assignment. *)
Lemma NoDup_keys_fold_set {R : Type} (key : R -> string) (val : R -> V)
      (l : list R) :
  forall acc : dict V,
    NoDup (keys acc) ->
    NoDup (keys (fold_left (fun d r => set (key r) (val r) d) l acc)).
Proof.
  induction l as [|r l IH]; intros acc H; simpl.
  - exact H.
  - apply IH. apply NoDup_keys_set. exact H.
Qed.

Lemma get_fold_set {R : Type} (key : R -> string) (val : R -> V)
      (n : string) (l : list R) :
  forall acc : dict V,
    get n (fold_left (fun d r => set (key r) (val r) d) l acc)
    = match find (fun r => (key r =? n)%string) (rev l) with
      | Some r => Some (val r)
      | None => get n acc
      end.
Proof.
  induction l as [|r l IH]; intro acc; simpl.
  - reflexivity.
  - rewrite IH, find_append.
    destruct (find (fun r0 => (key r0 =? n)%string) (rev l)); [reflexivity|].
    simpl. rewrite get_set. destruct (key r =? n)%string; reflexivity.
Qed.

Lemma get_map_values {W : Type} (f : V -> W) (n : string) (d : dict V) :
  get n (map_values f d) = option_map f (get n d).
Proof.
  unfold map_values. induction d as [|[k v] d IH]; simpl.
  - reflexivity.
  - destruct (k =? n)%string; [reflexivity | exact IH].
Qed.

Lemma get_Some_In_keys (n : string) (v : V) (d : dict V) :
  get n d = Some v -> In n (keys d).
Proof.
  intro H. apply contains_true_keys. unfold contains. rewrite H. reflexivity.
Qed.

Lemma In_get (n : string) (v : V) (d : dict V) :
  NoDup (keys d) -> In (n, v) d -> get n d = Some v.
Proof.
  unfold keys. induction d as [|[k0 v0] d IH]; simpl; intros Hnd Hin.
  - contradiction.
  - inversion Hnd as [|? ? Hnotin Hnd']; subst.
    destruct Hin as [E|Hin].
    + inversion E; subst. rewrite String.eqb_refl. reflexivity.
    + destruct (k0 =? n)%string eqn:E.
      * apply String.eqb_eq in E. subst. exfalso. apply Hnotin.
        apply in_map_iff. exists (n, v). split; [reflexivity | exact Hin].
      * apply IH; assumption.
Qed.

End MoreDictFacts.

Lemma keys_fold_set_fresh {V : Type} (v : V) (ks : list string) :
  forall acc : dict V,
    NoDup (keys acc ++ ks) ->
    keys (fold_left (fun d k => set k v d) ks acc) = keys acc ++ ks.
Proof.
  induction ks as [|k ks IH]; intros acc H; simpl.
  - symmetry. apply app_nil_r.
  - assert (Hk : contains k acc = false).
    { destruct (contains k acc) eqn:E; [|reflexivity].
      apply contains_true_keys in E. exfalso.
      apply NoDup_remove_2 in H. apply H. apply in_or_app. left. exact E. }
    rewrite IH; rewrite keys_set, Hk, <- app_assoc; [reflexivity | exact H].
Qed.

Lemma all_entries_fold_set {V : Type} (v : V) (ks : list string) :
  forall acc : dict V,
    (forall n e, get n acc = Some e -> e = v) ->
    forall n e, get n (fold_left (fun d k => set k v d) ks acc) = Some e -> e = v.
Proof.
  induction ks as [|k ks IH]; intros acc H n e; simpl.
  - apply H.
  - apply IH. intros n' e'. rewrite get_set.
    destruct (k =? n')%string; [congruence | apply H].
Qed.

(** * X1. The registry *)

Lemma registry_names_distinct (bess_df : list Registry.row) :
  NoDup (keys (Corrected.load_bess_resources bess_df)).
Proof.
  unfold Corrected.load_bess_resources.
  apply (NoDup_keys_fold_set Registry.Resource_Name (fun row => row)).
  constructor.
Qed.

(** X1.  The registry built from the master list has each resource name
    once, and a name that the list repeats keeps the row of its last
    appearance. *)
Theorem registry_keeps_last_row (bess_df : list Registry.row) (name : string) :
  NoDup (keys (Corrected.load_bess_resources bess_df)) /\
  get name (Corrected.load_bess_resources bess_df)
  = find (fun row => (Registry.Resource_Name row =? name)%string) (rev bess_df).
Proof.
  split; [apply registry_names_distinct|].
  unfold Corrected.load_bess_resources.
  rewrite (get_fold_set Registry.Resource_Name (fun row => row)).
  destruct (find _ (rev bess_df)); reflexivity.
Qed.

(** * Ledger transformers that add, for any ledger *)

Section AddsTo.
Context {V C : Type} (val : C -> V -> Q).

Lemma adds_to_ext (T : dict V -> dict V) (delta delta' : string -> C -> Q) :
  adds_to val T delta -> (forall n c, delta n c == delta' n c) ->
  adds_to val T delta'.
Proof.
  intros HT Heq d. destruct (HT d) as [Hk Hv]. split; [exact Hk|].
  intros name e He. destruct (Hv name e He) as [e' [Hg Hc]].
  exists e'. split; [exact Hg|]. intro c. rewrite Hc, Heq. reflexivity.
Qed.

Lemma adds_to_eq (T T' : dict V -> dict V) (delta : string -> C -> Q) :
  (forall d, T d = T' d) -> adds_to val T' delta -> adds_to val T delta.
Proof.
  intros HT H d. rewrite HT. apply H.
Qed.

Lemma adds_to_id : adds_to val (fun d => d) (fun _ _ => 0).
Proof.
  intro d. split; [reflexivity|].
  intros name e He. exists e. split; [exact He|]. intro c. ring.
Qed.

Lemma adds_to_compose (T1 T2 : dict V -> dict V) (d1 d2 : string -> C -> Q) :
  adds_to val T1 d1 -> adds_to val T2 d2 ->
  adds_to val (fun d => T2 (T1 d)) (fun n c => d1 n c + d2 n c).
Proof.
  intros H1 H2 d.
  destruct (H1 d) as [Hk1 Hv1]. destruct (H2 (T1 d)) as [Hk2 Hv2].
  split; [congruence|].
  intros name e He.
  destruct (Hv1 name e He) as [e1 [Hg1 Hc1]].
  destruct (Hv2 name e1 Hg1) as [e2 [Hg2 Hc2]].
  exists e2. split; [exact Hg2|].
  intro c. rewrite Hc2, Hc1. ring.
Qed.

Lemma adds_to_fold {A : Type} (step : dict V -> A -> dict V)
      (delta : A -> string -> C -> Q) (l : list A) :
  (forall a, In a l -> adds_to val (fun d => step d a) (delta a)) ->
  adds_to val (fun d => fold_left step l d)
          (fun n c => sumQ (fun a => delta a n c) l).
Proof.
  induction l as [|a l IH]; intro H; simpl.
  - apply adds_to_id.
  - apply (adds_to_compose (fun d => step d a) (fun d => fold_left step l d)).
    + apply H. left. reflexivity.
    + apply IH. intros b Hb. apply H. right. exact Hb.
Qed.

Lemma adds_to_update (k : string) (f : V -> V) (inc : C -> Q) :
  (forall e c, val c (f e) == val c e + inc c) ->
  adds_to val (update k f) (fun n c => for_name k n (inc c)).
Proof.
  intros Hf d. split; [apply keys_update|].
  intros name e He. rewrite get_update, He. unfold for_name.
  destruct (k =? name)%string; simpl.
  - exists (f e). split; [reflexivity|]. intro c. apply Hf.
  - exists e. split; [reflexivity|]. intro c. ring.
Qed.

Lemma adds_to_guarded_update (k : string) (f : V -> V) (inc : C -> Q) :
  (forall e c, val c (f e) == val c e + inc c) ->
  adds_to val (fun d => if contains k d then update k f d else d)
          (fun n c => for_name k n (inc c)).
Proof.
  intro Hf. eapply adds_to_eq.
  - intro d. apply guarded_update.
  - apply adds_to_update. exact Hf.
Qed.

End AddsTo.

Lemma adds_is_adds_to (T : Corrected.ledger -> Corrected.ledger)
      (delta : string -> component -> Q) :
  adds T delta <-> adds_to value T delta.
Proof.
  split; intro H; exact H.
Qed.

(** * X2, X3. The resources of the ledger and of the output *)

Lemma keys_process_sced_chunk (bess_resources : dict Registry.row)
      (rt_prices : dict Q) (revenues : Corrected.ledger) (chunk : list Sced.row) :
  keys (Corrected.process_sced_chunk bess_resources rt_prices revenues chunk)
  = keys revenues.
Proof.
  apply (adds_process_sced_chunk bess_resources rt_prices chunk revenues).
Qed.

Lemma keys_sced_chunk_loop (bess_resources : dict Registry.row) (rt_prices : dict Q)
      (chunks : list (list Sced.row)) :
  forall (chunk_num : nat) (revenues : Corrected.ledger),
    keys (Corrected.sced_chunk_loop bess_resources rt_prices chunk_num chunks revenues)
    = keys revenues.
Proof.
  induction chunks as [|chunk rest IH]; intros chunk_num revenues;
    cbn [Corrected.sced_chunk_loop].
  - reflexivity.
  - destruct (List.length (Corrected.sced_bess_rows chunk) =? 0)%nat;
      [|destruct (5 <=? chunk_num)%nat];
      rewrite ?IH; apply keys_process_sced_chunk.
Qed.

Lemma keys_fold_left {V A : Type} (step : dict V -> A -> dict V) (l : list A) :
  (forall d a, keys (step d a) = keys d) ->
  forall d, keys (fold_left step l d) = keys d.
Proof.
  intro H. induction l as [|a l IH]; intro d; simpl.
  - reflexivity.
  - rewrite IH. apply H.
Qed.

Lemma keys_accumulate_year (bess_resources : dict Registry.row)
      (data : Corrected.year_data) :
  keys (Corrected.accumulate_year bess_resources data)
  = keys (Corrected.init_revenues bess_resources).
Proof.
  unfold Corrected.accumulate_year. cbv zeta.
  etransitivity.
  - apply (keys_fold_left (V := Corrected.entry)).
    intros d file. apply keys_sced_chunk_loop.
  - apply (keys_fold_left (V := Corrected.entry)).
    intros d file. apply (adds_process_dam_file file d).
Qed.

Lemma keys_init_revenues (bess_resources : dict Registry.row) :
  NoDup (keys bess_resources) ->
  keys (Corrected.init_revenues bess_resources) = keys bess_resources.
Proof.
  intro H. unfold Corrected.init_revenues.
  apply (keys_fold_set_fresh Corrected.empty_entry (keys bess_resources) []).
  exact H.
Qed.

Lemma keys_accumulate_year_registry (bess_df : list Registry.row)
      (data : Corrected.year_data) :
  keys (Corrected.accumulate_year (Corrected.load_bess_resources bess_df) data)
  = keys (Corrected.load_bess_resources bess_df).
Proof.
  rewrite keys_accumulate_year. apply keys_init_revenues.
  apply registry_names_distinct.
Qed.

(** X2.  Whatever the files of the year hold, the ledger at the end of the
    accumulation lists the resources of the master list, each once and in
    the order of their first appearance there: no pass adds, drops or
    reorders a resource. *)
Theorem ledger_lists_registry (bess_df : list Registry.row)
        (data : Corrected.year_data) :
  keys (Corrected.accumulate_year (Corrected.load_bess_resources bess_df) data)
  = keys (Corrected.load_bess_resources bess_df).
Proof.
  apply keys_accumulate_year_registry.
Qed.

Lemma NoDup_map_filter {A B : Type} (f : A -> B) (g : A -> bool) (l : list A) :
  NoDup (map f l) -> NoDup (map f (filter g l)).
Proof.
  induction l as [|a l IH]; simpl; intro H; [constructor|].
  inversion H as [|? ? Hnotin Hnd]; subst.
  destruct (g a); simpl; [|apply IH; exact Hnd].
  constructor; [|apply IH; exact Hnd].
  intro Hin. apply Hnotin. apply in_map_iff in Hin.
  destruct Hin as [x [E Hx]]. apply filter_In in Hx.
  apply in_map_iff. exists x. tauto.
Qed.

(** X3.  The output of a year has at most one row per resource, every row
    carries the year and the name of a resource of the master list, and
    the rows come in the order of the master list. *)
Theorem output_rows_follow_registry (bess_df : list Registry.row) (year : nat)
        (data : Corrected.year_data) :
  let bess_resources := Corrected.load_bess_resources bess_df in
  let results := Corrected.process_year bess_resources year data in
  NoDup (map Corrected.BESS_Asset_Name results) /\
  (forall row, In row results ->
               Corrected.Year row = year /\
               contains (Corrected.BESS_Asset_Name row) bess_resources = true) /\
  map Corrected.BESS_Asset_Name results
  = filter (fun name => existsb (String.eqb name)
                                (map Corrected.BESS_Asset_Name results))
           (keys bess_resources).
Proof.
  cbv zeta. unfold Corrected.process_year.
  rewrite corrected_create_results.
  set (revenues := Corrected.accumulate_year (Corrected.load_bess_resources bess_df) data).
  assert (Hkeys : keys revenues = keys (Corrected.load_bess_resources bess_df))
    by apply keys_accumulate_year_registry.
  assert (Hnd : NoDup (keys revenues))
    by (rewrite Hkeys; apply registry_names_distinct).
  set (keep := fun item : string * Corrected.entry =>
                 Qgtb (Corrected.total (snd item)) 0).
  assert (Hnames : map Corrected.BESS_Asset_Name
                       (map (fun item => Corrected.result_row year (fst item) (snd item))
                            (filter keep revenues))
                   = map fst (filter keep revenues)).
  { rewrite map_map. reflexivity. }
  rewrite Hnames. split; [|split].
  - apply NoDup_map_filter. exact Hnd.
  - intros row Hrow. apply in_kept_rows in Hrow.
    destruct Hrow as [[name rev] [Hin [_ ->]]]. simpl. split; [reflexivity|].
    apply contains_true_keys. rewrite <- Hkeys.
    apply in_map_iff. exists (name, rev). split; [reflexivity | exact Hin].
  - rewrite <- Hkeys. unfold keys. clear Hkeys Hnames.
    induction revenues as [|[name rev] l IH]; [reflexivity|].
    simpl in Hnd. inversion Hnd as [|? ? Hnotin Hnd']; subst.
    cbn [filter map fst].
    destruct (keep (name, rev)) eqn:Ek; cbn [map fst existsb].
    + rewrite String.eqb_refl. cbn [orb]. f_equal.
      rewrite (IH Hnd') at 1. apply filter_ext_in.
      intros n Hn. destruct (n =? name)%string eqn:E; [|reflexivity].
      apply String.eqb_eq in E. subst. contradiction.
    + assert (Hno : existsb (String.eqb name) (map fst (filter keep l)) = false).
      { destruct (existsb _ _) eqn:E; [|reflexivity].
        apply existsb_exists in E. destruct E as [x [Hx Ex]].
        apply String.eqb_eq in Ex. subst x. exfalso. apply Hnotin.
        apply in_map_iff in Hx. destruct Hx as [y [Ey Hy]].
        apply filter_In in Hy. apply in_map_iff. exists y. tauto. }
      rewrite Hno. apply (IH Hnd').
Qed.

(** * X4. A year without storage rows *)

Lemma chunks_upto_incl (n fuel : nat) :
  forall (l chunk : list Sced.row),
    In chunk (chunks_upto fuel n l) -> forall r, In r chunk -> In r l.
Proof.
  induction fuel as [|fuel IH]; intros l chunk Hin r Hr.
  - contradiction.
  - destruct l as [|x l]; [contradiction|].
    cbn [chunks_upto] in Hin. destruct Hin as [<-|Hin].
    + rewrite <- (firstn_skipn n (x :: l)). apply in_or_app. left. exact Hr.
    + rewrite <- (firstn_skipn n (x :: l)). apply in_or_app. right.
      apply (IH _ chunk Hin r Hr).
Qed.

Lemma In_firstn {A : Type} (n : nat) (l : list A) (a : A) :
  In a (firstn n l) -> In a l.
Proof.
  intro H. rewrite <- (firstn_skipn n l). apply in_or_app. left. exact H.
Qed.

Lemma filter_none {A : Type} (f : A -> bool) (l : list A) :
  (forall a, In a l -> f a = false) -> filter f l = [].
Proof.
  induction l as [|a l IH]; intro H; simpl; [reflexivity|].
  rewrite (H a (or_introl eq_refl)). apply IH.
  intros b Hb. apply H. right. exact Hb.
Qed.

Lemma filter_nil_incl {A : Type} (f : A -> bool) (l l' : list A) :
  (forall a, In a l' -> In a l) -> filter f l = [] -> filter f l' = [].
Proof.
  intros Hsub Hnil. destruct (filter f l') as [|a rest] eqn:E; [reflexivity|].
  assert (Ha : In a (filter f l')) by (rewrite E; left; reflexivity).
  apply filter_In in Ha. destruct Ha as [Ha1 Ha2].
  assert (Hl : In a (filter f l)) by (apply filter_In; split; auto).
  rewrite Hnil in Hl. contradiction.
Qed.

Lemma sced_chunk_loop_no_storage (bess_resources : dict Registry.row)
      (rt_prices : dict Q) (chunks : list (list Sced.row)) :
  (forall chunk, In chunk chunks -> Corrected.sced_bess_rows chunk = []) ->
  forall (chunk_num : nat) (revenues : Corrected.ledger),
    Corrected.sced_chunk_loop bess_resources rt_prices chunk_num chunks revenues
    = revenues.
Proof.
  induction chunks as [|chunk rest IH]; intros H chunk_num revenues;
    cbn [Corrected.sced_chunk_loop].
  - reflexivity.
  - unfold Corrected.process_sced_chunk.
    rewrite (H chunk (or_introl eq_refl)). simpl.
    apply IH. intros c Hc. apply H. right. exact Hc.
Qed.

Lemma fold_left_unchanged {A B : Type} (f : A -> B -> A) (l : list B) (a : A) :
  (forall x, In x l -> f a x = a) -> fold_left f l a = a.
Proof.
  induction l as [|x l IH]; intro H; simpl.
  - reflexivity.
  - rewrite (H x (or_introl eq_refl)). apply IH.
    intros y Hy. apply H. right. exact Hy.
Qed.

Lemma init_revenues_entries (bess_resources : dict Registry.row)
      (name : string) (rev : Corrected.entry) :
  In (name, rev) (Corrected.init_revenues bess_resources) ->
  rev = Corrected.empty_entry.
Proof.
  intro Hin. unfold Corrected.init_revenues in *.
  assert (H0 : forall n e, get n ([] : dict Corrected.entry) = Some e ->
                           e = Corrected.empty_entry)
    by (intros n e H; discriminate H).
  apply (all_entries_fold_set Corrected.empty_entry (keys bess_resources) [] H0 name).
  apply In_get; [|exact Hin].
  apply (NoDup_keys_fold_set (fun k : string => k) (fun _ => Corrected.empty_entry)).
  constructor.
Qed.

(** X4.  When no DAM file and no SCED file of the year has a storage row,
    the ledger stays as it was set up, all zeros, and the year has no
    output row, whatever the registry and the price file. *)
Theorem year_without_storage_rows (bess_resources : dict Registry.row)
        (year : nat) (data : Corrected.year_data) :
  (forall file, In file (Corrected.dam_files data) ->
                Corrected.bess_rows (Dam.rows file) = []) ->
  (forall file, In file (Corrected.sced_files data) ->
                Corrected.sced_bess_rows file = []) ->
  Corrected.accumulate_year bess_resources data
  = Corrected.init_revenues bess_resources
  /\ Corrected.process_year bess_resources year data = [].
Proof.
  intros Hdam Hsced.
  assert (Hacc : Corrected.accumulate_year bess_resources data
                 = Corrected.init_revenues bess_resources).
  { unfold Corrected.accumulate_year. cbv zeta.
    rewrite (fold_left_unchanged Corrected.process_dam_file).
    - apply fold_left_unchanged. intros file Hfile.
      apply sced_chunk_loop_no_storage. intros chunk Hchunk.
      apply (filter_nil_incl _ file chunk).
      + apply (chunks_upto_incl _ _ _ _ Hchunk).
      + apply Hsced. apply (In_firstn _ _ _ Hfile).
    - intros file Hfile. unfold Corrected.process_dam_file. cbv zeta.
      rewrite (Hdam file Hfile). reflexivity. }
  split; [exact Hacc|].
  unfold Corrected.process_year. rewrite Hacc, corrected_create_results.
  assert (Hnone : filter (fun item : string * Corrected.entry =>
                            Qgtb (Corrected.total (snd item)) 0)
                         (Corrected.init_revenues bess_resources) = []).
  { apply filter_none. intros [name rev] Hin.
    apply init_revenues_entries in Hin. subst rev. reflexivity. }
  rewrite Hnone. reflexivity.
Qed.

(** A run of X4: a registry with [R1], a DAM file and a SCED file that
    hold rows of generators only. *)
Lemma year_without_storage_rows_witness :
  Corrected.accumulate_year
    Sample.bess_resources
    (Corrected.mk_year_data
       [Dam.mk_file Sample.cols
                    [Dam.mk_row "01/01/2024" 1 "GEN1" "CCGT" (Some 100) (Some 20)
                                None None None None None None None
                                (Some 8) None None None None]]
       [[Sced.mk_row "GEN1" "CCGT" (Some 100)]]
       (Some [Spp.mk_row "SP1" 30]))
  = Corrected.init_revenues Sample.bess_resources
  /\ Corrected.process_year
       Sample.bess_resources 2024
       (Corrected.mk_year_data
          [Dam.mk_file Sample.cols
                       [Dam.mk_row "01/01/2024" 1 "GEN1" "CCGT" (Some 100) (Some 20)
                                   None None None None None None None
                                   (Some 8) None None None None]]
          [[Sced.mk_row "GEN1" "CCGT" (Some 100)]]
          (Some [Spp.mk_row "SP1" 30]))
     = [].
Proof.
  apply year_without_storage_rows.
  - intros file [<-|[]]. reflexivity.
  - intros file [<-|[]]. reflexivity.
Defined.

(** * X5, X6. The price of a settlement point *)

Lemma get_fold_append_quotes (sp : string) (price_df : list Spp.row) :
  forall acc : dict (list Q),
    get sp (fold_left
              (fun d row =>
                 set (Spp.SettlementPointName row)
                     (get_default (Spp.SettlementPointName row) [] d
                      ++ [Spp.SettlementPointPrice row]) d)
              price_df acc)
    = match quotes_of sp price_df with
      | [] => get sp acc
      | _ :: _ => Some (get_default sp [] acc ++ quotes_of sp price_df)
      end.
Proof.
  unfold quotes_of.
  induction price_df as [|row l IH]; intro acc; cbn [fold_left filter map].
  - reflexivity.
  - rewrite IH. clear IH.
    set (v := get_default (Spp.SettlementPointName row) [] acc
              ++ [Spp.SettlementPointPrice row]).
    assert (Hget : get sp (set (Spp.SettlementPointName row) v acc)
                   = if (Spp.SettlementPointName row =? sp)%string
                     then Some v else get sp acc) by apply get_set.
    unfold get_default at 1. rewrite Hget.
    destruct (Spp.SettlementPointName row =? sp)%string eqn:E; cbn [map].
    + apply String.eqb_eq in E. subst sp. subst v.
      destruct (map Spp.SettlementPointPrice (filter _ l)).
      * reflexivity.
      * rewrite <- app_assoc. reflexivity.
    + reflexivity.
Qed.

Lemma mean_price_lookup (price_df : list Spp.row) (sp : string) :
  get sp (Corrected.load_rt_prices price_df)
  = match quotes_of sp price_df with
    | [] => None
    | q :: qs => Some (mean (q :: qs))
    end.
Proof.
  unfold Corrected.load_rt_prices. cbv zeta.
  rewrite get_map_values, get_fold_append_quotes.
  destruct (quotes_of sp price_df); reflexivity.
Qed.

(** X5.  The price that the corrected calculator, the logging variant and
    the sample analysis keep for a settlement point is the mean of all the
    quotes of that point in the price file of the year; a point without
    any quote has no price. *)
Theorem price_is_mean_of_quotes (price_df : list Spp.row) (sp : string) :
  let price :=
    match quotes_of sp price_df with
    | [] => None
    | q :: qs => Some (mean (q :: qs))
    end in
  get sp (Corrected.load_rt_prices price_df) = price /\
  get sp (WithLogging.load_rt_prices price_df) = price /\
  get sp (FinalSample.load_avg_prices price_df) = price.
Proof.
  cbv zeta. repeat split; apply mean_price_lookup.
Qed.

(** X6.  In [run_bess_complete_analysis.py] the price of a settlement
    point is its last quote in the price file; a point without any quote
    has no price. *)
Theorem price_is_last_quote (price_df : list Spp.row) (sp : string) :
  get sp (Complete.load_rt_prices price_df)
  = match quotes_of sp price_df with
    | [] => None
    | q :: qs => Some (last (q :: qs) 0)
    end.
Proof.
  unfold Complete.load_rt_prices.
  assert (H : forall acc : dict Q,
             get sp (fold_left
                       (fun rt_prices row =>
                          set (Spp.SettlementPointName row)
                              (Spp.SettlementPointPrice row) rt_prices)
                       price_df acc)
             = match quotes_of sp price_df with
               | [] => get sp acc
               | q :: qs => Some (last (q :: qs) 0)
               end).
  { unfold quotes_of.
    induction price_df as [|row l IH]; intro acc; cbn [fold_left filter map].
    - reflexivity.
    - rewrite IH, get_set.
      destruct (Spp.SettlementPointName row =? sp)%string; cbn [map].
      + destruct (map Spp.SettlementPointPrice (filter _ l)); reflexivity.
      + reflexivity. }
  rewrite H. destruct (quotes_of sp price_df); reflexivity.
Qed.

(** * Properties that the passes keep *)

Section Keeps.
Context {V : Type} (P : string -> V -> Prop).

Lemma keeps_id : keeps P (fun d => d).
Proof. intros d H. exact H. Qed.

Lemma keeps_eq (T T' : dict V -> dict V) :
  (forall d, T d = T' d) -> keeps P T' -> keeps P T.
Proof. intros HT H d Hd. rewrite HT. apply H. exact Hd. Qed.

Lemma keeps_compose (T1 T2 : dict V -> dict V) :
  keeps P T1 -> keeps P T2 -> keeps P (fun d => T2 (T1 d)).
Proof. intros H1 H2 d Hd. apply H2, H1, Hd. Qed.

Lemma keeps_fold {A : Type} (step : dict V -> A -> dict V) (l : list A) :
  (forall a, In a l -> keeps P (fun d => step d a)) ->
  keeps P (fun d => fold_left step l d).
Proof.
  induction l as [|a l IH]; intro H; simpl.
  - apply keeps_id.
  - apply (keeps_compose (fun d => step d a) (fun d => fold_left step l d)).
    + apply H. left. reflexivity.
    + apply IH. intros b Hb. apply H. right. exact Hb.
Qed.

Lemma keeps_update (k : string) (f : V -> V) :
  (forall e, P k e -> P k (f e)) -> keeps P (update k f).
Proof.
  intros Hf d Hd name e. rewrite get_update.
  destruct (k =? name)%string eqn:E.
  - apply String.eqb_eq in E. subst name.
    destruct (get k d) as [e0|] eqn:E0; simpl; [|discriminate].
    intro H. inversion H; subst. apply Hf. apply Hd. exact E0.
  - apply Hd.
Qed.

Lemma keeps_guarded_update (k : string) (f : V -> V) :
  (forall e, P k e -> P k (f e)) ->
  keeps P (fun d => if contains k d then update k f d else d).
Proof.
  intro Hf. eapply keeps_eq.
  - intro d. apply guarded_update.
  - apply keeps_update. exact Hf.
Qed.

End Keeps.

(** The day-ahead pass of [Corrected] keeps every property that the AS
    credits and the energy credit keep. *)
Section CorrectedKeeps.
Variable P : string -> Corrected.entry -> Prop.
Hypothesis P_add_as : forall n p v e, P n e -> P n (Corrected.add_as p v e).
Hypothesis P_add_dam_energy : forall n v e, P n e -> P n (Corrected.add_dam_energy v e).

Lemma keeps_as_block (cols : list string) (bess_data hour_group : list Dam.row)
      (p : product) :
  keeps P (fun d => Corrected.as_block cols bess_data hour_group d p).
Proof.
  unfold Corrected.as_block.
  destruct (has_col (mcpc_col p) cols); [|apply keeps_id].
  destruct hour_group as [|first rest]; [apply keeps_id|].
  destruct (notna_and_positive (mcpc_cell p first)); [|apply keeps_id].
  apply (keeps_fold P (Corrected.as_row_step cols p (fillna0 (mcpc_cell p first)))).
  intros row _. unfold Corrected.as_row_step.
  apply keeps_guarded_update. intros e. apply P_add_as.
Qed.

Lemma keeps_process_dam_file (file : Dam.file) :
  keeps P (fun d => Corrected.process_dam_file d file).
Proof.
  unfold Corrected.process_dam_file. cbv zeta.
  destruct (List.length (Corrected.bess_rows (Dam.rows file)) =? 0)%nat;
    [apply keeps_id|].
  unfold Corrected.process_dam_data. cbv zeta.
  apply (keeps_compose P
           (fun d => fold_left (Corrected.hour_step (Dam.columns file)
                                  (Corrected.bess_rows (Dam.rows file)))
                               (groupby (Dam.rows file)) d)
           (fun d => fold_left Corrected.dam_energy_step
                               (Corrected.bess_rows (Dam.rows file)) d)).
  - apply (keeps_fold P (Corrected.hour_step _ _)). intros g _.
    unfold Corrected.hour_step.
    apply (keeps_fold P (Corrected.as_block _ _ g)). intros p _.
    apply keeps_as_block.
  - apply (keeps_fold P Corrected.dam_energy_step). intros row _.
    unfold Corrected.dam_energy_step. cbv zeta.
    apply keeps_guarded_update. intros e. apply P_add_dam_energy.
Qed.

End CorrectedKeeps.

Lemma keeps_sced_chunk_loop (P : string -> Corrected.entry -> Prop)
      (bess_resources : dict Registry.row) (rt_prices : dict Q) :
  (forall row, keeps P (fun d => Corrected.sced_step bess_resources rt_prices d row)) ->
  forall (chunks : list (list Sced.row)) (chunk_num : nat),
    keeps P (Corrected.sced_chunk_loop bess_resources rt_prices chunk_num chunks).
Proof.
  intro Hstep.
  assert (Hchunk : forall chunk,
             keeps P (fun d => Corrected.process_sced_chunk
                                 bess_resources rt_prices d chunk)).
  { intro chunk. unfold Corrected.process_sced_chunk. cbv zeta.
    destruct (List.length (Corrected.sced_bess_rows chunk) =? 0)%nat;
      [apply keeps_id|].
    apply (keeps_fold P (Corrected.sced_step bess_resources rt_prices)).
    intros row _. apply Hstep. }
  induction chunks as [|chunk rest IH]; intros chunk_num d Hd;
    cbn [Corrected.sced_chunk_loop].
  - exact Hd.
  - destruct (List.length (Corrected.sced_bess_rows chunk) =? 0)%nat;
      [|destruct (5 <=? chunk_num)%nat];
      try apply IH; apply Hchunk; exact Hd.
Qed.

(** * X7. The sign of a dispatch *)

(** X7.  When the price of the resource is positive (a positive mean of
    quotes, or the fallback of 50), a dispatch row with a positive base
    point raises [rt_energy_arbitrage] of its resource, a row with a
    negative base point lowers it, and a row whose base point is 0 or
    unparseable leaves it as it is. *)
Theorem dispatch_sign_convention
        (bess_resources : dict Registry.row) (rt_prices : dict Q)
        (revenues : Corrected.ledger) (row : Sced.row) (rev : Corrected.entry) :
  get (Sced.Resource_Name row) revenues = Some rev ->
  0 < Corrected.rt_price_of bess_resources rt_prices (Sced.Resource_Name row) ->
  exists rev',
    get (Sced.Resource_Name row)
        (Corrected.sced_step bess_resources rt_prices revenues row) = Some rev' /\
    (0 < fillna0 (Sced.Base_Point row) ->
     Corrected.rt_energy_arbitrage rev < Corrected.rt_energy_arbitrage rev') /\
    (fillna0 (Sced.Base_Point row) < 0 ->
     Corrected.rt_energy_arbitrage rev' < Corrected.rt_energy_arbitrage rev) /\
    (fillna0 (Sced.Base_Point row) == 0 ->
     Corrected.rt_energy_arbitrage rev' == Corrected.rt_energy_arbitrage rev).
Proof.
  intros Hget Hprice.
  destruct (sced_step_amount bess_resources rt_prices revenues row rev Hget)
    as [rev' [Hg Hamount]].
  exists rev'. split; [exact Hg|].
  set (price := Corrected.rt_price_of bess_resources rt_prices (Sced.Resource_Name row))
    in *.
  set (base := fillna0 (Sced.Base_Point row)) in *.
  repeat split; intro Hb; rewrite Hamount.
  - assert (0 < base * (5 # 60) * price).
    { apply Qmult_lt_0_compat; [|exact Hprice].
      apply Qmult_lt_0_compat; [exact Hb | reflexivity]. }
    lra.
  - assert (0 < (- base) * (5 # 60) * price).
    { apply Qmult_lt_0_compat; [|exact Hprice].
      apply Qmult_lt_0_compat; [lra | reflexivity]. }
    lra.
  - rewrite Hb. ring.
Qed.

(** A run of X7: +12 MW for [R1] at the price of 30. *)
Lemma dispatch_sign_convention_witness :
  exists rev',
    get "R1" (Corrected.sced_step Sample.bess_resources [("SP1", 30)]
                                  Sample.revenues0 (Sample.sced_row "R1" 12))
    = Some rev' /\
    (0 < fillna0 (Sced.Base_Point (Sample.sced_row "R1" 12)) ->
     Corrected.rt_energy_arbitrage Corrected.empty_entry
     < Corrected.rt_energy_arbitrage rev') /\
    (fillna0 (Sced.Base_Point (Sample.sced_row "R1" 12)) < 0 ->
     Corrected.rt_energy_arbitrage rev'
     < Corrected.rt_energy_arbitrage Corrected.empty_entry) /\
    (fillna0 (Sced.Base_Point (Sample.sced_row "R1" 12)) == 0 ->
     Corrected.rt_energy_arbitrage rev'
     == Corrected.rt_energy_arbitrage Corrected.empty_entry).
Proof.
  apply (dispatch_sign_convention
           Sample.bess_resources [("SP1", 30)] Sample.revenues0
           (Sample.sced_row "R1" 12) Corrected.empty_entry);
    reflexivity.
Defined.

(** * X8. Real-time revenue and the energy tallies *)

Lemma rt_balanced_add_as (price : Q) (p : product) (v : Q) (e : Corrected.entry) :
  rt_balanced price e -> rt_balanced price (Corrected.add_as p v e).
Proof.
  destruct p; exact (fun H => H).
Qed.

Lemma rt_balanced_add_dam_energy (price v : Q) (e : Corrected.entry) :
  rt_balanced price e -> rt_balanced price (Corrected.add_dam_energy v e).
Proof.
  exact (fun H => H).
Qed.

Lemma rt_balanced_add_rt (price base_mw : Q) (e : Corrected.entry) :
  rt_balanced price e ->
  rt_balanced price
              (Corrected.add_rt base_mw (base_mw * (5 # 60))
                                (base_mw * (5 # 60) * price) e).
Proof.
  unfold rt_balanced, Corrected.add_rt. intros [Hrt [Hd Hc]].
  destruct (Qgtb base_mw 0) eqn:E; cbn.
  - apply Qgtb_true in E. rewrite Hrt. repeat split; [ring | | exact Hc].
    assert (0 <= base_mw * (5 # 60)) by (apply Qmult_le_0_compat; lra).
    lra.
  - apply Qgtb_false in E.
    assert (Hneg : base_mw * (5 # 60) <= 0).
    { setoid_replace (base_mw * (5 # 60)) with (- ((- base_mw) * (5 # 60))) by ring.
      assert (0 <= (- base_mw) * (5 # 60)) by (apply Qmult_le_0_compat; lra).
      lra. }
    rewrite (Qabs_neg _ Hneg), Hrt. repeat split; [ring | exact Hd | lra].
Qed.

Lemma rt_balanced_init (bess_resources : dict Registry.row) (rt_prices : dict Q) :
  all_entries (fun name e =>
                 rt_balanced (Corrected.rt_price_of bess_resources rt_prices name) e)
              (Corrected.init_revenues bess_resources).
Proof.
  intros name e He.
  assert (H0 : forall n e0, get n ([] : dict Corrected.entry) = Some e0 ->
                            e0 = Corrected.empty_entry)
    by (intros n e0 H; discriminate H).
  rewrite (all_entries_fold_set Corrected.empty_entry (keys bess_resources) []
                                H0 name e He).
  unfold rt_balanced. cbn. repeat split; [ring | discriminate | discriminate].
Qed.

(** X8.  At the end of the accumulation of a year, the real-time revenue
    of every resource is the one price of the resource for that year times
    its net energy, [total_discharge_mwh - total_charge_mwh], and both
    tallies are at least 0: a resource that charged as much as it
    discharged has a real-time revenue of 0. *)
Theorem rt_revenue_is_price_times_net_energy
        (bess_resources : dict Registry.row) (data : Corrected.year_data)
        (name : string) (rev : Corrected.entry) :
  get name (Corrected.accumulate_year bess_resources data) = Some rev ->
  Corrected.rt_energy_arbitrage rev
  == Corrected.rt_price_of bess_resources (year_prices data) name
     * (Corrected.total_discharge_mwh rev - Corrected.total_charge_mwh rev)
  /\ 0 <= Corrected.total_discharge_mwh rev
  /\ 0 <= Corrected.total_charge_mwh rev.
Proof.
  set (P := fun n e =>
              rt_balanced (Corrected.rt_price_of bess_resources (year_prices data) n) e).
  assert (Hall : all_entries P (Corrected.accumulate_year bess_resources data)).
  { unfold Corrected.accumulate_year. cbv zeta.
    fold (year_prices data).
    apply (keeps_fold P (Corrected.process_sced_file bess_resources (year_prices data))).
    - intros file _. unfold Corrected.process_sced_file.
      apply keeps_sced_chunk_loop. intro row.
      unfold Corrected.sced_step. cbv zeta.
      apply keeps_guarded_update. intro e. apply rt_balanced_add_rt.
    - apply (keeps_fold P Corrected.process_dam_file).
      + intros file _. apply keeps_process_dam_file.
        * intros n p v e. apply rt_balanced_add_as.
        * intros n v e. apply rt_balanced_add_dam_energy.
      + apply rt_balanced_init. }
  intro Hget. exact (Hall name rev Hget).
Qed.

(** A run of X8 on the end-to-end scenario. *)
Lemma rt_revenue_is_price_times_net_energy_witness :
  Corrected.rt_energy_arbitrage
    (Corrected.mk_entry 200 (1800 # 60) 40 0 0 0 0 1%nat 1%nat (60 # 60) 0)
  == Corrected.rt_price_of Sample.bess_resources (year_prices Sample.scenario) "R1"
     * (Corrected.total_discharge_mwh
          (Corrected.mk_entry 200 (1800 # 60) 40 0 0 0 0 1%nat 1%nat (60 # 60) 0)
        - Corrected.total_charge_mwh
            (Corrected.mk_entry 200 (1800 # 60) 40 0 0 0 0 1%nat 1%nat (60 # 60) 0))
  /\ 0 <= Corrected.total_discharge_mwh
            (Corrected.mk_entry 200 (1800 # 60) 40 0 0 0 0 1%nat 1%nat (60 # 60) 0)
  /\ 0 <= Corrected.total_charge_mwh
            (Corrected.mk_entry 200 (1800 # 60) 40 0 0 0 0 1%nat 1%nat (60 # 60) 0).
Proof.
  apply (rt_revenue_is_price_times_net_energy
           Sample.bess_resources Sample.scenario "R1").
  vm_compute. reflexivity.
Defined.

(** * X9. The two counters *)

Lemma adds_to_fold_zero {V C A : Type} (val : C -> V -> Q)
      (step : dict V -> A -> dict V) (l : list A) :
  (forall a, In a l -> adds_to val (fun d => step d a) (fun _ _ => 0)) ->
  adds_to val (fun d => fold_left step l d) (fun _ _ => 0).
Proof.
  intro H. eapply adds_to_ext.
  - apply (adds_to_fold val step (fun _ _ _ => 0)). exact H.
  - intros n c. apply sumQ_zero. reflexivity.
Qed.

Lemma count_as_sum {A : Type} (nm : A -> string) (n : string) (l : list A) :
  sumQ (fun a => for_name (nm a) n 1) l
  == inject_Z (Z.of_nat (List.length (filter (fun a => (nm a =? n)%string) l))).
Proof.
  induction l as [|a l IH]; simpl.
  - reflexivity.
  - rewrite IH. unfold for_name. destruct (nm a =? n)%string.
    + cbn [List.length]. rewrite Nat2Z.inj_succ, <- Z.add_1_l, inject_Z_plus.
      reflexivity.
    + ring.
Qed.

Lemma tally_add_as (p : product) (v : Q) (e : Corrected.entry) (t : tally) :
  tally_value t (Corrected.add_as p v e) == tally_value t e + 0.
Proof.
  destruct p, t; simpl; ring.
Qed.

Lemma tally_add_dam_energy (v : Q) (e : Corrected.entry) (t : tally) :
  tally_value t (Corrected.add_dam_energy v e) == tally_value t e + dam_tally_inc t.
Proof.
  destruct t; simpl; try ring.
  rewrite Nat2Z.inj_add, inject_Z_plus. reflexivity.
Qed.

Lemma tally_add_rt (row : Sced.row) (revenue : Q) (e : Corrected.entry) (t : tally) :
  tally_value t (Corrected.add_rt (fillna0 (Sced.Base_Point row))
                                  (fillna0 (Sced.Base_Point row) * (5 # 60))
                                  revenue e)
  == tally_value t e + rt_tally_inc row t.
Proof.
  unfold Corrected.add_rt, rt_tally_inc. cbv zeta.
  destruct (Qgtb (fillna0 (Sced.Base_Point row)) 0), t; simpl; try ring;
    rewrite Nat2Z.inj_add, inject_Z_plus; reflexivity.
Qed.

Lemma tally_process_dam_file (file : Dam.file) :
  adds_to tally_value (fun d => Corrected.process_dam_file d file)
          (fun n t => sumQ (fun row => for_name (Dam.Resource_Name row) n
                                                (dam_tally_inc t))
                           (Corrected.bess_rows (Dam.rows file))).
Proof.
  eapply adds_to_eq; [intro d; apply process_dam_file_data|].
  unfold Corrected.process_dam_data. cbv zeta.
  eapply adds_to_ext.
  - apply (adds_to_compose tally_value
             (fun d => fold_left (Corrected.hour_step (Dam.columns file)
                                    (Corrected.bess_rows (Dam.rows file)))
                                 (groupby (Dam.rows file)) d)
             (fun d => fold_left Corrected.dam_energy_step
                                 (Corrected.bess_rows (Dam.rows file)) d)).
    + apply adds_to_fold_zero. intros g _. unfold Corrected.hour_step.
      apply adds_to_fold_zero. intros p _. unfold Corrected.as_block.
      destruct (has_col (mcpc_col p) (Dam.columns file)); [|apply adds_to_id].
      destruct g as [|first rest]; [apply adds_to_id|].
      destruct (notna_and_positive (mcpc_cell p first)); [|apply adds_to_id].
      apply adds_to_fold_zero. intros row _. unfold Corrected.as_row_step.
      eapply adds_to_ext.
      * apply adds_to_guarded_update. intros e t. apply tally_add_as.
      * intros n t. unfold for_name. destruct (_ =? _)%string; reflexivity.
    + apply (adds_to_fold tally_value Corrected.dam_energy_step).
      intros row _. unfold Corrected.dam_energy_step. cbv zeta.
      apply adds_to_guarded_update. intros e t. apply tally_add_dam_energy.
  - intros n t. cbv beta. ring.
Qed.

Lemma tally_process_sced_chunk (bess_resources : dict Registry.row)
      (rt_prices : dict Q) (chunk : list Sced.row) :
  adds_to tally_value
          (fun d => Corrected.process_sced_chunk bess_resources rt_prices d chunk)
          (fun n t => sumQ (fun row => for_name (Sced.Resource_Name row) n
                                                (rt_tally_inc row t))
                           (Corrected.sced_bess_rows chunk)).
Proof.
  eapply adds_to_eq;
    [intro d; apply process_sced_chunk_fold|].
  apply (adds_to_fold tally_value (Corrected.sced_step bess_resources rt_prices)).
  intros row _. unfold Corrected.sced_step. cbv zeta.
  apply adds_to_guarded_update. intros e t. apply tally_add_rt.
Qed.

(** X9.  [dam_hours] goes up by one for every storage row of the resource
    in the DAM files, so an hour that two files repeat is counted twice,
    and [rt_intervals] by one for every storage row of the resource in the
    SCED chunks that are read, whatever the base point. *)
Theorem counters_count_storage_rows
        (bess_resources : dict Registry.row) (rt_prices : dict Q)
        (files : list Dam.file) (chunks : list (list Sced.row))
        (revenues : Corrected.ledger) (name : string) (rev : Corrected.entry) :
  get name revenues = Some rev ->
  exists rev',
    get name (accumulate bess_resources rt_prices files chunks revenues) = Some rev' /\
    Corrected.dam_hours rev'
    = (Corrected.dam_hours rev + dam_row_count name (flat_map Dam.rows files))%nat /\
    Corrected.rt_intervals rev'
    = (Corrected.rt_intervals rev + sced_row_count name (List.concat chunks))%nat.
Proof.
  intro Hget.
  assert (Hadds :
    adds_to tally_value
            (fun d => accumulate bess_resources rt_prices files chunks d)
            (fun n t =>
               sumQ (fun file =>
                       sumQ (fun row => for_name (Dam.Resource_Name row) n
                                                 (dam_tally_inc t))
                            (Corrected.bess_rows (Dam.rows file))) files
               + sumQ (fun chunk =>
                         sumQ (fun row => for_name (Sced.Resource_Name row) n
                                                   (rt_tally_inc row t))
                              (Corrected.sced_bess_rows chunk)) chunks)).
  { unfold accumulate.
    apply (adds_to_compose tally_value
             (fun d => fold_left Corrected.process_dam_file files d)
             (fun d => fold_left (Corrected.process_sced_chunk bess_resources rt_prices)
                                 chunks d)).
    - apply (adds_to_fold tally_value Corrected.process_dam_file).
      intros file _. apply tally_process_dam_file.
    - apply (adds_to_fold tally_value
                          (Corrected.process_sced_chunk bess_resources rt_prices)).
      intros chunk _. apply tally_process_sced_chunk. }
  destruct (Hadds revenues) as [_ Hv].
  destruct (Hv name rev Hget) as [rev' [Hg Hc]].
  exists rev'. split; [exact Hg|]. split.
  - specialize (Hc DamHours). cbn [tally_value dam_tally_inc rt_tally_inc] in Hc.
    assert (Hsced : sumQ (fun chunk =>
                            sumQ (fun row => for_name (Sced.Resource_Name row) name 0)
                                 (Corrected.sced_bess_rows chunk)) chunks == 0).
    { apply sumQ_zero. intros chunk _. apply sumQ_zero. intros row _.
      unfold for_name. destruct (_ =? _)%string; reflexivity. }
    rewrite Hsced in Hc.
    assert (Hdam : sumQ (fun file =>
                           sumQ (fun row => for_name (Dam.Resource_Name row) name 1)
                                (Corrected.bess_rows (Dam.rows file))) files
                   == inject_Z (Z.of_nat (dam_row_count name (flat_map Dam.rows files)))).
    { unfold dam_row_count, Corrected.bess_rows.
      rewrite <- count_as_sum, (sumQ_filter _ _ (flat_map Dam.rows files)),
        sumQ_flat_map.
      apply sumQ_ext_in. intros file _. rewrite sumQ_filter. reflexivity. }
    rewrite Hdam, Qplus_0_r, <- inject_Z_plus, <- Nat2Z.inj_add in Hc.
    apply Nat2Z.inj. apply inject_Z_injective. exact Hc.
  - specialize (Hc RtIntervals). cbn [tally_value dam_tally_inc rt_tally_inc] in Hc.
    assert (Hdam : sumQ (fun file =>
                           sumQ (fun row => for_name (Dam.Resource_Name row) name 0)
                                (Corrected.bess_rows (Dam.rows file))) files == 0).
    { apply sumQ_zero. intros file _. apply sumQ_zero. intros row _.
      unfold for_name. destruct (_ =? _)%string; reflexivity. }
    rewrite Hdam in Hc.
    assert (Hsced : sumQ (fun chunk =>
                            sumQ (fun row => for_name (Sced.Resource_Name row) name 1)
                                 (Corrected.sced_bess_rows chunk)) chunks
                    == inject_Z (Z.of_nat (sced_row_count name (List.concat chunks)))).
    { unfold sced_row_count, Corrected.sced_bess_rows.
      rewrite <- count_as_sum, (sumQ_filter _ _ (List.concat chunks)), sumQ_concat.
      apply sumQ_ext_in. intros chunk _. rewrite sumQ_filter. reflexivity. }
    rewrite Hsced, Qplus_0_l, <- inject_Z_plus, <- Nat2Z.inj_add in Hc.
    apply Nat2Z.inj. apply inject_Z_injective. exact Hc.
Qed.

(** A run of X9: the same hour of [R1] in two files, and two dispatch
    rows. *)
Lemma counters_count_storage_rows_witness :
  exists rev',
    get "R1" (accumulate Sample.bess_resources [("SP1", 30)]
                         [Dam.mk_file Sample.cols [Sample.dam_row 10 20 5 8];
                          Dam.mk_file Sample.cols [Sample.dam_row 10 20 5 8]]
                         [[Sample.sced_row "R1" 12; Sample.sced_row "R1" 0]]
                         Sample.revenues0)
    = Some rev' /\
    Corrected.dam_hours rev'
    = (Corrected.dam_hours Corrected.empty_entry
       + dam_row_count "R1"
           (flat_map Dam.rows
                     [Dam.mk_file Sample.cols [Sample.dam_row 10 20 5 8];
                      Dam.mk_file Sample.cols [Sample.dam_row 10 20 5 8]]))%nat /\
    Corrected.rt_intervals rev'
    = (Corrected.rt_intervals Corrected.empty_entry
       + sced_row_count "R1"
           (List.concat [[Sample.sced_row "R1" 12; Sample.sced_row "R1" 0]]))%nat.
Proof.
  apply counters_count_storage_rows. reflexivity.
Defined.

(** * X10. What the sampling leaves unread *)

Lemma sced_chunk_loop_break (bess_resources : dict Registry.row) (rt_prices : dict Q)
      (chunk : list Sced.row) (rest : list (list Sced.row)) :
  Corrected.sced_bess_rows chunk <> [] ->
  forall (pre : list (list Sced.row)) (chunk_num : nat) (revenues : Corrected.ledger),
    (5 <= chunk_num + List.length pre)%nat ->
    Corrected.sced_chunk_loop bess_resources rt_prices chunk_num
                              (pre ++ chunk :: rest) revenues
    = Corrected.sced_chunk_loop bess_resources rt_prices chunk_num
                                (pre ++ [chunk]) revenues.
Proof.
  intro Hbess.
  assert (Hlen : (List.length (Corrected.sced_bess_rows chunk) =? 0)%nat = false).
  { destruct (Corrected.sced_bess_rows chunk); [contradiction | reflexivity]. }
  induction pre as [|c pre IH]; intros chunk_num revenues Hnum;
    cbn [app Corrected.sced_chunk_loop List.length] in *.
  - rewrite Hlen.
    assert (E : (5 <=? chunk_num)%nat = true) by (apply Nat.leb_le; lia).
    rewrite E. reflexivity.
  - destruct (List.length (Corrected.sced_bess_rows c) =? 0)%nat;
      [|destruct (5 <=? chunk_num)%nat]; try reflexivity; apply IH; lia.
Qed.

(** X10.  What the corrected calculator never reads: in a SCED file, the
    chunks that follow the first chunk with storage rows whose number is 5
    or more; in a year, the SCED files that follow the tenth. *)
Theorem sampling_leaves_the_rest_unread
        (bess_resources : dict Registry.row) (rt_prices : dict Q) :
  (forall (pre : list (list Sced.row)) (chunk : list Sced.row)
          (rest : list (list Sced.row)) (revenues : Corrected.ledger),
      (5 <= List.length pre)%nat ->
      Corrected.sced_bess_rows chunk <> [] ->
      Corrected.sced_chunk_loop bess_resources rt_prices 0
                                (pre ++ chunk :: rest) revenues
      = Corrected.sced_chunk_loop bess_resources rt_prices 0
                                  (pre ++ [chunk]) revenues) /\
  (forall (dam_files : list Dam.file) (first_ten more : list (list Sced.row))
          (price_file : option (list Spp.row)),
      List.length first_ten = 10%nat ->
      Corrected.accumulate_year
        bess_resources
        (Corrected.mk_year_data dam_files (first_ten ++ more) price_file)
      = Corrected.accumulate_year
          bess_resources (Corrected.mk_year_data dam_files first_ten price_file)).
Proof.
  split.
  - intros pre chunk rest revenues Hpre Hbess.
    apply sced_chunk_loop_break; [exact Hbess | exact Hpre].
  - intros dam_files first_ten more price_file Hlen.
    unfold Corrected.accumulate_year. cbn [Corrected.sced_files Corrected.dam_files
                                           Corrected.price_file].
    rewrite <- Hlen, firstn_app, firstn_all, Nat.sub_diag, firstn_0, app_nil_r.
    reflexivity.
Qed.

(** A run of X10: six chunks of one dispatch row, then a seventh. *)
Lemma sampling_leaves_the_rest_unread_witness :
  Corrected.sced_chunk_loop
    Sample.bess_resources [] 0
    ([[Sample.sced_row "R1" 1]; [Sample.sced_row "R1" 1]; [Sample.sced_row "R1" 1];
      [Sample.sced_row "R1" 1]; [Sample.sced_row "R1" 1]]
       ++ [Sample.sced_row "R1" 1] :: [[Sample.sced_row "R1" 1000]])
    Sample.revenues0
  = Corrected.sced_chunk_loop
      Sample.bess_resources [] 0
      ([[Sample.sced_row "R1" 1]; [Sample.sced_row "R1" 1]; [Sample.sced_row "R1" 1];
        [Sample.sced_row "R1" 1]; [Sample.sced_row "R1" 1]]
         ++ [[Sample.sced_row "R1" 1]])
      Sample.revenues0.
Proof.
  apply (proj1 (sampling_leaves_the_rest_unread Sample.bess_resources [])).
  - simpl. lia.
  - discriminate.
Defined.

(** * X11, X12. The day-ahead pass on one file *)

Lemma sumQ_nonneg {A : Type} (f : A -> Q) (l : list A) :
  (forall a, In a l -> 0 <= f a) -> 0 <= sumQ f l.
Proof.
  induction l as [|a l IH]; intro H; simpl.
  - discriminate.
  - assert (0 <= f a) by (apply H; left; reflexivity).
    assert (0 <= sumQ f l) by (apply IH; intros b Hb; apply H; right; exact Hb).
    lra.
Qed.

Lemma blocks_leave_dam_energy (cols : list string) (df bess_data : list Dam.row)
      (n : string) :
  sumQ (fun g => sumQ (fun p => block_delta cols bess_data g p n DamEnergy) products)
       (groupby df) == 0.
Proof.
  apply sumQ_zero. intros g _. apply sumQ_zero. intros p _.
  apply block_delta_other. discriminate.
Qed.

(** X11.  One DAM file adds to [dam_energy] of a listed resource the sum,
    over the storage rows of the resource, of the awarded quantity times
    the settlement point price of the row, an unparseable cell counting as
    0; and a file without any MCPC column leaves the five AS accumulators
    as they are. *)
Theorem dam_file_energy_and_missing_mcpc
        (file : Dam.file) (revenues : Corrected.ledger)
        (name : string) (rev : Corrected.entry) :
  get name revenues = Some rev ->
  exists rev',
    get name (Corrected.process_dam_file revenues file) = Some rev' /\
    Corrected.dam_energy rev'
    == Corrected.dam_energy rev
       + sumQ (fun row => fillna0 (Dam.Awarded_Quantity row)
                          * fillna0 (Dam.Energy_Settlement_Point_Price row))
              (filter (fun row => (Dam.Resource_Name row =? name)%string)
                      (Corrected.bess_rows (Dam.rows file))) /\
    ((forall p, has_col (mcpc_col p) (Dam.columns file) = false) ->
     forall p, value (As p) rev' == value (As p) rev).
Proof.
  intro Hget.
  destruct (adds_process_dam_file file revenues) as [_ Hv].
  destruct (Hv name rev Hget) as [rev' [Hg Hc]].
  exists rev'. split; [exact Hg|]. split.
  - specialize (Hc DamEnergy). cbn [value] in Hc. rewrite Hc.
    unfold dam_delta. rewrite blocks_leave_dam_energy, Qplus_0_l, sumQ_filter.
    apply Qplus_inj_l. apply sumQ_ext_in. intros row _.
    unfold for_name. destruct (_ =? _)%string; reflexivity.
  - intros Hcols p. rewrite (Hc (As p)). unfold dam_delta.
    assert (Hblocks :
      sumQ (fun g => sumQ (fun q => block_delta (Dam.columns file)
                                      (Corrected.bess_rows (Dam.rows file))
                                      g q name (As p)) products)
           (groupby (Dam.rows file)) == 0).
    { apply sumQ_zero. intros g _. apply sumQ_zero. intros q _.
      unfold block_delta. rewrite (Hcols q). reflexivity. }
    assert (Henergy :
      sumQ (fun row => for_name (Dam.Resource_Name row) name (energy_inc row (As p)))
           (Corrected.bess_rows (Dam.rows file)) == 0).
    { apply sumQ_zero. intros row _. unfold for_name.
      destruct (_ =? _)%string; reflexivity. }
    rewrite Hblocks, Henergy. ring.
Qed.

(** A run of X11: a file with the energy columns only. *)
Lemma dam_file_energy_and_missing_mcpc_witness :
  exists rev',
    get "R1" (Corrected.process_dam_file
                Sample.revenues0
                (Dam.mk_file ["Delivery Date"; "Hour Ending"; "Resource Name";
                              "Resource Type"; "Awarded Quantity";
                              "Energy Settlement Point Price"]
                             [Sample.dam_row 10 20 5 8]))
    = Some rev' /\
    Corrected.dam_energy rev'
    == Corrected.dam_energy Corrected.empty_entry
       + sumQ (fun row => fillna0 (Dam.Awarded_Quantity row)
                          * fillna0 (Dam.Energy_Settlement_Point_Price row))
              (filter (fun row => (Dam.Resource_Name row =? "R1")%string)
                      (Corrected.bess_rows [Sample.dam_row 10 20 5 8])) /\
    ((forall p, has_col (mcpc_col p)
                        ["Delivery Date"; "Hour Ending"; "Resource Name";
                         "Resource Type"; "Awarded Quantity";
                         "Energy Settlement Point Price"] = false) ->
     forall p, value (As p) rev' == value (As p) Corrected.empty_entry).
Proof.
  apply (dam_file_energy_and_missing_mcpc
           (Dam.mk_file ["Delivery Date"; "Hour Ending"; "Resource Name";
                         "Resource Type"; "Awarded Quantity";
                         "Energy Settlement Point Price"]
                        [Sample.dam_row 10 20 5 8])
           Sample.revenues0 "R1" Corrected.empty_entry).
  reflexivity.
Defined.

Lemma not_negative_fillna0 (c : cell) : not_negative c -> 0 <= fillna0 c.
Proof.
  destruct c; simpl; [tauto | discriminate].
Qed.

Lemma award_mw_nonneg (cols : list string) (p : product) (r : Dam.row) :
  awards_not_negative r -> 0 <= Corrected.award_mw cols p r.
Proof.
  intros [H1 [H2 [H3 [H4 [H5 [H6 H7]]]]]].
  apply not_negative_fillna0 in H1, H2, H3, H4, H5, H6, H7.
  destruct p; cbn [Corrected.award_mw]; try assumption.
  unfold Corrected.RRS_Total_MW, Corrected.rrs_cols. cbn [fold_left fst snd].
  destruct (has_col "RRSPFR Awarded" cols), (has_col "RRSFFR Awarded" cols),
    (has_col "RRSUFR Awarded" cols); lra.
Qed.

Lemma block_delta_nonneg (cols : list string) (bess_data hour_group : list Dam.row)
      (p : product) (n : string) (c : component) :
  (forall r, In r bess_data -> awards_not_negative r) ->
  0 <= block_delta cols bess_data hour_group p n c.
Proof.
  intro H. unfold block_delta.
  destruct (has_col (mcpc_col p) cols); [|discriminate].
  destruct hour_group as [|first rest]; [discriminate|].
  destruct (mcpc_cell p first) as [m|] eqn:E; cbn [notna_and_positive fillna0];
    [|discriminate].
  destruct (Qgtb m 0) eqn:Em; [|discriminate].
  apply Qgtb_true in Em.
  apply sumQ_nonneg. intros row Hrow. apply filter_In in Hrow.
  assert (Ha := award_mw_nonneg cols p row (H row (proj1 Hrow))).
  unfold for_name, as_inc.
  destruct (_ =? _)%string; [|discriminate].
  destruct c as [| |q]; try discriminate.
  destruct (product_eqb p q); [|discriminate].
  apply Qmult_le_0_compat; lra.
Qed.

(** X12.  When no award cell of the storage rows holds a negative number,
    the DAM files never lower an AS accumulator: the MCPC that multiplies
    an award is greater than 0, or the award is not credited. *)
Theorem as_accumulators_never_lowered
        (files : list Dam.file) (revenues : Corrected.ledger)
        (name : string) (rev : Corrected.entry) :
  (forall file row, In file files -> In row (Corrected.bess_rows (Dam.rows file)) ->
                    awards_not_negative row) ->
  get name revenues = Some rev ->
  exists rev',
    get name (fold_left Corrected.process_dam_file files revenues) = Some rev' /\
    forall p, value (As p) rev <= value (As p) rev'.
Proof.
  intros Hawards Hget.
  destruct (adds_fold Corrected.process_dam_file
                      (fun file => dam_delta (Dam.columns file) (Dam.rows file)
                                             (Corrected.bess_rows (Dam.rows file)))
                      files (fun file _ => adds_process_dam_file file) revenues)
    as [_ Hv].
  destruct (Hv name rev Hget) as [rev' [Hg Hc]].
  exists rev'. split; [exact Hg|]. intro p. rewrite (Hc (As p)).
  assert (Hnn : 0 <= sumQ (fun file => dam_delta (Dam.columns file) (Dam.rows file)
                                         (Corrected.bess_rows (Dam.rows file))
                                         name (As p)) files).
  { apply sumQ_nonneg. intros file Hfile. unfold dam_delta.
    assert (0 <= sumQ (fun g => sumQ (fun q => block_delta (Dam.columns file)
                                                 (Corrected.bess_rows (Dam.rows file))
                                                 g q name (As p)) products)
                      (groupby (Dam.rows file))).
    { apply sumQ_nonneg. intros g _. apply sumQ_nonneg. intros q _.
      apply block_delta_nonneg. intros r Hr. apply (Hawards file r Hfile Hr). }
    assert (sumQ (fun row => for_name (Dam.Resource_Name row) name
                                      (energy_inc row (As p)))
                 (Corrected.bess_rows (Dam.rows file)) == 0).
    { apply sumQ_zero. intros row _. unfold for_name.
      destruct (_ =? _)%string; reflexivity. }
    lra. }
  lra.
Qed.

(** A run of X12: 5 MW of RegUp at an MCPC of 8. *)
Lemma as_accumulators_never_lowered_witness :
  exists rev',
    get "R1" (fold_left Corrected.process_dam_file
                        [Dam.mk_file Sample.cols [Sample.dam_row 10 20 5 8]]
                        Sample.revenues0)
    = Some rev' /\
    forall p, value (As p) Corrected.empty_entry <= value (As p) rev'.
Proof.
  apply as_accumulators_never_lowered.
  - intros file row [<-|[]] [<-|[]]. unfold awards_not_negative, not_negative.
    simpl. repeat split; discriminate.
  - reflexivity.
Defined.

(** * X13. The summary of a year *)

Lemma Qsum_from (l : list Q) : forall a : Q, fold_left Qplus l a == a + sumQ (fun q => q) l.
Proof.
  induction l as [|q l IH]; intro a; simpl.
  - ring.
  - rewrite IH. ring.
Qed.

Lemma Qsum_map {A : Type} (g : A -> Q) (l : list A) : Qsum (map g l) == sumQ g l.
Proof.
  unfold Qsum. rewrite Qsum_from, sumQ_map. cbv beta. apply Qplus_0_l.
Qed.

Lemma sumQ_pos {A : Type} (f : A -> Q) (l : list A) :
  l <> [] -> (forall a, In a l -> 0 < f a) -> 0 < sumQ f l.
Proof.
  destruct l as [|a l]; [contradiction|]. intros _ H. simpl.
  assert (0 < f a) by (apply H; left; reflexivity).
  assert (0 <= sumQ f l).
  { apply sumQ_nonneg. intros b Hb. apply Qlt_le_weak. apply H. right. exact Hb. }
  lra.
Qed.

Lemma corrected_rows_positive (year : nat) (revenues : Corrected.ledger)
      (row : Corrected.result) :
  In row (Corrected.create_results year revenues) ->
  0 < Corrected.Total_Revenue row /\
  Corrected.Total_Revenue row
  == Corrected.DA_Revenue row + Corrected.RT_Revenue row
     + Corrected.Total_AS_Revenue row /\
  Corrected.Energy_Pct row + Corrected.AS_Pct row == 100 /\
  Corrected.Year row = year.
Proof.
  rewrite corrected_create_results. intro H.
  apply in_kept_rows in H. destruct H as [[name rev] [_ [Hpos ->]]].
  cbn [fst snd] in *. apply Qgtb_true in Hpos.
  unfold Corrected.result_row.
  cbn [Corrected.Total_Revenue Corrected.DA_Revenue Corrected.RT_Revenue
       Corrected.Total_AS_Revenue Corrected.Energy_Pct Corrected.AS_Pct Corrected.Year].
  split; [exact Hpos|]. split; [unfold Corrected.total; ring|]. split; [|reflexivity].
  apply corrected_percent_sum. exact Hpos.
Qed.

Lemma final_sample_rows_positive (year : nat) (revenues : FinalSample.ledger)
      (row : FinalSample.result) :
  In row (FinalSample.create_results year revenues) ->
  0 < FinalSample.Total_Revenue row /\
  FinalSample.Total_Revenue row
  == FinalSample.Energy_Revenue row + FinalSample.AS_Revenue row.
Proof.
  rewrite final_sample_create_results. intro H.
  apply in_kept_rows in H. destruct H as [[name rev] [_ [Hpos ->]]].
  cbn [fst snd] in *. apply Qgtb_true in Hpos.
  unfold FinalSample.result_row.
  cbn [FinalSample.Total_Revenue FinalSample.Energy_Revenue FinalSample.AS_Revenue].
  split; [exact Hpos|]. rewrite final_sample_total. ring.
Qed.

(** X13.  The summary that is logged for a year with output rows divides
    by a total that is greater than 0, and its energy share and its AS
    share sum to 100; in the corrected calculator and in the sample
    analysis. *)
Theorem year_summary_shares :
  (forall (year : nat) (revenues : Corrected.ledger),
      let results := Corrected.create_results year revenues in
      results <> [] ->
      0 < Corrected.summary_total_revenue results /\
      Corrected.summary_energy_pct results + Corrected.summary_as_pct results == 100) /\
  (forall (year : nat) (revenues : FinalSample.ledger),
      let results := FinalSample.create_results year revenues in
      results <> [] ->
      0 < FinalSample.summary_total_revenue results /\
      FinalSample.summary_energy_pct results + FinalSample.summary_as_pct results
      == 100).
Proof.
  split; intros year revenues results Hne.
  - assert (Hrows := fun row => corrected_rows_positive year revenues row).
    fold results in Hrows.
    assert (Hpos : 0 < Corrected.summary_total_revenue results).
    { unfold Corrected.summary_total_revenue. rewrite Qsum_map.
      apply sumQ_pos; [exact Hne | intros row Hrow; apply (Hrows row Hrow)]. }
    split; [exact Hpos|].
    assert (Hsum : Corrected.summary_total_revenue results
                   == Corrected.summary_total_energy results
                      + Corrected.summary_total_as results).
    { unfold Corrected.summary_total_revenue, Corrected.summary_total_energy,
        Corrected.summary_total_as.
      rewrite !Qsum_map, <- !sumQ_plus. apply sumQ_ext_in.
      intros row Hrow. apply (Hrows row Hrow). }
    unfold Corrected.summary_energy_pct, Corrected.summary_as_pct.
    set (t := Corrected.summary_total_revenue results) in *.
    set (e := Corrected.summary_total_energy results) in *.
    set (a := Corrected.summary_total_as results) in *.
    assert (Hnz : ~ t == 0) by (intro E; rewrite E in Hpos; discriminate Hpos).
    transitivity ((e + a) / t * 100); [field; exact Hnz|].
    rewrite <- Hsum. field. exact Hnz.
  - assert (Hrows := fun row => final_sample_rows_positive year revenues row).
    fold results in Hrows.
    assert (Hpos : 0 < FinalSample.summary_total_revenue results).
    { unfold FinalSample.summary_total_revenue. rewrite Qsum_map.
      apply sumQ_pos; [exact Hne | intros row Hrow; apply (Hrows row Hrow)]. }
    split; [exact Hpos|].
    assert (Hsum : FinalSample.summary_total_revenue results
                   == FinalSample.summary_energy_revenue results
                      + FinalSample.summary_as_revenue results).
    { unfold FinalSample.summary_total_revenue, FinalSample.summary_energy_revenue,
        FinalSample.summary_as_revenue.
      rewrite !Qsum_map, <- sumQ_plus. apply sumQ_ext_in.
      intros row Hrow. apply (Hrows row Hrow). }
    unfold FinalSample.summary_energy_pct, FinalSample.summary_as_pct.
    set (t := FinalSample.summary_total_revenue results) in *.
    set (e := FinalSample.summary_energy_revenue results) in *.
    set (a := FinalSample.summary_as_revenue results) in *.
    assert (Hnz : ~ t == 0) by (intro E; rewrite E in Hpos; discriminate Hpos).
    transitivity ((e + a) / t * 100); [field; exact Hnz|].
    rewrite <- Hsum. field. exact Hnz.
Qed.

(** A run of X13: the year of [Sample.scenario]. *)
Lemma year_summary_shares_witness :
  0 < Corrected.summary_total_revenue
        (Corrected.create_results
           2024 (Corrected.accumulate_year Sample.bess_resources Sample.scenario)) /\
  Corrected.summary_energy_pct
    (Corrected.create_results
       2024 (Corrected.accumulate_year Sample.bess_resources Sample.scenario))
  + Corrected.summary_as_pct
      (Corrected.create_results
         2024 (Corrected.accumulate_year Sample.bess_resources Sample.scenario))
  == 100.
Proof.
  apply (proj1 year_summary_shares 2024%nat
               (Corrected.accumulate_year Sample.bess_resources Sample.scenario)).
  vm_compute. discriminate.
Defined.

(** * X14. The rows of a year in the final summary *)

Lemma fold_extend {A B : Type} (f : A -> list B) (l : list A) :
  forall acc : list B,
    fold_left (fun all_results year => all_results ++ f year) l acc
    = acc ++ flat_map f l.
Proof.
  induction l as [|a l IH]; intro acc; simpl.
  - symmetry. apply app_nil_r.
  - rewrite IH, app_assoc. reflexivity.
Qed.

Lemma filter_all {A : Type} (f : A -> bool) (l : list A) :
  (forall a, In a l -> f a = true) -> filter f l = l.
Proof.
  induction l as [|a l IH]; intro H; simpl; [reflexivity|].
  rewrite (H a (or_introl eq_refl)), IH; [reflexivity|].
  intros b Hb. apply H. right. exact Hb.
Qed.

Section RowsOfYear.
Context {R : Type} (year_of : R -> nat) (rows : nat -> list R).
Hypothesis rows_year : forall y row, In row (rows y) -> year_of row = y.

Lemma rows_of_other_years (year : nat) (years : list nat) :
  ~ In year years ->
  filter (fun r => (year_of r =? year)%nat) (flat_map rows years) = [].
Proof.
  induction years as [|y ys IH]; intro Hnot; simpl; [reflexivity|].
  rewrite filter_app, IH; [|intro H; apply Hnot; right; exact H].
  rewrite app_nil_r. apply filter_none. intros r Hr.
  apply Nat.eqb_neq. rewrite (rows_year y r Hr).
  intro E. apply Hnot. left. exact E.
Qed.

Lemma rows_of_year (year : nat) (years : list nat) :
  NoDup years -> In year years ->
  filter (fun r => (year_of r =? year)%nat) (flat_map rows years) = rows year.
Proof.
  induction years as [|y ys IH]; intros Hnd Hin; [contradiction|].
  inversion Hnd as [|? ? Hnot Hnd']; subst. simpl. rewrite filter_app.
  destruct (Nat.eq_dec y year) as [->|Hne].
  - rewrite (rows_of_other_years year ys Hnot), app_nil_r.
    apply filter_all. intros r Hr. apply Nat.eqb_eq. apply (rows_year year r Hr).
  - destruct Hin as [E|Hin]; [contradiction|].
    rewrite (IH Hnd' Hin).
    replace (filter (fun r => (year_of r =? year)%nat) (rows y)) with (@nil R);
      [reflexivity|].
    symmetry. apply filter_none. intros r Hr.
    apply Nat.eqb_neq. rewrite (rows_year y r Hr). exact Hne.
Qed.

End RowsOfYear.

Lemma sumQ_const {A : Type} (c : Q) (l : list A) :
  sumQ (fun _ => c) l == c * inject_Z (Z.of_nat (List.length l)).
Proof.
  induction l as [|a l IH]; cbn [sumQ List.length].
  - unfold inject_Z. simpl. ring.
  - rewrite IH, Nat2Z.inj_succ. unfold Z.succ. rewrite inject_Z_plus. ring.
Qed.

Lemma length_not_zero {A : Type} (l : list A) :
  l <> [] -> ~ inject_Z (Z.of_nat (List.length l)) == 0.
Proof.
  destruct l as [|a l]; [contradiction|]. intros _ H.
  unfold Qeq in H. cbn [Qnum Qden inject_Z List.length] in H. lia.
Qed.

(** X14.  The final summary of the corrected calculator, run over years
    without repetition, reads for a year exactly the rows that
    [process_year] returned for it; and when there are such rows, the mean
    energy share and the mean AS share that it logs sum to 100. *)
Theorem final_summary_reads_year_rows
        (bess_resources : dict Registry.row) (years : list nat)
        (data : nat -> Corrected.year_data) (year : nat) :
  NoDup years -> In year years ->
  Corrected.year_rows (Corrected.run_years bess_resources years data) year
  = Corrected.process_year bess_resources year (data year) /\
  (Corrected.process_year bess_resources year (data year) <> [] ->
   Corrected.final_energy_pct_mean
     (Corrected.run_years bess_resources years data) year
   + Corrected.final_as_pct_mean
       (Corrected.run_years bess_resources years data) year
   == 100).
Proof.
  intros Hnd Hin.
  assert (Hrows : Corrected.year_rows (Corrected.run_years bess_resources years data) year
                  = Corrected.process_year bess_resources year (data year)).
  { unfold Corrected.year_rows, Corrected.run_years.
    rewrite fold_extend. cbn [app].
    apply (rows_of_year Corrected.Year
                        (fun y => Corrected.process_year bess_resources y (data y)));
      [|exact Hnd|exact Hin].
    intros y row Hrow. apply (corrected_rows_positive y _ row Hrow). }
  split; [exact Hrows|]. intro Hne.
  unfold Corrected.final_energy_pct_mean, Corrected.final_as_pct_mean.
  rewrite Hrows.
  set (l := Corrected.process_year bess_resources year (data year)) in *.
  unfold mean. rewrite !length_map, !Qsum_map.
  assert (Hn := length_not_zero l Hne).
  assert (Hsum : sumQ Corrected.Energy_Pct l + sumQ Corrected.AS_Pct l
                 == 100 * inject_Z (Z.of_nat (List.length l))).
  { rewrite <- sumQ_plus, <- sumQ_const. apply sumQ_ext_in.
    intros row Hrow. apply (corrected_rows_positive year _ row Hrow). }
  set (n := inject_Z (Z.of_nat (List.length l))) in *.
  transitivity ((sumQ Corrected.Energy_Pct l + sumQ Corrected.AS_Pct l) / n);
    [field; exact Hn|].
  rewrite Hsum. field. exact Hn.
Qed.

(** A run of X14: the scenario as the year 2024 of the four years. *)
Lemma final_summary_reads_year_rows_witness :
  Corrected.year_rows
    (Corrected.run_years Sample.bess_resources Corrected.years_to_process
                         (fun _ => Sample.scenario)) 2024
  = Corrected.process_year Sample.bess_resources 2024 Sample.scenario /\
  (Corrected.process_year Sample.bess_resources 2024 Sample.scenario <> [] ->
   Corrected.final_energy_pct_mean
     (Corrected.run_years Sample.bess_resources Corrected.years_to_process
                          (fun _ => Sample.scenario)) 2024
   + Corrected.final_as_pct_mean
       (Corrected.run_years Sample.bess_resources Corrected.years_to_process
                            (fun _ => Sample.scenario)) 2024
   == 100).
Proof.
  apply (final_summary_reads_year_rows
           Sample.bess_resources Corrected.years_to_process
           (fun _ => Sample.scenario) 2024%nat).
  - unfold Corrected.years_to_process.
    repeat constructor; simpl; intuition discriminate.
  - simpl. auto.
Defined.

(** * X15, X16, X17. The years of the files *)

Lemma In_set_add (y z : nat) (years : list nat) :
  In z (WithLogging.set_add y years) <-> z = y \/ In z years.
Proof.
  unfold WithLogging.set_add.
  destruct (existsb (Nat.eqb y) years) eqn:E.
  - apply existsb_exists in E. destruct E as [x [Hx Exy]].
    apply Nat.eqb_eq in Exy. subst x.
    split; [intro H; right; exact H | intros [->|H]; assumption].
  - simpl. split; intros [H|H]; auto.
Qed.

Lemma NoDup_set_add (y : nat) (years : list nat) :
  NoDup years -> NoDup (WithLogging.set_add y years).
Proof.
  intro H. unfold WithLogging.set_add.
  destruct (existsb (Nat.eqb y) years) eqn:E; [exact H|].
  constructor; [|exact H]. intro Hin.
  assert (existsb (Nat.eqb y) years = true).
  { apply existsb_exists. exists y. split; [exact Hin | apply Nat.eqb_refl]. }
  congruence.
Qed.

Lemma In_insert_year (y z : nat) (l : list nat) :
  In z (WithLogging.insert_year y l) <-> z = y \/ In z l.
Proof.
  induction l as [|x l IH]; simpl.
  - intuition.
  - destruct (y <=? x)%nat; simpl; [|rewrite IH]; intuition.
Qed.

Lemma In_sorted (z : nat) (l : list nat) : In z (WithLogging.sorted l) <-> In z l.
Proof.
  induction l as [|x l IH]; simpl; [reflexivity|].
  rewrite In_insert_year, IH. intuition.
Qed.

Lemma insert_year_sorted (y : nat) (l : list nat) :
  StronglySorted lt l -> ~ In y l -> StronglySorted lt (WithLogging.insert_year y l).
Proof.
  induction l as [|x l IH]; intros Hs Hnot; simpl.
  - constructor; constructor.
  - inversion Hs as [|? ? Hs' Hall]; subst.
    destruct (y <=? x)%nat eqn:E.
    + apply Nat.leb_le in E.
      assert (Hlt : (y < x)%nat).
      { destruct (Nat.eq_dec y x) as [->|Hne]; [|lia].
        exfalso. apply Hnot. left. reflexivity. }
      constructor; [exact Hs|]. constructor; [exact Hlt|].
      rewrite Forall_forall in *. intros w Hw. specialize (Hall w Hw). lia.
    + apply Nat.leb_gt in E. constructor.
      * apply IH; [exact Hs' | intro H; apply Hnot; right; exact H].
      * rewrite Forall_forall in *. intros w Hw.
        apply In_insert_year in Hw. destruct Hw as [->|Hw]; [exact E | apply Hall, Hw].
Qed.

Lemma sorted_strictly (l : list nat) :
  NoDup l -> StronglySorted lt (WithLogging.sorted l).
Proof.
  induction 1 as [|x l Hnot Hnd IH]; simpl.
  - constructor.
  - apply insert_year_sorted; [exact IH | rewrite In_sorted; exact Hnot].
Qed.

Lemma scan_years (file_suffixes : list (option nat)) :
  forall years : list nat,
    NoDup years ->
    let found :=
      fold_left (fun years suffix =>
                   match suffix with
                   | Some year_val =>
                       WithLogging.set_add (WithLogging.year_of_suffix year_val) years
                   | None => years
                   end)
                file_suffixes years in
    NoDup found /\
    forall y, In y found <->
              In y years \/
              exists year_val, In (Some year_val) file_suffixes /\
                               y = WithLogging.year_of_suffix year_val.
Proof.
  induction file_suffixes as [|suffix l IH]; intros years Hnd; cbn [fold_left].
  - split; [exact Hnd|]. intro y. split; [auto|].
    intros [H|[v [[] _]]]. exact H.
  - destruct suffix as [v|].
    + destruct (IH _ (NoDup_set_add (WithLogging.year_of_suffix v) years Hnd))
        as [Hnd' Hin].
      split; [exact Hnd'|]. intro y. rewrite Hin, In_set_add. split.
      * intros [[->|H]|[w [Hw ->]]].
        -- right. exists v. split; [left; reflexivity | reflexivity].
        -- left. exact H.
        -- right. exists w. split; [right; exact Hw | reflexivity].
      * intros [H|[w [[E|Hw] ->]]].
        -- left. right. exact H.
        -- inversion E; subst. left. left. reflexivity.
        -- right. exists w. split; [exact Hw | reflexivity].
    + destruct (IH years Hnd) as [Hnd' Hin].
      split; [exact Hnd'|]. intro y. rewrite Hin. split.
      * intros [H|[w [Hw ->]]]; [left; exact H|].
        right. exists w. split; [right; exact Hw | reflexivity].
      * intros [H|[w [[E|Hw] ->]]]; [left; exact H | discriminate E |].
        right. exists w. split; [exact Hw | reflexivity].
Qed.

Lemma available_years_sorted (file_suffixes : list (option nat)) :
  StronglySorted lt (WithLogging.available_years file_suffixes).
Proof.
  unfold WithLogging.available_years. apply sorted_strictly.
  apply (scan_years file_suffixes [] (NoDup_nil nat)).
Qed.

Lemma In_available_years (file_suffixes : list (option nat)) (y : nat) :
  In y (WithLogging.available_years file_suffixes) <->
  exists year_val, In (Some year_val) file_suffixes /\
                   y = WithLogging.year_of_suffix year_val.
Proof.
  unfold WithLogging.available_years. rewrite In_sorted.
  destruct (scan_years file_suffixes [] (NoDup_nil nat)) as [_ Hin].
  rewrite Hin. split; [intros [[]|H]; exact H | intro H; right; exact H].
Qed.

(** X15.  "Finding available years" yields the years in strictly
    increasing order, so each once; a year is found if and only if some
    file name ends in a number that [year_of_suffix] reads as that year;
    names without a number add nothing. *)
Theorem available_years_increasing (file_suffixes : list (option nat)) :
  StronglySorted lt (WithLogging.available_years file_suffixes) /\
  forall y, In y (WithLogging.available_years file_suffixes) <->
            exists year_val, In (Some year_val) file_suffixes /\
                             y = WithLogging.year_of_suffix year_val.
Proof.
  split; [apply available_years_sorted | intro y; apply In_available_years].
Qed.

Lemma pattern_of_year_of_suffix (year_val : nat) :
  (year_val < 100)%nat ->
  WithLogging.pattern_suffix (WithLogging.year_of_suffix year_val) = year_val.
Proof.
  intro H. unfold WithLogging.pattern_suffix, WithLogging.year_of_suffix.
  destruct (year_val <? 50)%nat.
  - replace (2000 + year_val)%nat with (year_val + 20 * 100)%nat by lia.
    rewrite Nat.Div0.mod_add. apply Nat.mod_small. exact H.
  - replace (1900 + year_val)%nat with (year_val + 19 * 100)%nat by lia.
    rewrite Nat.Div0.mod_add. apply Nat.mod_small. exact H.
Qed.

(** X16.  When the file names end in two-digit numbers, a year that the
    scan found is looked up by [process_year] under the very suffix it was
    read from: the pattern number [year % 100] of a found year is the
    suffix of one of the files, and reading that number back gives the
    year; and every found year lies from 1950 to 2049. *)
Theorem found_year_has_files (file_suffixes : list (option nat)) (year : nat) :
  (forall year_val, In (Some year_val) file_suffixes -> (year_val < 100)%nat) ->
  In year (WithLogging.available_years file_suffixes) ->
  In (Some (WithLogging.pattern_suffix year)) file_suffixes /\
  WithLogging.year_of_suffix (WithLogging.pattern_suffix year) = year /\
  (1950 <= year < 2050)%nat.
Proof.
  intros Hdigits Hin. apply In_available_years in Hin.
  destruct Hin as [v [Hv ->]]. assert (Hlt := Hdigits v Hv).
  rewrite (pattern_of_year_of_suffix v Hlt).
  split; [exact Hv|]. split; [reflexivity|].
  unfold WithLogging.year_of_suffix.
  destruct (v <? 50)%nat eqn:E; [apply Nat.ltb_lt in E | apply Nat.ltb_ge in E]; lia.
Qed.

(** A run of X16: files of 2023, 2024 and 1999, and one without a number. *)
Lemma found_year_has_files_witness :
  In (Some (WithLogging.pattern_suffix 1999)) [Some 24; None; Some 23; Some 99; Some 24]%nat /\
  WithLogging.year_of_suffix (WithLogging.pattern_suffix 1999) = 1999%nat /\
  (1950 <= 1999 < 2050)%nat.
Proof.
  apply (found_year_has_files [Some 24; None; Some 23; Some 99; Some 24]%nat 1999%nat).
  - intros v H. simpl in H.
    repeat (destruct H as [H|H]; [inversion H; subst; lia|]). contradiction.
  - vm_compute. auto.
Defined.

Lemma StronglySorted_app_lt (l1 l2 : list nat) :
  StronglySorted lt (l1 ++ l2) ->
  forall a b, In a l1 -> In b l2 -> (a < b)%nat.
Proof.
  induction l1 as [|x l1 IH]; intros Hs a b Ha Hb; [contradiction|].
  simpl in Hs. inversion Hs as [|? ? Hs' Hall]; subst.
  destruct Ha as [->|Ha].
  - rewrite Forall_forall in Hall. apply Hall. apply in_or_app. right. exact Hb.
  - apply (IH Hs' a b Ha Hb).
Qed.

(** X17.  [run_bess_complete_analysis.py] processes the last three of the
    found years: all of them when there are at most three, and otherwise
    three years, each later than every year that is left out. *)
Theorem last_three_are_the_latest (file_suffixes : list (option nat)) :
  let years := Complete.available_years file_suffixes in
  List.length (Complete.last_three years) = Nat.min 3 (List.length years) /\
  (forall y, In y (Complete.last_three years) -> In y years) /\
  (forall y z, In y (Complete.last_three years) -> In z years ->
               ~ In z (Complete.last_three years) -> (z < y)%nat).
Proof.
  intro years. unfold Complete.last_three, Complete.available_years in *.
  set (k := (List.length years - 3)%nat).
  assert (Hsplit : firstn k years ++ skipn k years = years) by apply firstn_skipn.
  split; [|split].
  - rewrite length_skipn. unfold k. lia.
  - intros y Hy. rewrite <- Hsplit. apply in_or_app. right. exact Hy.
  - intros y z Hy Hz Hnot.
    assert (Hs : StronglySorted lt (firstn k years ++ skipn k years)).
    { rewrite Hsplit. apply available_years_sorted. }
    apply (StronglySorted_app_lt _ _ Hs z y); [|exact Hy].
    rewrite <- Hsplit in Hz. apply in_app_or in Hz.
    destruct Hz as [Hz|Hz]; [exact Hz | contradiction].
Qed.

(** * X18. The summary line of a year *)

Lemma with_logging_row_total (year : nat) (revenues : WithLogging.ledger)
      (row : WithLogging.result) :
  In row (WithLogging.create_results year revenues) ->
  WithLogging.Total_Revenue row
  == WithLogging.RT_Revenue row + WithLogging.DA_Revenue row
     + (WithLogging.Spin_Revenue row + WithLogging.NonSpin_Revenue row
        + WithLogging.RegUp_Revenue row + WithLogging.RegDown_Revenue row
        + WithLogging.ECRS_Revenue row).
Proof.
  rewrite with_logging_create_results. intro H.
  apply in_kept_rows in H. destruct H as [[name rev] [_ [_ ->]]].
  unfold WithLogging.result_row, WithLogging.total, Qsum. simpl. ring.
Qed.

Lemma with_logging_run_rows (bess_resources : dict Registry.row) (years : list nat)
      (data : nat -> WithLogging.year_data) (row : WithLogging.result) :
  In row (WithLogging.run_years bess_resources years data) ->
  exists year revenues, In row (WithLogging.create_results year revenues).
Proof.
  unfold WithLogging.run_years. rewrite fold_extend. cbn [app].
  rewrite in_flat_map. intros [year [_ H]].
  unfold WithLogging.process_year in H.
  destruct (WithLogging.dam_files (data year)), (WithLogging.sced_files (data year));
    try contradiction; eauto.
Qed.

(** X18.  In every line of "BESS Revenue Summary by Year" the total is the
    sum of the RT, DAM and AS figures of the line. *)
Theorem summary_line_adds_up
        (bess_resources : dict Registry.row) (years : list nat)
        (data : nat -> WithLogging.year_data) (year : nat) :
  let line :=
    WithLogging.summary_line
      (WithLogging.run_years bess_resources years data) year in
  WithLogging.total_rev line
  == WithLogging.rt_rev line + WithLogging.dam_rev line + WithLogging.as_rev line.
Proof.
  cbv zeta. unfold WithLogging.summary_line. cbv zeta.
  cbn [WithLogging.total_rev WithLogging.rt_rev WithLogging.dam_rev WithLogging.as_rev].
  set (year_data := filter _ _).
  assert (Hrows : forall row, In row year_data ->
                              exists y revenues,
                                In row (WithLogging.create_results y revenues)).
  { intros row Hrow. apply filter_In in Hrow.
    apply (with_logging_run_rows bess_resources years data row (proj1 Hrow)). }
  rewrite !Qsum_map.
  assert (Hsum : sumQ WithLogging.Total_Revenue year_data
                 == sumQ WithLogging.RT_Revenue year_data
                    + sumQ WithLogging.DA_Revenue year_data
                    + (sumQ WithLogging.Spin_Revenue year_data
                       + sumQ WithLogging.NonSpin_Revenue year_data
                       + sumQ WithLogging.RegUp_Revenue year_data
                       + sumQ WithLogging.RegDown_Revenue year_data
                       + sumQ WithLogging.ECRS_Revenue year_data)).
  { rewrite <- !sumQ_plus. apply sumQ_ext_in. intros row Hrow.
    destruct (Hrows row Hrow) as [y [revenues H]].
    apply (with_logging_row_total y revenues row H). }
  rewrite Hsum. field.
Qed.

(** * X19. A resource without a price *)

(** The day-ahead pass of the logging variant keeps every property that
    the AS credits and the energy credit keep. *)
Section WithLoggingKeeps.
Variable P : string -> WithLogging.entry -> Prop.
Hypothesis P_add_as : forall n p v e, P n e -> P n (WithLogging.add_as p v e).
Hypothesis P_add_dam_energy :
  forall n v k e, P n e -> P n (WithLogging.add_dam_energy v k e).

Lemma with_logging_keeps_credit (amount : Dam.row -> Q) (p : product)
      (bess_data : list Dam.row) :
  keeps P (WithLogging.credit_by_name amount (WithLogging.add_as p) bess_data).
Proof.
  unfold WithLogging.credit_by_name.
  apply (keeps_fold P
           (fun revenues name =>
              if contains name revenues
              then update name
                          (WithLogging.add_as
                             p (Qsum (map amount (WithLogging.rows_of name bess_data))))
                          revenues
              else revenues)).
  intros name _. apply keeps_guarded_update. intro e. apply P_add_as.
Qed.

Lemma with_logging_keeps_dam_file (file : Dam.file) :
  keeps P (fun d => WithLogging.process_dam_file d file).
Proof.
  unfold WithLogging.process_dam_file. cbv zeta.
  set (bess_data := filter _ (Dam.rows file)).
  destruct (List.length bess_data =? 0)%nat; [apply keeps_id|].
  apply (keeps_compose P
           (fun d => fold_left (WithLogging.as_service_step
                                  (Dam.columns file) (Dam.rows file) bess_data)
                               WithLogging.as_services
                               (WithLogging.dam_energy_pass (Dam.columns file)
                                                            bess_data d))
           (WithLogging.rrs_pass (Dam.columns file) (Dam.rows file) bess_data)).
  - apply (keeps_compose P
             (WithLogging.dam_energy_pass (Dam.columns file) bess_data)
             (fun d => fold_left (WithLogging.as_service_step
                                    (Dam.columns file) (Dam.rows file) bess_data)
                                 WithLogging.as_services d)).
    + unfold WithLogging.dam_energy_pass.
      destruct (has_col _ _ && has_col _ _)%bool; [|apply keeps_id].
      apply (keeps_fold P
               (fun revenues name =>
                  if contains name revenues
                  then update name
                              (WithLogging.add_dam_energy
                                 (Qsum (map (fun r =>
                                               fillna0 (Dam.Awarded_Quantity r)
                                               * fillna0 (Dam.Energy_Settlement_Point_Price r))
                                            (WithLogging.rows_of name bess_data)))
                                 (List.length (WithLogging.rows_of name bess_data)))
                              revenues
                  else revenues)).
      intros name _. apply keeps_guarded_update. intro e. apply P_add_dam_energy.
    + apply (keeps_fold P (WithLogging.as_service_step _ _ _)).
      intros service _. unfold WithLogging.as_service_step. cbv zeta.
      destruct (has_col _ _ && has_col _ _)%bool; [|apply keeps_id].
      destruct (WithLogging.first_price _ _) as [price|]; [|apply keeps_id].
      destruct (notna_and_positive price); [|apply keeps_id].
      apply with_logging_keeps_credit.
  - unfold WithLogging.rrs_pass.
    destruct (has_col _ _); [|apply keeps_id].
    destruct (WithLogging.first_price _ _) as [price|]; [|apply keeps_id].
    destruct (notna_and_positive price); [|apply keeps_id].
    apply (keeps_fold P
             (fun revenues rrs_col =>
                if has_col (fst rrs_col) (Dam.columns file)
                then WithLogging.credit_by_name
                       (fun r => fillna0 (snd rrs_col r) * fillna0 price)
                       (WithLogging.add_as RRS) bess_data revenues
                else revenues)).
    intros rrs_col _. destruct (has_col _ _); [|apply keeps_id].
    apply with_logging_keeps_credit.
Qed.

End WithLoggingKeeps.

(** The same for [run_bess_complete_analysis.py]. *)
Section CompleteKeeps.
Variable P : string -> Complete.entry -> Prop.
Hypothesis P_add_as : forall n p v e, P n e -> P n (Complete.add_as p v e).
Hypothesis P_add_dam_energy : forall n v e, P n e -> P n (Complete.add_dam_energy v e).

Lemma complete_keeps_credit (amount : Dam.row -> cell)
      (add : Q -> Complete.entry -> Complete.entry) (bess_data : list Dam.row) :
  (forall n v e, P n e -> P n (add v e)) ->
  keeps P (Complete.credit_by_name amount add bess_data).
Proof.
  intro Hadd. unfold Complete.credit_by_name.
  apply (keeps_fold P
           (fun revenues name =>
              if contains name revenues
              then update name
                          (add (Complete.nansum
                                  (map amount
                                       (filter (fun r => (Dam.Resource_Name r =? name)%string)
                                               bess_data))))
                          revenues
              else revenues)).
  intros name _. apply keeps_guarded_update. intro e. apply Hadd.
Qed.

Lemma complete_keeps_dam_file (file : Dam.file) :
  keeps P (fun d => Complete.process_dam_file d file).
Proof.
  unfold Complete.process_dam_file. cbv zeta.
  set (bess_data := filter _ (Dam.rows file)).
  destruct (List.length bess_data =? 0)%nat; [apply keeps_id|].
  apply (keeps_compose P
           (fun d => fold_left (Complete.as_service_step (Dam.columns file) bess_data)
                               Complete.as_services
                               (Complete.dam_energy_pass (Dam.columns file) bess_data d))
           (Complete.rrs_pass (Dam.columns file) bess_data)).
  - apply (keeps_compose P
             (Complete.dam_energy_pass (Dam.columns file) bess_data)
             (fun d => fold_left (Complete.as_service_step (Dam.columns file) bess_data)
                                 Complete.as_services d)).
    + unfold Complete.dam_energy_pass.
      destruct (has_col _ _ && has_col _ _)%bool; [|apply keeps_id].
      apply complete_keeps_credit. exact P_add_dam_energy.
    + apply (keeps_fold P (Complete.as_service_step _ _)).
      intros service _. unfold Complete.as_service_step. cbv zeta.
      destruct (has_col _ _ && has_col _ _)%bool; [|apply keeps_id].
      apply complete_keeps_credit. intros n v e. apply P_add_as.
  - unfold Complete.rrs_pass.
    destruct (has_col _ _); [|apply keeps_id].
    apply (keeps_fold P
             (fun revenues rrs_col =>
                if has_col (fst rrs_col) (Dam.columns file)
                then Complete.credit_by_name
                       (fun r => Complete.nanmul (snd rrs_col r) (Dam.RRS_MCPC r))
                       (Complete.add_as RRS) bess_data revenues
                else revenues)).
    intros rrs_col _. destruct (has_col _ _); [|apply keeps_id].
    apply complete_keeps_credit. intros n v e. apply P_add_as.
Qed.

End CompleteKeeps.

Lemma all_entries_init {V : Type} (P : string -> V -> Prop) (v : V) (ks : list string) :
  (forall n, P n v) ->
  all_entries P (fold_left (fun revenues name => set name v revenues) ks []).
Proof.
  intro Hv.
  assert (H : forall d : dict V,
             all_entries P d ->
             all_entries P (fold_left (fun revenues name => set name v revenues) ks d)).
  { induction ks as [|k ks IH]; intros d Hd; simpl; [exact Hd|].
    apply IH. intros n e. rewrite get_set.
    destruct (k =? n)%string; [intro E; inversion E; subst; apply Hv | apply Hd]. }
  apply H. intros n e E. discriminate E.
Qed.

Lemma no_quotes_no_price (price_file : option (list Spp.row)) (sp : string) :
  year_quotes price_file sp = [] ->
  get sp (match price_file with
          | Some price_df => WithLogging.load_rt_prices price_df
          | None => []
          end) = None /\
  get sp (match price_file with
          | Some price_df => Complete.load_rt_prices price_df
          | None => []
          end) = None.
Proof.
  unfold year_quotes. destruct price_file as [price_df|]; [|split; reflexivity].
  intro Hq. split.
  - change (WithLogging.load_rt_prices price_df)
      with (Corrected.load_rt_prices price_df).
    rewrite mean_price_lookup, Hq. reflexivity.
  - unfold Complete.load_rt_prices.
    assert (H : forall acc : dict Q,
               get sp (fold_left
                         (fun rt_prices row =>
                            set (Spp.SettlementPointName row)
                                (Spp.SettlementPointPrice row) rt_prices)
                         price_df acc)
               = get sp acc).
    { unfold quotes_of in Hq. clear - Hq.
      induction price_df as [|row l IH]; intro acc; cbn [fold_left]; [reflexivity|].
      cbn [filter] in Hq.
      destruct (Spp.SettlementPointName row =? sp)%string eqn:E;
        [discriminate Hq|].
      rewrite (IH Hq), get_set, E. reflexivity. }
    rewrite H. reflexivity.
Qed.

(** X19.  In the logging variant and in [run_bess_complete_analysis.py], a
    listed resource whose settlement point has no quote in the price file
    of the year, or whose year has no price file, ends the year with
    [rt_energy] exactly 0, whatever it was dispatched: there is no
    fallback price in these two scripts. *)
Theorem unpriced_resource_has_no_rt_revenue
        (bess_resources : dict Registry.row)
        (dam_files : list Dam.file) (sced_files : list (list Sced.row))
        (price_file : option (list Spp.row))
        (name : string) (res : Registry.row) :
  get name bess_resources = Some res ->
  year_quotes price_file (Registry.Settlement_Point res) = [] ->
  (forall e,
      get name (WithLogging.accumulate_year
                  bess_resources
                  (WithLogging.mk_year_data dam_files sced_files price_file))
      = Some e ->
      WithLogging.rt_energy e = 0) /\
  (forall e,
      get name (Complete.accumulate_year
                  bess_resources
                  (Complete.mk_year_data dam_files sced_files price_file))
      = Some e ->
      Complete.rt_energy e = 0).
Proof.
  intros Hres Hq.
  destruct (no_quotes_no_price price_file _ Hq) as [Hwl Hco].
  split; intros e He.
  - set (P := fun (n : string) (e : WithLogging.entry) =>
                n = name -> WithLogging.rt_energy e = 0).
    assert (Hall : all_entries P (WithLogging.accumulate_year
                                    bess_resources
                                    (WithLogging.mk_year_data dam_files sced_files
                                                              price_file))).
    { unfold WithLogging.accumulate_year. cbv zeta.
      cbn [WithLogging.dam_files WithLogging.sced_files WithLogging.price_file].
      set (rt_prices := match price_file with
                        | Some price_df => WithLogging.load_rt_prices price_df
                        | None => []
                        end) in *.
      apply (keeps_fold P
               (fun revenues file =>
                  fold_left (WithLogging.process_sced_chunk bess_resources rt_prices)
                            (read_csv_chunks WithLogging.chunk_size file) revenues)).
      - intros file _.
        apply (keeps_fold P (WithLogging.process_sced_chunk bess_resources rt_prices)).
        intros chunk _. unfold WithLogging.process_sced_chunk. cbv zeta.
        destruct (List.length _ =? 0)%nat; [apply keeps_id|].
        apply (keeps_fold P (WithLogging.sced_name_step bess_resources rt_prices _)).
        intros n _. unfold WithLogging.sced_name_step.
        destruct (String.eqb_spec n name) as [->|Hne].
        + rewrite Hres, Hwl. intros d Hd. destruct (contains name d); exact Hd.
        + destruct (get n bess_resources) as [r|];
            [|intros d Hd; destruct (contains n d); exact Hd].
          destruct (get (Registry.Settlement_Point r) rt_prices);
            [|intros d Hd; destruct (contains n d); exact Hd].
          apply keeps_guarded_update. intros e0 _ E. contradiction.
      - apply (keeps_fold P WithLogging.process_dam_file).
        + intros file _. apply with_logging_keeps_dam_file.
          * intros n p v e0 H E. specialize (H E). destruct p; exact H.
          * intros n v k e0 H E. exact (H E).
        + unfold WithLogging.init_revenues. apply all_entries_init.
          intros n _. reflexivity. }
    apply (Hall name e He). reflexivity.
  - set (P := fun (n : string) (e : Complete.entry) =>
                n = name -> Complete.rt_energy e = 0).
    assert (Hall : all_entries P (Complete.accumulate_year
                                    bess_resources
                                    (Complete.mk_year_data dam_files sced_files
                                                           price_file))).
    { unfold Complete.accumulate_year. cbv zeta.
      cbn [Complete.dam_files Complete.sced_files Complete.price_file].
      set (rt_prices := match price_file with
                        | Some price_df => Complete.load_rt_prices price_df
                        | None => []
                        end) in *.
      apply (keeps_fold P
               (fun revenues file =>
                  fold_left (Complete.process_sced_chunk bess_resources rt_prices)
                            (read_csv_chunks Complete.chunksize file) revenues)).
      - intros file _.
        apply (keeps_fold P (Complete.process_sced_chunk bess_resources rt_prices)).
        intros chunk _. unfold Complete.process_sced_chunk. cbv zeta.
        destruct (List.length _ =? 0)%nat; [apply keeps_id|].
        apply (keeps_fold P (Complete.sced_name_step bess_resources rt_prices _)).
        intros n _. unfold Complete.sced_name_step.
        destruct (String.eqb_spec n name) as [->|Hne].
        + rewrite Hres, Hco. intros d Hd. destruct (contains name d); exact Hd.
        + destruct (get n bess_resources) as [r|];
            [|intros d Hd; destruct (contains n d); exact Hd].
          destruct (get (Registry.Settlement_Point r) rt_prices);
            [|intros d Hd; destruct (contains n d); exact Hd].
          apply keeps_guarded_update. intros e0 _ E. contradiction.
      - apply (keeps_fold P Complete.process_dam_file).
        + intros file _. apply complete_keeps_dam_file.
          * intros n p v e0 H E. specialize (H E). destruct p; exact H.
          * intros n v e0 H E. exact (H E).
        + unfold Complete.init_revenues. apply all_entries_init.
          intros n _. reflexivity. }
    apply (Hall name e He). reflexivity.
Qed.

(** A run of X19: twelve megawatts dispatched, and no price file. *)
Lemma unpriced_resource_has_no_rt_revenue_witness :
  (forall e,
      get "R1" (WithLogging.accumulate_year
                  Sample.bess_resources
                  (WithLogging.mk_year_data [] [[Sample.sced_row "R1" 12]] None))
      = Some e ->
      WithLogging.rt_energy e = 0) /\
  (forall e,
      get "R1" (Complete.accumulate_year
                  Sample.bess_resources
                  (Complete.mk_year_data [] [[Sample.sced_row "R1" 12]] None))
      = Some e ->
      Complete.rt_energy e = 0).
Proof.
  apply (unpriced_resource_has_no_rt_revenue
           Sample.bess_resources [] [[Sample.sced_row "R1" 12]] None
           "R1" (Registry.mk_row "R1" "SP1")).
  - reflexivity.
  - reflexivity.
Defined.

(** * Credits by unique name *)

Lemma In_unique_from (x : string) (l : list string) :
  forall seen, In x (unique_from seen l) <-> In x l /\ ~ In x seen.
Proof.
  induction l as [|y l IH]; intro seen; cbn [unique_from].
  - simpl. tauto.
  - destruct (existsb (String.eqb y) seen) eqn:E.
    + apply existsb_exists in E. destruct E as [z [Hz Ez]].
      apply String.eqb_eq in Ez. subst z.
      rewrite IH. simpl. split.
      * intros [H1 H2]. tauto.
      * intros [[->|H1] H2]; [contradiction | tauto].
    + assert (Hy : ~ In y seen).
      { intro H. assert (existsb (String.eqb y) seen = true).
        { apply existsb_exists. exists y. split; [exact H | apply String.eqb_refl]. }
        congruence. }
      simpl. rewrite IH. simpl. split.
      * intros [->|[H1 H2]]; [tauto|]. split; [tauto|]. intro H. apply H2. tauto.
      * intros [[->|H1] H2]; [tauto|].
        destruct (string_dec y x) as [->|Hne]; [tauto|]. right. split; [exact H1|].
        intros [H|H]; [contradiction | contradiction].
Qed.

Lemma NoDup_unique_from (l : list string) : forall seen, NoDup (unique_from seen l).
Proof.
  induction l as [|y l IH]; intro seen; cbn [unique_from].
  - constructor.
  - destruct (existsb (String.eqb y) seen); [apply IH|].
    constructor; [|apply IH].
    rewrite In_unique_from. simpl. tauto.
Qed.

Lemma In_unique (x : string) (l : list string) : In x (unique l) <-> In x l.
Proof.
  unfold unique. rewrite In_unique_from. simpl. tauto.
Qed.

Lemma NoDup_unique (l : list string) : NoDup (unique l).
Proof. apply NoDup_unique_from. Qed.

Lemma for_name_absent (n : string) (g : string -> Q) (names : list string) :
  ~ In n names -> sumQ (fun name => for_name name n (g name)) names == 0.
Proof.
  intro H. apply sumQ_zero. intros name Hname. unfold for_name.
  destruct (String.eqb_spec name n) as [->|_]; [contradiction | reflexivity].
Qed.

Lemma for_name_once (n : string) (g : string -> Q) (names : list string) :
  NoDup names -> In n names ->
  sumQ (fun name => for_name name n (g name)) names == g n.
Proof.
  induction 1 as [|x l Hnot Hnd IH]; intro Hin; [contradiction|].
  cbn [sumQ]. unfold for_name at 1.
  destruct (String.eqb_spec x n) as [->|Hne].
  - rewrite (for_name_absent n g l Hnot). ring.
  - destruct Hin as [E|Hin]; [contradiction|]. rewrite (IH Hin). ring.
Qed.

Lemma rows_for_name {R : Type} (nm : R -> string) (w : R -> Q) (n : string)
      (rows : list R) :
  sumQ (fun r => for_name (nm r) n (w r)) rows
  == sumQ w (filter (fun r => (nm r =? n)%string) rows).
Proof.
  rewrite sumQ_filter. apply sumQ_ext_in. intros r _. reflexivity.
Qed.

(** The loop [for name in rows[...].unique(): if name in revenues:
    revenues[name] += X(name)], in which [X name] is a sum over the rows of
    [name], adds row by row. *)
Lemma adds_to_credit_by_name {V C R : Type} (val : C -> V -> Q)
      (nm : R -> string) (rows : list R)
      (addv : string -> V -> V) (X : string -> Q) (u : C -> Q) (w : R -> Q) :
  (forall name e c, val c (addv name e) == val c e + X name * u c) ->
  (forall name, X name == sumQ w (filter (fun r => (nm r =? name)%string) rows)) ->
  adds_to val
          (fun d => fold_left (fun revenues name =>
                                 if contains name revenues
                                 then update name (addv name) revenues
                                 else revenues)
                              (unique (map nm rows)) d)
          (fun n c => sumQ (fun r => for_name (nm r) n (w r * u c)) rows).
Proof.
  intros Hadd HX.
  eapply adds_to_ext.
  - apply (adds_to_fold val
             (fun revenues name =>
                if contains name revenues
                then update name (addv name) revenues else revenues)
             (fun name n c => for_name name n (X name * u c))).
    intros name _. apply adds_to_guarded_update. intros e c. apply Hadd.
  - intros n c. cbv beta.
    rewrite (rows_for_name nm (fun r => w r * u c) n rows).
    assert (Hsum : sumQ (fun r => w r * u c)
                        (filter (fun r => (nm r =? n)%string) rows)
                   == X n * u c).
    { rewrite HX. generalize (filter (fun r => (nm r =? n)%string) rows).
      intro l. induction l as [|r l IH]; simpl; [ring | rewrite IH; ring]. }
    rewrite Hsum.
    destruct (in_dec string_dec n (map nm rows)) as [Hin|Hnot].
    + apply (for_name_once n (fun name => X name * u c));
        [apply NoDup_unique | apply In_unique; exact Hin].
    + rewrite (for_name_absent n (fun name => X name * u c));
        [|rewrite In_unique; exact Hnot].
      rewrite HX.
      replace (filter (fun r => (nm r =? n)%string) rows) with (@nil R);
        [simpl; ring|].
      symmetry. apply filter_none. intros r Hr.
      apply String.eqb_neq. intro E. apply Hnot. apply in_map_iff.
      exists r. split; [exact E | exact Hr].
Qed.

Lemma nansum_nanmul {R : Type} (a b : R -> cell) (rows : list R) :
  Complete.nansum (map (fun r => Complete.nanmul (a r) (b r)) rows)
  == sumQ (fun r => fillna0 (a r) * fillna0 (b r)) rows.
Proof.
  unfold Complete.nansum, Qsum. rewrite Qsum_from, Qplus_0_l.
  induction rows as [|r rows IH]; cbn [map Structure.dropna flat_map sumQ].
  - reflexivity.
  - fold (Structure.dropna (map (fun r => Complete.nanmul (a r) (b r)) rows)).
    rewrite sumQ_app, IH.
    destruct (a r) as [x|], (b r) as [y|]; simpl; ring.
Qed.

Lemma nansum_cells {R : Type} (a : R -> cell) (rows : list R) :
  Complete.nansum (map a rows) == sumQ (fun r => fillna0 (a r)) rows.
Proof.
  unfold Complete.nansum, Qsum. rewrite Qsum_from, Qplus_0_l.
  induction rows as [|r rows IH]; cbn [map Structure.dropna flat_map sumQ].
  - reflexivity.
  - fold (Structure.dropna (map a rows)).
    rewrite sumQ_app, IH. destruct (a r) as [x|]; simpl; ring.
Qed.

(** * X20. The day-ahead pass of [run_bess_complete_analysis.py] *)

Lemma for_name_plus (owner n : string) (x y : Q) :
  for_name owner n (x + y) == for_name owner n x + for_name owner n y.
Proof.
  unfold for_name. destruct (owner =? n)%string; ring.
Qed.

Lemma for_name_zero (owner n : string) : for_name owner n 0 = 0.
Proof.
  unfold for_name. destruct (owner =? n)%string; reflexivity.
Qed.

Lemma as_inc_of_zero (p : product) (c : component) : as_inc p 0 c == 0.
Proof.
  destruct c as [| |q]; simpl; try reflexivity. destruct (product_eqb p q); reflexivity.
Qed.

Lemma as_inc_scale (p : product) (v : Q) (c : component) :
  v * as_inc p 1 c == as_inc p v c.
Proof.
  destruct c as [| |q]; simpl; try ring. destruct (product_eqb p q); ring.
Qed.

Lemma as_inc_zero (p : product) (c : component) : as_inc p 0 c = 0.
Proof.
  destruct c as [| |q]; simpl; try reflexivity. destruct (product_eqb p q); reflexivity.
Qed.

Lemma complete_value_add_as (p : product) (v : Q) (e : Complete.entry) (c : component) :
  complete_value c (Complete.add_as p v e) == complete_value c e + v * as_inc p 1 c.
Proof.
  destruct p, c as [| |q]; try destruct q; simpl; ring.
Qed.

Lemma complete_value_add_dam_energy (v : Q) (e : Complete.entry) (c : component) :
  complete_value c (Complete.add_dam_energy v e)
  == complete_value c e + v * match c with DamEnergy => 1 | _ => 0 end.
Proof.
  destruct c as [| |q]; try destruct q; simpl; ring.
Qed.

Lemma complete_credit (a b : Dam.row -> cell)
      (add : Q -> Complete.entry -> Complete.entry) (u : component -> Q)
      (bess_data : list Dam.row) :
  (forall v e c, complete_value c (add v e) == complete_value c e + v * u c) ->
  adds_to complete_value
          (Complete.credit_by_name (fun r => Complete.nanmul (a r) (b r)) add bess_data)
          (fun n c => sumQ (fun r => for_name (Dam.Resource_Name r) n
                                              (fillna0 (a r) * fillna0 (b r) * u c))
                           bess_data).
Proof.
  intro Hadd. unfold Complete.credit_by_name.
  apply (adds_to_credit_by_name
           complete_value Dam.Resource_Name bess_data
           (fun name =>
              add (Complete.nansum
                     (map (fun r => Complete.nanmul (a r) (b r))
                          (filter (fun r => (Dam.Resource_Name r =? name)%string)
                                  bess_data))))
           (fun name =>
              Complete.nansum
                (map (fun r => Complete.nanmul (a r) (b r))
                     (filter (fun r => (Dam.Resource_Name r =? name)%string)
                             bess_data)))
           u (fun r => fillna0 (a r) * fillna0 (b r))).
  - intros name e c. apply Hadd.
  - intro name. apply nansum_nanmul.
Qed.

Lemma complete_as_credit (a b : Dam.row -> cell) (p : product) (cond : bool)
      (bess_data : list Dam.row) :
  adds_to complete_value
          (fun d => if cond
                    then Complete.credit_by_name
                           (fun r => Complete.nanmul (a r) (b r))
                           (Complete.add_as p) bess_data d
                    else d)
          (fun n c =>
             sumQ (fun r => for_name (Dam.Resource_Name r) n
                                     (as_inc p (if cond
                                                then fillna0 (a r) * fillna0 (b r)
                                                else 0) c))
                  bess_data).
Proof.
  destruct cond.
  - eapply adds_to_ext.
    + apply (complete_credit a b (Complete.add_as p) (fun c => as_inc p 1 c)).
      intros v e c. apply complete_value_add_as.
    + intros n c. cbv beta. apply sumQ_ext_in. intros r _.
      apply for_name_compat. apply as_inc_scale.
  - eapply adds_to_ext; [apply adds_to_id|].
    intros n c. cbv beta. symmetry. apply sumQ_zero. intros r _.
    rewrite as_inc_zero. rewrite for_name_zero. reflexivity.
Qed.

Lemma sumQ_for_name_sum {R S : Type} (nm : R -> string) (n : string)
      (f : S -> R -> Q) (ss : list S) (rows : list R) :
  sumQ (fun s => sumQ (fun r => for_name (nm r) n (f s r)) rows) ss
  == sumQ (fun r => for_name (nm r) n (sumQ (fun s => f s r) ss)) rows.
Proof.
  rewrite sumQ_swap. apply sumQ_ext_in. intros r _.
  induction ss as [|s ss IH]; cbn [sumQ].
  - rewrite for_name_zero. reflexivity.
  - rewrite for_name_plus, IH. reflexivity.
Qed.

Lemma complete_row_pieces (cols : list string) (r : Dam.row) (c : component) :
  (if has_energy_cols cols then energy_inc r c else 0)
  + sumQ (fun service =>
            as_inc (snd service)
                   (if has_col (fst (fst (fst service))) cols
                       && has_col (fst (snd (fst service))) cols
                    then fillna0 (snd (fst (fst service)) r)
                         * fillna0 (snd (snd (fst service)) r)
                    else 0) c)
         Complete.as_services
  + (if has_col "RRS MCPC" cols
     then sumQ (fun rrs_col =>
                  as_inc RRS (if has_col (fst rrs_col) cols
                              then fillna0 (snd rrs_col r) * fillna0 (Dam.RRS_MCPC r)
                              else 0) c)
               Complete.rrs_types
     else 0)
  == complete_row_amount cols r c.
Proof.
  unfold Complete.as_services, Complete.rrs_types, complete_row_amount, paid_from.
  destruct c as [| |p]; [| |destruct p];
    cbn [sumQ as_inc product_eqb fst snd energy_inc award_col mcpc_col mcpc_cell
         Corrected.award_mw];
    destruct (has_energy_cols cols); try destruct (has_col "RRS MCPC" cols);
    try ring.
  all: unfold Corrected.RRS_Total_MW, Corrected.rrs_cols; cbn [fold_left fst snd];
    destruct (has_col "RRSPFR Awarded" cols), (has_col "RRSFFR Awarded" cols),
      (has_col "RRSUFR Awarded" cols); ring.
Qed.

Lemma adds_to_complete_dam_file (file : Dam.file) :
  adds_to complete_value
          (fun d => Complete.process_dam_file d file)
          (fun n c =>
             sumQ (fun r => for_name (Dam.Resource_Name r) n
                                     (complete_row_amount (Dam.columns file) r c))
                  (Corrected.bess_rows (Dam.rows file))).
Proof.
  unfold Complete.process_dam_file. cbv zeta.
  fold (Corrected.bess_rows (Dam.rows file)).
  set (cols := Dam.columns file). set (bess_data := Corrected.bess_rows (Dam.rows file)).
  destruct (List.length bess_data =? 0)%nat eqn:E.
  - apply Nat.eqb_eq, length_zero_iff_nil in E. rewrite E.
    eapply adds_to_ext; [apply adds_to_id|]. reflexivity.
  - eapply adds_to_ext.
    + apply (adds_to_compose complete_value
               (fun d => fold_left (Complete.as_service_step cols bess_data)
                                   Complete.as_services
                                   (Complete.dam_energy_pass cols bess_data d))
               (Complete.rrs_pass cols bess_data)).
      * apply (adds_to_compose complete_value
                 (Complete.dam_energy_pass cols bess_data)
                 (fun d => fold_left (Complete.as_service_step cols bess_data)
                                     Complete.as_services d)).
        -- unfold Complete.dam_energy_pass. fold (has_energy_cols cols).
           instantiate (1 := fun n c =>
                               sumQ (fun r => for_name (Dam.Resource_Name r) n
                                                (if has_energy_cols cols
                                                 then energy_inc r c else 0))
                                    bess_data).
           destruct (has_energy_cols cols).
           ++ eapply adds_to_ext.
              ** apply (complete_credit
                          Dam.Awarded_Quantity Dam.Energy_Settlement_Point_Price
                          Complete.add_dam_energy
                          (fun c => match c with DamEnergy => 1 | _ => 0 end)).
                 intros v e c. apply complete_value_add_dam_energy.
              ** intros n c. cbv beta. apply sumQ_ext_in. intros r _.
                 destruct c; cbn [energy_inc]; unfold for_name;
                   destruct (_ =? _)%string; ring.
           ++ eapply adds_to_ext; [apply adds_to_id|].
              intros n c. cbv beta. symmetry. apply sumQ_zero. intros r _.
              rewrite for_name_zero. reflexivity.
        -- apply (adds_to_fold complete_value
                    (Complete.as_service_step cols bess_data)
                    (fun service n c =>
                       sumQ (fun r =>
                               for_name (Dam.Resource_Name r) n
                                 (as_inc (snd service)
                                    (if has_col (fst (fst (fst service))) cols
                                        && has_col (fst (snd (fst service))) cols
                                     then fillna0 (snd (fst (fst service)) r)
                                          * fillna0 (snd (snd (fst service)) r)
                                     else 0) c))
                            bess_data)).
           intros service _. unfold Complete.as_service_step. cbv zeta.
           apply (complete_as_credit (snd (fst (fst service))) (snd (snd (fst service)))
                                     (snd service)).
      * unfold Complete.rrs_pass.
        instantiate (1 := fun n c =>
                            sumQ (fun r =>
                                    for_name (Dam.Resource_Name r) n
                                      (if has_col "RRS MCPC" cols
                                       then sumQ (fun rrs_col =>
                                                    as_inc RRS
                                                      (if has_col (fst rrs_col) cols
                                                       then fillna0 (snd rrs_col r)
                                                            * fillna0 (Dam.RRS_MCPC r)
                                                       else 0) c)
                                                 Complete.rrs_types
                                       else 0))
                                 bess_data).
        destruct (has_col "RRS MCPC" cols).
        -- eapply adds_to_ext.
           ++ apply (adds_to_fold complete_value
                       (fun revenues rrs_col =>
                          if has_col (fst rrs_col) cols
                          then Complete.credit_by_name
                                 (fun r => Complete.nanmul (snd rrs_col r) (Dam.RRS_MCPC r))
                                 (Complete.add_as RRS) bess_data revenues
                          else revenues)
                       (fun rrs_col n c =>
                          sumQ (fun r =>
                                  for_name (Dam.Resource_Name r) n
                                    (as_inc RRS
                                       (if has_col (fst rrs_col) cols
                                        then fillna0 (snd rrs_col r)
                                             * fillna0 (Dam.RRS_MCPC r)
                                        else 0) c))
                               bess_data)).
              intros rrs_col _.
              apply (complete_as_credit (snd rrs_col) Dam.RRS_MCPC RRS).
           ++ intros n c. cbv beta. apply sumQ_for_name_sum.
        -- eapply adds_to_ext; [apply adds_to_id|].
           intros n c. cbv beta. symmetry. apply sumQ_zero. intros r _.
           rewrite for_name_zero. reflexivity.
    + intros n c. cbv beta.
      rewrite (sumQ_for_name_sum Dam.Resource_Name n
                 (fun service r =>
                    as_inc (snd service)
                      (if has_col (fst (fst (fst service))) cols
                          && has_col (fst (snd (fst service))) cols
                       then fillna0 (snd (fst (fst service)) r)
                            * fillna0 (snd (snd (fst service)) r)
                       else 0) c)
                 Complete.as_services bess_data).
      rewrite <- !sumQ_plus. apply sumQ_ext_in. intros r _.
      rewrite <- !for_name_plus.
      unfold for_name. destruct (_ =? _)%string; [|reflexivity].
      apply complete_row_pieces.
Qed.

Lemma update_same {V : Type} (k : string) (d : dict V) : update k (fun e => e) d = d.
Proof.
  induction d as [|[k' v] d IH]; simpl; [reflexivity|].
  destruct (k' =? k)%string; [reflexivity | rewrite IH; reflexivity].
Qed.

Lemma get_init {V W : Type} (v : V) (reg : dict W) (n : string) (w : W) :
  get n reg = Some w ->
  get n (fold_left (fun d k => set k v d) (keys reg) []) = Some v.
Proof.
  intro H.
  assert (Hc : contains n (fold_left (fun d k => set k v d) (keys reg) []) = true).
  { rewrite contains_fold_set, <- contains_existsb_keys.
    unfold contains at 2. rewrite H. apply orb_true_r. }
  unfold contains in Hc.
  destruct (get n (fold_left (fun d k => set k v d) (keys reg) [])) as [e|] eqn:E;
    [|discriminate].
  f_equal. apply (all_entries_fold_set v (keys reg) [] ) with (n := n).
  - intros n' e' H'. discriminate H'.
  - exact E.
Qed.

Lemma complete_value_add_rt_energy (v : Q) (e : Complete.entry) (c : component) :
  complete_value c (Complete.add_rt_energy v e)
  == complete_value c e + v * match c with RtEnergy => 1 | _ => 0 end.
Proof.
  destruct c as [| |q]; try destruct q; simpl; ring.
Qed.

Lemma adds_to_complete_sced_chunk (bess_resources : dict Registry.row)
      (rt_prices : dict Q) (chunk : list Sced.row) :
  adds_to complete_value
          (fun d => Complete.process_sced_chunk bess_resources rt_prices d chunk)
          (fun n c =>
             sumQ (fun r => for_name (Sced.Resource_Name r) n
                                     (complete_sced_amount bess_resources rt_prices r c))
                  (Corrected.sced_bess_rows chunk)).
Proof.
  unfold Complete.process_sced_chunk. cbv zeta.
  fold (Corrected.sced_bess_rows chunk).
  set (bess_data := Corrected.sced_bess_rows chunk).
  destruct (List.length bess_data =? 0)%nat eqn:E.
  - apply Nat.eqb_eq, length_zero_iff_nil in E. rewrite E.
    eapply adds_to_ext; [apply adds_to_id|]. reflexivity.
  - set (price_of := fun name =>
                       match get name bess_resources with
                       | Some res => get (Registry.Settlement_Point res) rt_prices
                       | None => None
                       end).
    set (X := fun name =>
                match price_of name with
                | Some price =>
                    Complete.nansum
                      (map Sced.Base_Point
                           (filter (fun r => (Sced.Resource_Name r =? name)%string)
                                   bess_data))
                    * price * (5 # 60)
                | None => 0
                end).
    set (addv := fun name =>
                   match price_of name with
                   | Some price => Complete.add_rt_energy (X name)
                   | None => fun e => e
                   end).
    eapply adds_to_eq.
    + intro d. apply fold_left_ext_in with
        (g := fun revenues name =>
                if contains name revenues
                then update name (addv name) revenues else revenues).
      intros revenues name _. unfold Complete.sced_name_step, addv, X, price_of.
      destruct (contains name revenues); [|reflexivity].
      destruct (get name bess_resources) as [res|]; [|symmetry; apply update_same].
      destruct (get (Registry.Settlement_Point res) rt_prices);
        [reflexivity | symmetry; apply update_same].
    + eapply adds_to_ext.
      * apply (adds_to_credit_by_name
                 complete_value Sced.Resource_Name bess_data addv X
                 (fun c => match c with RtEnergy => 1 | _ => 0 end)
                 (fun r => complete_sced_amount bess_resources rt_prices r RtEnergy)).
        -- intros name e c. unfold addv.
           destruct (price_of name) eqn:Ep.
           ++ apply complete_value_add_rt_energy.
           ++ unfold X. rewrite Ep. ring.
        -- intro name. unfold X, price_of, complete_sced_amount.
           transitivity
             (sumQ (fun r =>
                      match get name bess_resources with
                      | Some res =>
                          match get (Registry.Settlement_Point res) rt_prices with
                          | Some price => fillna0 (Sced.Base_Point r) * price * (5 # 60)
                          | None => 0
                          end
                      | None => 0
                      end)
                   (filter (fun r => (Sced.Resource_Name r =? name)%string) bess_data)).
           ++ destruct (get name bess_resources) as [res|];
                [|symmetry; apply sumQ_zero; reflexivity].
              destruct (get (Registry.Settlement_Point res) rt_prices) as [price|];
                [|symmetry; apply sumQ_zero; reflexivity].
              rewrite nansum_cells.
              generalize (filter (fun r => (Sced.Resource_Name r =? name)%string)
                                 bess_data).
              intro l. induction l as [|r l IH]; simpl; [ring|].
              rewrite <- IH. ring.
           ++ apply sumQ_ext_in. intros r Hr. apply filter_In in Hr.
              destruct Hr as [_ Hr]. apply String.eqb_eq in Hr. rewrite Hr.
              reflexivity.
      * intros n c. cbv beta. apply sumQ_ext_in. intros r _.
        apply for_name_compat.
        destruct c; unfold complete_sced_amount; ring.
Qed.

Lemma sced_rows_of_chunks (n : nat) (file : list Sced.row) (g : Sced.row -> Q) :
  (0 < n)%nat ->
  sumQ (fun chunk => sumQ g (Corrected.sced_bess_rows chunk)) (read_csv_chunks n file)
  == sumQ g (Corrected.sced_bess_rows file).
Proof.
  intro Hn. unfold Corrected.sced_bess_rows.
  rewrite <- (read_csv_chunks_concat n file Hn) at 2.
  rewrite (sumQ_filter g _ (List.concat _)), sumQ_concat.
  apply sumQ_ext_in. intros chunk _. rewrite sumQ_filter. reflexivity.
Qed.

Lemma adds_to_complete_year (bess_resources : dict Registry.row)
      (data : Complete.year_data) :
  adds_to complete_value
          (fun d =>
             fold_left (fun revenues file =>
                          fold_left (Complete.process_sced_chunk
                                       bess_resources
                                       match Complete.price_file data with
                                       | Some price_df => Complete.load_rt_prices price_df
                                       | None => []
                                       end)
                                    (read_csv_chunks Complete.chunksize file) revenues)
                       (firstn 2 (Complete.sced_files data))
                       (fold_left Complete.process_dam_file
                                  (firstn 5 (Complete.dam_files data)) d))
          (complete_year_amount bess_resources data).
Proof.
  unfold complete_year_amount. cbv zeta.
  set (rt_prices := match Complete.price_file data with
                    | Some price_df => Complete.load_rt_prices price_df
                    | None => []
                    end).
  apply (adds_to_compose complete_value
           (fun d => fold_left Complete.process_dam_file
                               (firstn 5 (Complete.dam_files data)) d)
           (fun d => fold_left
                       (fun revenues file =>
                          fold_left (Complete.process_sced_chunk bess_resources rt_prices)
                                    (read_csv_chunks Complete.chunksize file) revenues)
                       (firstn 2 (Complete.sced_files data)) d)).
  - apply (adds_to_fold complete_value Complete.process_dam_file
             (fun file n c =>
                sumQ (fun r => for_name (Dam.Resource_Name r) n
                                        (complete_row_amount (Dam.columns file) r c))
                     (Corrected.bess_rows (Dam.rows file)))).
    intros file _. apply adds_to_complete_dam_file.
  - apply (adds_to_fold complete_value
             (fun revenues file =>
                fold_left (Complete.process_sced_chunk bess_resources rt_prices)
                          (read_csv_chunks Complete.chunksize file) revenues)
             (fun file n c =>
                sumQ (fun r => for_name (Sced.Resource_Name r) n
                                        (complete_sced_amount bess_resources rt_prices r c))
                     (Corrected.sced_bess_rows file))).
    intros file _. eapply adds_to_ext.
    + apply (adds_to_fold complete_value
               (Complete.process_sced_chunk bess_resources rt_prices)
               (fun chunk n c =>
                  sumQ (fun r => for_name (Sced.Resource_Name r) n
                                          (complete_sced_amount bess_resources rt_prices
                                                                r c))
                       (Corrected.sced_bess_rows chunk))).
      intros chunk _. apply adds_to_complete_sced_chunk.
    + intros n c. cbv beta.
      apply (sced_rows_of_chunks
               Complete.chunksize file
               (fun r => for_name (Sced.Resource_Name r) n
                                  (complete_sced_amount bess_resources rt_prices r c))).
      unfold Complete.chunksize. lia.
Qed.

(** X20.  The ledger of a year of [run_bess_complete_analysis.py] in
    closed form: every accumulator of a listed resource is the sum, over
    the storage rows of the resource in the first five DAM files and in
    the first two SCED files, of what the row is worth by itself
    ([complete_row_amount], [complete_sced_amount]).  Summing by unique
    name, skipping NaNs in the sums and reading a SCED file in chunks
    change nothing of it. *)
Theorem complete_year_in_closed_form
        (bess_resources : dict Registry.row) (data : Complete.year_data)
        (name : string) (res : Registry.row) :
  get name bess_resources = Some res ->
  exists rev,
    get name (Complete.accumulate_year bess_resources data) = Some rev /\
    forall c, complete_value c rev == complete_year_amount bess_resources data name c.
Proof.
  intro Hres.
  destruct (adds_to_complete_year bess_resources data
                                  (Complete.init_revenues bess_resources))
    as [_ Hv].
  assert (Hinit : get name (Complete.init_revenues bess_resources)
                  = Some Complete.empty_entry).
  { unfold Complete.init_revenues. apply (get_init _ _ _ res). exact Hres. }
  destruct (Hv name Complete.empty_entry Hinit) as [rev [Hg Hc]].
  exists rev. split; [exact Hg|]. intro c. rewrite Hc.
  destruct c as [| |p]; try destruct p; simpl; ring.
Qed.

(** A run of X20: one DAM file and one dispatch row, priced at 30. *)
Lemma complete_year_in_closed_form_witness :
  exists rev,
    get "R1" (Complete.accumulate_year
                Sample.bess_resources
                (Complete.mk_year_data
                   [Dam.mk_file Sample.cols [Sample.dam_row 10 20 5 8]]
                   [[Sample.sced_row "R1" 12]]
                   (Some [Spp.mk_row "SP1" 30])))
    = Some rev /\
    forall c,
      complete_value c rev
      == complete_year_amount
           Sample.bess_resources
           (Complete.mk_year_data
              [Dam.mk_file Sample.cols [Sample.dam_row 10 20 5 8]]
              [[Sample.sced_row "R1" 12]]
              (Some [Spp.mk_row "SP1" 30]))
           "R1" c.
Proof.
  apply (complete_year_in_closed_form
           Sample.bess_resources
           (Complete.mk_year_data
              [Dam.mk_file Sample.cols [Sample.dam_row 10 20 5 8]]
              [[Sample.sced_row "R1" 12]]
              (Some [Spp.mk_row "SP1" 30]))
           "R1" (Registry.mk_row "R1" "SP1")).
  reflexivity.
Defined.

(** * X21. The day-ahead pass of the logging variant *)

Lemma adds_to_nothing {V C R : Type} (val : C -> V -> Q) (nm : R -> string)
      (rows : list R) (f : R -> C -> Q) :
  (forall r c, f r c == 0) ->
  adds_to val (fun d => d)
          (fun n c => sumQ (fun r => for_name (nm r) n (f r c)) rows).
Proof.
  intro H. eapply adds_to_ext; [apply adds_to_id|].
  intros n c. cbv beta. symmetry. apply sumQ_zero. intros r _.
  unfold for_name. destruct (_ =? _)%string; [apply H | reflexivity].
Qed.

Lemma with_logging_value_add_as (p : product) (v : Q) (e : WithLogging.entry)
      (c : component) :
  with_logging_value c (WithLogging.add_as p v e)
  == with_logging_value c e + v * as_inc p 1 c.
Proof.
  destruct p, c as [| |q]; try destruct q; simpl; ring.
Qed.

Lemma with_logging_value_add_dam_energy (v : Q) (k : nat) (e : WithLogging.entry)
      (c : component) :
  with_logging_value c (WithLogging.add_dam_energy v k e)
  == with_logging_value c e + v * match c with DamEnergy => 1 | _ => 0 end.
Proof.
  destruct c as [| |q]; try destruct q; simpl; ring.
Qed.

Lemma with_logging_credit (amount : Dam.row -> Q) (p : product)
      (bess_data : list Dam.row) :
  adds_to with_logging_value
          (WithLogging.credit_by_name amount (WithLogging.add_as p) bess_data)
          (fun n c => sumQ (fun r => for_name (Dam.Resource_Name r) n
                                              (as_inc p (amount r) c))
                           bess_data).
Proof.
  unfold WithLogging.credit_by_name, WithLogging.unique_names, WithLogging.rows_of.
  eapply adds_to_ext.
  - apply (adds_to_credit_by_name
             with_logging_value Dam.Resource_Name bess_data
             (fun name =>
                WithLogging.add_as
                  p (Qsum (map amount
                               (filter (fun r => (Dam.Resource_Name r =? name)%string)
                                       bess_data))))
             (fun name =>
                Qsum (map amount
                          (filter (fun r => (Dam.Resource_Name r =? name)%string)
                                  bess_data)))
             (fun c => as_inc p 1 c) amount).
    + intros name e c. apply with_logging_value_add_as.
    + intro name. apply Qsum_map.
  - intros n c. cbv beta. apply sumQ_ext_in. intros r _.
    apply for_name_compat. apply as_inc_scale.
Qed.

Lemma with_logging_row_pieces (cols : list string) (df : list Dam.row)
      (r : Dam.row) (c : component) :
  (if has_energy_cols cols then energy_inc r c else 0)
  + sumQ (fun service =>
            as_inc (snd service)
                   (if has_col (fst (fst (fst service))) cols
                       && has_col (fst (snd (fst service))) cols
                    then match df with
                         | [] => 0
                         | first :: _ =>
                             if notna_and_positive (snd (snd (fst service)) first)
                             then fillna0 (snd (fst (fst service)) r)
                                  * fillna0 (snd (snd (fst service)) first)
                             else 0
                         end
                    else 0) c)
         WithLogging.as_services
  + sumQ (fun rrs_col =>
            as_inc RRS
                   (if has_col "RRS MCPC" cols
                    then match df with
                         | [] => 0
                         | first :: _ =>
                             if notna_and_positive (Dam.RRS_MCPC first)
                             then if has_col (fst rrs_col) cols
                                  then fillna0 (snd rrs_col r)
                                       * fillna0 (Dam.RRS_MCPC first)
                                  else 0
                             else 0
                         end
                    else 0) c)
         WithLogging.rrs_types
  == with_logging_row_amount cols df r c.
Proof.
  unfold WithLogging.as_services, WithLogging.rrs_types, with_logging_row_amount,
    paid_from.
  destruct df as [|first rest];
    (destruct c as [| |p]; [| |destruct p]);
    cbn [sumQ as_inc product_eqb fst snd energy_inc award_col mcpc_col mcpc_cell
         Corrected.award_mw];
    destruct (has_energy_cols cols); try destruct (has_col "RRS MCPC" cols);
    cbn [andb];
    try match goal with
        | |- context [has_col ?a cols && has_col ?b cols] =>
            destruct (has_col a cols && has_col b cols)
        end;
    try match goal with
        | |- context [notna_and_positive ?m] => destruct (notna_and_positive m)
        end;
    cbn [andb]; try ring.
  all: unfold Corrected.RRS_Total_MW, Corrected.rrs_cols; cbn [fold_left fst snd];
    destruct (has_col "RRSPFR Awarded" cols), (has_col "RRSFFR Awarded" cols),
      (has_col "RRSUFR Awarded" cols); ring.
Qed.

Lemma adds_to_with_logging_dam_file (file : Dam.file) :
  adds_to with_logging_value
          (fun d => WithLogging.process_dam_file d file)
          (fun n c =>
             sumQ (fun r => for_name (Dam.Resource_Name r) n
                                     (with_logging_row_amount
                                        (Dam.columns file) (Dam.rows file) r c))
                  (Corrected.bess_rows (Dam.rows file))).
Proof.
  unfold WithLogging.process_dam_file. cbv zeta.
  fold (Corrected.bess_rows (Dam.rows file)).
  set (cols := Dam.columns file). set (df := Dam.rows file).
  set (bess_data := Corrected.bess_rows df).
  destruct (List.length bess_data =? 0)%nat eqn:E.
  - apply Nat.eqb_eq, length_zero_iff_nil in E. rewrite E.
    eapply adds_to_ext; [apply adds_to_id|]. reflexivity.
  - eapply adds_to_ext.
    + apply (adds_to_compose with_logging_value
               (fun d => fold_left (WithLogging.as_service_step cols df bess_data)
                                   WithLogging.as_services
                                   (WithLogging.dam_energy_pass cols bess_data d))
               (WithLogging.rrs_pass cols df bess_data)).
      * apply (adds_to_compose with_logging_value
                 (WithLogging.dam_energy_pass cols bess_data)
                 (fun d => fold_left (WithLogging.as_service_step cols df bess_data)
                                     WithLogging.as_services d)).
        -- unfold WithLogging.dam_energy_pass, WithLogging.unique_names,
             WithLogging.rows_of.
           fold (has_energy_cols cols).
           instantiate (1 := fun n c =>
                               sumQ (fun r => for_name (Dam.Resource_Name r) n
                                                (if has_energy_cols cols
                                                 then energy_inc r c else 0))
                                    bess_data).
           destruct (has_energy_cols cols).
           ++ eapply adds_to_ext.
              ** apply (adds_to_credit_by_name
                          with_logging_value Dam.Resource_Name bess_data
                          (fun name =>
                             WithLogging.add_dam_energy
                               (Qsum (map (fun r =>
                                             fillna0 (Dam.Awarded_Quantity r)
                                             * fillna0 (Dam.Energy_Settlement_Point_Price r))
                                          (filter (fun r =>
                                                     (Dam.Resource_Name r =? name)%string)
                                                  bess_data)))
                               (List.length
                                  (filter (fun r => (Dam.Resource_Name r =? name)%string)
                                          bess_data)))
                          (fun name =>
                             Qsum (map (fun r =>
                                          fillna0 (Dam.Awarded_Quantity r)
                                          * fillna0 (Dam.Energy_Settlement_Point_Price r))
                                       (filter (fun r =>
                                                  (Dam.Resource_Name r =? name)%string)
                                               bess_data)))
                          (fun c => match c with DamEnergy => 1 | _ => 0 end)
                          (fun r => fillna0 (Dam.Awarded_Quantity r)
                                    * fillna0 (Dam.Energy_Settlement_Point_Price r))).
                 --- intros name e c. apply with_logging_value_add_dam_energy.
                 --- intro name. apply Qsum_map.
              ** intros n c. cbv beta. apply sumQ_ext_in. intros r _.
                 destruct c; cbn [energy_inc]; unfold for_name;
                   destruct (_ =? _)%string; ring.
           ++ apply adds_to_nothing. reflexivity.
        -- apply (adds_to_fold with_logging_value
                    (WithLogging.as_service_step cols df bess_data)
                    (fun service n c =>
                       sumQ (fun r =>
                               for_name (Dam.Resource_Name r) n
                                 (as_inc (snd service)
                                    (if has_col (fst (fst (fst service))) cols
                                        && has_col (fst (snd (fst service))) cols
                                     then match df with
                                          | [] => 0
                                          | first :: _ =>
                                              if notna_and_positive
                                                   (snd (snd (fst service)) first)
                                              then fillna0 (snd (fst (fst service)) r)
                                                   * fillna0 (snd (snd (fst service)) first)
                                              else 0
                                          end
                                     else 0) c))
                            bess_data)).
           intros service _. unfold WithLogging.as_service_step. cbv zeta.
           destruct (has_col _ cols && has_col _ cols)%bool;
             [|apply adds_to_nothing; intros; apply as_inc_of_zero].
           unfold WithLogging.first_price.
           destruct df as [|first rest];
             [apply adds_to_nothing; intros; apply as_inc_of_zero|].
           destruct (notna_and_positive (snd (snd (fst service)) first));
             [|apply adds_to_nothing; intros; apply as_inc_of_zero].
           apply (with_logging_credit
                    (fun r => fillna0 (snd (fst (fst service)) r)
                              * fillna0 (snd (snd (fst service)) first))).
      * unfold WithLogging.rrs_pass.
        instantiate (1 := fun n c =>
                            sumQ (fun r =>
                                    for_name (Dam.Resource_Name r) n
                                      (sumQ (fun rrs_col =>
                                               as_inc RRS
                                                 (if has_col "RRS MCPC" cols
                                                  then match df with
                                                       | [] => 0
                                                       | first :: _ =>
                                                           if notna_and_positive
                                                                (Dam.RRS_MCPC first)
                                                           then if has_col (fst rrs_col) cols
                                                                then fillna0 (snd rrs_col r)
                                                                     * fillna0
                                                                         (Dam.RRS_MCPC first)
                                                                else 0
                                                           else 0
                                                       end
                                                  else 0) c)
                                            WithLogging.rrs_types))
                                 bess_data).
        destruct (has_col "RRS MCPC" cols);
          [|apply adds_to_nothing; intros; apply sumQ_zero; intros;
            apply as_inc_of_zero].
        unfold WithLogging.first_price.
        destruct df as [|first rest];
          [apply adds_to_nothing; intros; apply sumQ_zero; intros;
           apply as_inc_of_zero|].
        destruct (notna_and_positive (Dam.RRS_MCPC first));
          [|apply adds_to_nothing; intros; apply sumQ_zero; intros;
            apply as_inc_of_zero].
        eapply adds_to_ext.
        -- apply (adds_to_fold with_logging_value
                    (fun revenues rrs_col =>
                       if has_col (fst rrs_col) cols
                       then WithLogging.credit_by_name
                              (fun r => fillna0 (snd rrs_col r)
                                        * fillna0 (Dam.RRS_MCPC first))
                              (WithLogging.add_as RRS) bess_data revenues
                       else revenues)
                    (fun rrs_col n c =>
                       sumQ (fun r =>
                               for_name (Dam.Resource_Name r) n
                                 (as_inc RRS
                                    (if has_col (fst rrs_col) cols
                                     then fillna0 (snd rrs_col r)
                                          * fillna0 (Dam.RRS_MCPC first)
                                     else 0) c))
                            bess_data)).
           intros rrs_col _. destruct (has_col (fst rrs_col) cols).
           ++ apply (with_logging_credit
                       (fun r => fillna0 (snd rrs_col r) * fillna0 (Dam.RRS_MCPC first))).
           ++ apply adds_to_nothing. intros. apply as_inc_of_zero.
        -- intros n c. cbv beta. apply sumQ_for_name_sum.
    + intros n c. cbv beta.
      rewrite (sumQ_for_name_sum Dam.Resource_Name n
                 (fun service r =>
                    as_inc (snd service)
                      (if has_col (fst (fst (fst service))) cols
                          && has_col (fst (snd (fst service))) cols
                       then match df with
                            | [] => 0
                            | first :: _ =>
                                if notna_and_positive (snd (snd (fst service)) first)
                                then fillna0 (snd (fst (fst service)) r)
                                     * fillna0 (snd (snd (fst service)) first)
                                else 0
                            end
                       else 0) c)
                 WithLogging.as_services bess_data).
      rewrite <- !sumQ_plus. apply sumQ_ext_in. intros r _.
      rewrite <- !for_name_plus.
      unfold for_name. destruct (_ =? _)%string; [|reflexivity].
      apply with_logging_row_pieces.
Qed.

(** * X21, X22. Where the variants agree with the corrected calculator *)

Lemma has_award_cols_true (cols : list string) :
  has_award_cols cols = true ->
  has_energy_cols cols = true /\
  forall p, paid_from cols p = has_col (mcpc_col p) cols.
Proof.
  unfold has_award_cols. intro H.
  apply andb_prop in H. destruct H as [H H5].
  apply andb_prop in H. destruct H as [H H4].
  apply andb_prop in H. destruct H as [H H3].
  apply andb_prop in H. destruct H as [H1 H2].
  split; [exact H1|].
  intro p. destruct p; cbn [paid_from award_col mcpc_col];
    rewrite ?H2, ?H3, ?H4, ?H5; reflexivity.
Qed.

Lemma complete_row_amount_agrees (cols : list string) (r : Dam.row) (c : component) :
  has_award_cols cols = true -> mcpcs_not_negative r ->
  complete_row_amount cols r c == dam_row_amount cols r c.
Proof.
  intros Hcols Hsign. apply has_award_cols_true in Hcols.
  destruct Hcols as [He Hp].
  destruct c as [| |p]; cbn [complete_row_amount dam_row_amount].
  - rewrite He. reflexivity.
  - reflexivity.
  - rewrite Hp. unfold own_as_amount.
    destruct (has_col (mcpc_col p) cols); cbn [andb]; [|reflexivity].
    specialize (Hsign p).
    destruct (mcpc_cell p r) as [m|]; cbn [notna_and_positive fillna0 not_negative] in *.
    + destruct (Qgtb m 0) eqn:E; [reflexivity|].
      apply Qgtb_false in E. assert (Hm : m == 0) by lra. rewrite Hm. ring.
    + ring.
Qed.

Lemma with_logging_row_amount_agrees (cols : list string) (df : list Dam.row)
      (r : Dam.row) (c : component) :
  has_award_cols cols = true -> one_mcpc_per_file df -> In r df ->
  with_logging_row_amount cols df r c == dam_row_amount cols r c.
Proof.
  intros Hcols Hone Hr. apply has_award_cols_true in Hcols.
  destruct Hcols as [He Hp].
  destruct c as [| |p]; cbn [with_logging_row_amount dam_row_amount].
  - rewrite He. reflexivity.
  - reflexivity.
  - destruct df as [|first rest]; [contradiction|].
    assert (Hcell := Hone first r (or_introl eq_refl) Hr p).
    rewrite Hp. unfold own_as_amount.
    rewrite (cell_eq_positive _ _ Hcell).
    destruct (has_col (mcpc_col p) cols && notna_and_positive (mcpc_cell p r))%bool;
      [|reflexivity].
    rewrite (cell_eq_fillna0 _ _ Hcell). reflexivity.
Qed.

Lemma one_mcpc_per_file_uniform (df : list Dam.row) :
  one_mcpc_per_file df -> uniform_mcpc df.
Proof.
  intros H r1 r2 H1 H2 _. apply H; assumption.
Qed.

Lemma corrected_dam_file_by_rows (file : Dam.file) :
  uniform_mcpc (Dam.rows file) ->
  adds_to value (fun d => Corrected.process_dam_file d file)
          (fun n c =>
             sumQ (fun r => for_name (Dam.Resource_Name r) n
                                     (dam_row_amount (Dam.columns file) r c))
                  (Corrected.bess_rows (Dam.rows file))).
Proof.
  intro Huni. eapply adds_to_ext.
  - apply adds_is_adds_to. apply adds_process_dam_file.
  - intros n c.
    apply (dam_delta_uniform (Dam.columns file) (Dam.rows file)
                             (Corrected.bess_rows (Dam.rows file)) Huni).
    intros r Hr. unfold Corrected.bess_rows in Hr. apply filter_In in Hr. tauto.
Qed.

(** X21.  On a DAM file that has the energy and award columns, whose rows
    carry one MCPC per hour and product, none of them negative, the
    day-ahead pass of [run_bess_complete_analysis.py] adds to every
    accumulator of a listed resource what the corrected calculator
    adds. *)
Theorem complete_agrees_on_dam_file
        (file : Dam.file)
        (revenues : Corrected.ledger) (revenues_c : Complete.ledger)
        (name : string) (rev : Corrected.entry) (rev_c : Complete.entry) :
  has_award_cols (Dam.columns file) = true ->
  uniform_mcpc (Dam.rows file) ->
  (forall row, In row (Corrected.bess_rows (Dam.rows file)) ->
               mcpcs_not_negative row) ->
  get name revenues = Some rev ->
  get name revenues_c = Some rev_c ->
  exists rev' rev_c',
    get name (Corrected.process_dam_file revenues file) = Some rev' /\
    get name (Complete.process_dam_file revenues_c file) = Some rev_c' /\
    forall c, complete_value c rev_c' - complete_value c rev_c
              == value c rev' - value c rev.
Proof.
  intros Hcols Huni Hsign Hget Hget_c.
  destruct (corrected_dam_file_by_rows file Huni revenues) as [_ Hv].
  destruct (Hv name rev Hget) as [rev' [Hg Hc]].
  destruct (adds_to_complete_dam_file file revenues_c) as [_ Hv_c].
  destruct (Hv_c name rev_c Hget_c) as [rev_c' [Hg_c Hc_c]].
  exists rev', rev_c'. split; [exact Hg|]. split; [exact Hg_c|].
  intro c. rewrite Hc, Hc_c.
  assert (Hsame :
    sumQ (fun r => for_name (Dam.Resource_Name r) name
                            (complete_row_amount (Dam.columns file) r c))
         (Corrected.bess_rows (Dam.rows file))
    == sumQ (fun r => for_name (Dam.Resource_Name r) name
                               (dam_row_amount (Dam.columns file) r c))
            (Corrected.bess_rows (Dam.rows file))).
  { apply sumQ_ext_in. intros r Hr. apply for_name_compat.
    apply complete_row_amount_agrees; [exact Hcols | apply Hsign; exact Hr]. }
  rewrite Hsame. ring.
Qed.

(** A run of X21: 10 MW at $20 and 5 MW of RegUp at an MCPC of 8. *)
Lemma complete_agrees_on_dam_file_witness :
  exists rev' rev_c',
    get "R1" (Corrected.process_dam_file
                Sample.revenues0
                (Dam.mk_file Sample.cols [Sample.dam_row 10 20 5 8]))
    = Some rev' /\
    get "R1" (Complete.process_dam_file
                (Complete.init_revenues Sample.bess_resources)
                (Dam.mk_file Sample.cols [Sample.dam_row 10 20 5 8]))
    = Some rev_c' /\
    forall c, complete_value c rev_c' - complete_value c Complete.empty_entry
              == value c rev' - value c Corrected.empty_entry.
Proof.
  apply (complete_agrees_on_dam_file
           (Dam.mk_file Sample.cols [Sample.dam_row 10 20 5 8])
           Sample.revenues0 (Complete.init_revenues Sample.bess_resources)
           "R1" Corrected.empty_entry Complete.empty_entry).
  - reflexivity.
  - intros r1 r2 [<-|[]] [<-|[]] _ p. destruct p; simpl; reflexivity.
  - intros row [<-|[]] p. destruct p; simpl; discriminate.
  - reflexivity.
  - reflexivity.
Defined.

(** X22.  On a DAM file that has the energy and award columns and whose
    rows all carry the same MCPC, product by product, the day-ahead pass of
    the logging variant adds to every accumulator of a listed resource what
    the corrected calculator adds. *)
Theorem with_logging_agrees_on_dam_file
        (file : Dam.file)
        (revenues : Corrected.ledger) (revenues_l : WithLogging.ledger)
        (name : string) (rev : Corrected.entry) (rev_l : WithLogging.entry) :
  has_award_cols (Dam.columns file) = true ->
  one_mcpc_per_file (Dam.rows file) ->
  get name revenues = Some rev ->
  get name revenues_l = Some rev_l ->
  exists rev' rev_l',
    get name (Corrected.process_dam_file revenues file) = Some rev' /\
    get name (WithLogging.process_dam_file revenues_l file) = Some rev_l' /\
    forall c, with_logging_value c rev_l' - with_logging_value c rev_l
              == value c rev' - value c rev.
Proof.
  intros Hcols Hone Hget Hget_l.
  destruct (corrected_dam_file_by_rows
              file (one_mcpc_per_file_uniform _ Hone) revenues) as [_ Hv].
  destruct (Hv name rev Hget) as [rev' [Hg Hc]].
  destruct (adds_to_with_logging_dam_file file revenues_l) as [_ Hv_l].
  destruct (Hv_l name rev_l Hget_l) as [rev_l' [Hg_l Hc_l]].
  exists rev', rev_l'. split; [exact Hg|]. split; [exact Hg_l|].
  intro c. rewrite Hc, Hc_l.
  assert (Hsame :
    sumQ (fun r => for_name (Dam.Resource_Name r) name
                            (with_logging_row_amount
                               (Dam.columns file) (Dam.rows file) r c))
         (Corrected.bess_rows (Dam.rows file))
    == sumQ (fun r => for_name (Dam.Resource_Name r) name
                               (dam_row_amount (Dam.columns file) r c))
            (Corrected.bess_rows (Dam.rows file))).
  { apply sumQ_ext_in. intros r Hr. apply for_name_compat.
    apply with_logging_row_amount_agrees; [exact Hcols | exact Hone |].
    unfold Corrected.bess_rows in Hr. apply filter_In in Hr. tauto. }
  rewrite Hsame. ring.
Qed.

(** A run of X22: two hours with the same MCPC of 8. *)
Lemma with_logging_agrees_on_dam_file_witness :
  exists rev' rev_l',
    get "R1" (Corrected.process_dam_file
                Sample.revenues0
                (Dam.mk_file Sample.cols
                             [Sample.dam_row 10 20 5 8; Sample.dam_row_hour2 3 8]))
    = Some rev' /\
    get "R1" (WithLogging.process_dam_file
                (WithLogging.init_revenues Sample.bess_resources)
                (Dam.mk_file Sample.cols
                             [Sample.dam_row 10 20 5 8; Sample.dam_row_hour2 3 8]))
    = Some rev_l' /\
    forall c, with_logging_value c rev_l' - with_logging_value c WithLogging.empty_entry
              == value c rev' - value c Corrected.empty_entry.
Proof.
  apply (with_logging_agrees_on_dam_file
           (Dam.mk_file Sample.cols
                        [Sample.dam_row 10 20 5 8; Sample.dam_row_hour2 3 8])
           Sample.revenues0 (WithLogging.init_revenues Sample.bess_resources)
           "R1" Corrected.empty_entry WithLogging.empty_entry).
  - reflexivity.
  - intros r1 r2 [<-|[<-|[]]] [<-|[<-|[]]] p; destruct p; simpl; reflexivity.
  - reflexivity.
  - reflexivity.
Defined.

(** * X23. The sample file *)

Lemma sample_index_half (n : nat) : FinalSample.sample_index n = (n / 2)%nat.
Proof.
  unfold FinalSample.sample_index. apply Nat.min_l.
  destruct n as [|n]; [reflexivity|].
  assert (H : (S n / 2 < S n)%nat) by (apply Nat.div_lt; lia). lia.
Qed.

(** X23.  The sample analysis picks the DAM file in the middle of the
    sorted list: the index [min(len // 2, len - 1)] is [len // 2]; it is
    within the list whenever there is a file, so no [IndexError] is
    raised, and [analyze_year_sample] returns its rows for every year. *)
Theorem sample_file_is_the_middle_one
        (bess_map : dict string) (year : nat) (data : FinalSample.year_data) :
  FinalSample.sample_index (List.length (FinalSample.dam_files data))
  = (List.length (FinalSample.dam_files data) / 2)%nat /\
  exists results,
    FinalSample.analyze_year_sample bess_map year data = Some results.
Proof.
  split; [apply sample_index_half|].
  unfold FinalSample.analyze_year_sample.
  destruct (FinalSample.dam_files data) as [|file files] eqn:E; [eauto|].
  unfold FinalSample.accumulate_sample. rewrite E, sample_index_half.
  destruct (nth_error (file :: files) (List.length (file :: files) / 2))
    as [sample_file|] eqn:En.
  - destruct (FinalSample.sced_files data); simpl; eauto.
  - apply nth_error_None in En.
    assert (H : (List.length (file :: files) / 2 < List.length (file :: files))%nat).
    { apply Nat.div_lt; simpl; lia. }
    lia.
Qed.

(** * X24. The resources of the sample analysis *)

Lemma final_sample_keys_bess_step (cols : list string) (hour_group : list Dam.row)
      (energy_price : cell) (revenues : FinalSample.ledger) (bess : Dam.row) :
  (NoDup (keys revenues) ->
   NoDup (keys (FinalSample.bess_step cols hour_group energy_price revenues bess))) /\
  forall n,
    In n (keys (FinalSample.bess_step cols hour_group energy_price revenues bess))
    <-> In n (keys revenues) \/ n = Dam.Resource_Name bess.
Proof.
  unfold FinalSample.bess_step. cbv zeta. rewrite keys_update.
  destruct (contains (Dam.Resource_Name bess) revenues) eqn:E.
  - split; [auto|]. intro n. split; [auto|].
    intros [H| ->]; [exact H|]. apply contains_true_keys. exact E.
  - split; [apply NoDup_keys_set|].
    intro n. rewrite keys_set, E, in_app_iff. simpl. intuition.
Qed.

Lemma final_sample_keys_rows (cols : list string) (hour_group : list Dam.row)
      (energy_price : cell) (rows : list Dam.row) :
  forall revenues : FinalSample.ledger,
    (NoDup (keys revenues) ->
     NoDup (keys (fold_left (FinalSample.bess_step cols hour_group energy_price)
                            rows revenues))) /\
    forall n,
      In n (keys (fold_left (FinalSample.bess_step cols hour_group energy_price)
                            rows revenues))
      <-> In n (keys revenues) \/ exists r, In r rows /\ Dam.Resource_Name r = n.
Proof.
  induction rows as [|row rows IH]; intro revenues; cbn [fold_left].
  - split; [auto|]. intro n. split; [auto|]. intros [H|[r [[] _]]]. exact H.
  - destruct (final_sample_keys_bess_step cols hour_group energy_price revenues row)
      as [Hnd Hin].
    destruct (IH (FinalSample.bess_step cols hour_group energy_price revenues row))
      as [Hnd' Hin'].
    split; [auto|]. intro n. rewrite Hin', Hin. split.
    + intros [[H| ->]|[r [Hr E]]].
      * left. exact H.
      * right. exists row. split; [left; reflexivity | reflexivity].
      * right. exists r. split; [right; exact Hr | exact E].
    + intros [H|[r [[<-|Hr] E]]].
      * left. left. exact H.
      * left. right. symmetry. exact E.
      * right. exists r. split; [exact Hr | exact E].
Qed.

Lemma final_sample_keys_groups (cols : list string) (groups : list (list Dam.row)) :
  forall revenues : FinalSample.ledger,
    (NoDup (keys revenues) ->
     NoDup (keys (fold_left (FinalSample.hour_step cols) groups revenues))) /\
    forall n,
      In n (keys (fold_left (FinalSample.hour_step cols) groups revenues))
      <-> In n (keys revenues) \/
          exists g r, In g groups /\ In r g /\
                      is_PWRSTR (Dam.Resource_Type r) = true /\
                      Dam.Resource_Name r = n.
Proof.
  induction groups as [|g groups IH]; intro revenues; cbn [fold_left].
  - split; [auto|]. intro n. split; [auto|]. intros [H|[g [r [[] _]]]]. exact H.
  - assert (Hstep :
      (NoDup (keys revenues) -> NoDup (keys (FinalSample.hour_step cols revenues g))) /\
      forall n, In n (keys (FinalSample.hour_step cols revenues g))
                <-> In n (keys revenues) \/
                    exists r, In r g /\ is_PWRSTR (Dam.Resource_Type r) = true /\
                              Dam.Resource_Name r = n).
    { unfold FinalSample.hour_step. cbv zeta.
      set (hour_bess := filter (fun r => is_PWRSTR (Dam.Resource_Type r)) g).
      assert (Hbess : forall n,
                 (exists r, In r hour_bess /\ Dam.Resource_Name r = n)
                 <-> exists r, In r g /\ is_PWRSTR (Dam.Resource_Type r) = true /\
                               Dam.Resource_Name r = n).
      { intro n. unfold hour_bess. split.
        - intros [r [Hr E]]. apply filter_In in Hr. exists r. tauto.
        - intros [r [Hr [Ht E]]]. exists r. split; [|exact E].
          apply filter_In. tauto. }
      destruct (List.length hour_bess =? 0)%nat eqn:E.
      - apply Nat.eqb_eq, length_zero_iff_nil in E.
        split; [auto|]. intro n. rewrite <- Hbess, E. split; [auto|].
        intros [H|[r [[] _]]]. exact H.
      - match goal with
        | |- context [fold_left (FinalSample.bess_step cols g ?ep) hour_bess revenues] =>
            destruct (final_sample_keys_rows cols g ep hour_bess revenues)
              as [Hnd Hin]
        end.
        split; [exact Hnd|]. intro n. rewrite Hin, Hbess. reflexivity. }
    destruct Hstep as [Hnd Hin].
    destruct (IH (FinalSample.hour_step cols revenues g)) as [Hnd' Hin'].
    split; [auto|]. intro n. rewrite Hin', Hin. split.
    + intros [[H|[r [Hr [Ht E]]]]|[g' [r [Hg [Hr [Ht E]]]]]].
      * left. exact H.
      * right. exists g, r. split; [left; reflexivity | tauto].
      * right. exists g', r. split; [right; exact Hg | tauto].
    + intros [H|[g' [r [[<-|Hg] [Hr [Ht E]]]]]].
      * left. left. exact H.
      * left. right. exists r. tauto.
      * right. exists g', r. tauto.
Qed.

Lemma In_groupby (df : list Dam.row) (r : Dam.row) :
  (exists g, In g (groupby df) /\ In r g) <-> In r df.
Proof.
  unfold groupby. split.
  - intros [g [Hg Hr]]. apply in_map_iff in Hg. destruct Hg as [k [<- _]].
    apply filter_In in Hr. tauto.
  - intro Hr. exists (filter (in_hour (key_of r)) df). split.
    + apply in_map_iff. exists (key_of r). split; [reflexivity|].
      apply In_group_keys. exists r. split; [exact Hr | reflexivity].
    + apply filter_In. split; [exact Hr | apply key_eqb_refl].
Qed.

Lemma final_sample_keys_rt_pass (bess_map : dict string) (avg_prices : dict Q)
      (sced_file : list Sced.row) (revenues : FinalSample.ledger) :
  keys (FinalSample.rt_pass bess_map avg_prices sced_file revenues) = keys revenues.
Proof.
  unfold FinalSample.rt_pass. cbv zeta.
  apply (keys_fold_left (FinalSample.rt_step bess_map avg_prices)).
  intros d row. unfold FinalSample.rt_step. cbv zeta.
  destruct (contains (Sced.Resource_Name row) d); [|reflexivity].
  destruct (Sced.Base_Point row) as [base_mw|]; [|reflexivity].
  destruct (Qeq_bool base_mw 0); [reflexivity | apply keys_update].
Qed.

(** X24.  The sample analysis keeps one entry for each resource name that
    a storage row of the sample DAM file carries, whether the master list
    has the name or not, and the pass over the dispatch rows adds no
    entry: a resource that is dispatched but has no storage row in the
    sample file is not reported. *)
Theorem sample_ledger_lists_storage_names
        (file : Dam.file) (bess_map : dict string) (avg_prices : dict Q)
        (sced_file : list Sced.row) :
  NoDup (keys (FinalSample.process_sample_file file)) /\
  (forall name,
      In name (keys (FinalSample.process_sample_file file))
      <-> exists row, In row (Dam.rows file) /\
                      is_PWRSTR (Dam.Resource_Type row) = true /\
                      Dam.Resource_Name row = name) /\
  keys (FinalSample.rt_pass bess_map avg_prices sced_file
                            (FinalSample.process_sample_file file))
  = keys (FinalSample.process_sample_file file).
Proof.
  unfold FinalSample.process_sample_file.
  destruct (final_sample_keys_groups (Dam.columns file) (groupby (Dam.rows file)) [])
    as [Hnd Hin].
  split; [apply Hnd; constructor|]. split; [|apply final_sample_keys_rt_pass].
  intro name. rewrite Hin. split.
  - intros [[]|[g [r [Hg [Hr [Ht E]]]]]]. exists r. split; [|tauto].
    apply In_groupby. exists g. tauto.
  - intros [r [Hr [Ht E]]]. right.
    apply In_groupby in Hr. destruct Hr as [g [Hg Hr]]. exists g, r. tauto.
Qed.

(** * X25. The dispatch rows of the sample analysis *)

Lemma final_sample_value_add_rt_energy (v : Q) (e : FinalSample.entry) (c : component) :
  final_sample_value c (FinalSample.add_rt_energy v e)
  == final_sample_value c e + match c with RtEnergy => v | _ => 0 end.
Proof.
  destruct c as [| |q]; try destruct q; simpl; ring.
Qed.

Lemma adds_to_final_sample_rt_pass (bess_map : dict string) (avg_prices : dict Q)
      (sced_file : list Sced.row) :
  adds_to final_sample_value
          (FinalSample.rt_pass bess_map avg_prices sced_file)
          (fun n c =>
             sumQ (fun r => for_name (Sced.Resource_Name r) n
                                     (final_sample_rt_amount bess_map avg_prices r c))
                  (Corrected.sced_bess_rows (firstn FinalSample.nrows sced_file))).
Proof.
  unfold FinalSample.rt_pass. cbv zeta.
  fold (Corrected.sced_bess_rows (firstn FinalSample.nrows sced_file)).
  apply (adds_to_fold final_sample_value (FinalSample.rt_step bess_map avg_prices)
           (fun r n c => for_name (Sced.Resource_Name r) n
                                  (final_sample_rt_amount bess_map avg_prices r c))).
  intros row _. unfold FinalSample.rt_step. cbv zeta.
  destruct (Sced.Base_Point row) as [base_mw|] eqn:Eb.
  - destruct (Qeq_bool base_mw 0) eqn:Ez.
    + eapply adds_to_eq.
      * intro d. instantiate (1 := fun d => d). cbv beta.
        destruct (contains (Sced.Resource_Name row) d); reflexivity.
      * eapply adds_to_ext; [apply adds_to_id|].
        intros n c. cbv beta. apply Qeq_bool_eq in Ez.
        unfold for_name, final_sample_rt_amount. rewrite Eb. cbn [fillna0].
        destruct (_ =? _)%string; [|reflexivity].
        destruct c; try reflexivity. rewrite Ez. ring.
    + eapply adds_to_ext.
      * apply adds_to_guarded_update. intros e c.
        apply final_sample_value_add_rt_energy.
      * intros n c. cbv beta. apply for_name_compat.
        unfold final_sample_rt_amount. rewrite Eb. cbn [fillna0].
        destruct c; reflexivity.
  - eapply adds_to_eq.
    + intro d. instantiate (1 := fun d => d). cbv beta.
      destruct (contains (Sced.Resource_Name row) d); reflexivity.
    + eapply adds_to_ext; [apply adds_to_id|].
      intros n c. cbv beta.
      unfold for_name, final_sample_rt_amount. rewrite Eb. cbn [fillna0].
      destruct (_ =? _)%string; [|reflexivity].
      destruct c; try reflexivity; ring.
Qed.

(** X25.  The pass of the sample analysis over the dispatch rows adds to
    [rt_energy] of a resource that has an entry, for each of its storage
    rows among the first 50000 rows of the first SCED file, the base point
    times [avg_prices.get(bess_map.get(name, ''), 50)] times 5/60, an
    unparseable base point counting as 0, and leaves the other
    accumulators as they are; the test [base_mw != 0] changes nothing. *)
Theorem sample_rt_pass_in_closed_form
        (bess_map : dict string) (avg_prices : dict Q) (sced_file : list Sced.row)
        (revenues : FinalSample.ledger) (name : string) (rev : FinalSample.entry) :
  get name revenues = Some rev ->
  exists rev',
    get name (FinalSample.rt_pass bess_map avg_prices sced_file revenues) = Some rev' /\
    forall c,
      final_sample_value c rev'
      == final_sample_value c rev
         + sumQ (fun r => for_name (Sced.Resource_Name r) name
                                   (final_sample_rt_amount bess_map avg_prices r c))
                (Corrected.sced_bess_rows (firstn FinalSample.nrows sced_file)).
Proof.
  intro Hget.
  destruct (adds_to_final_sample_rt_pass bess_map avg_prices sced_file revenues)
    as [_ Hv].
  apply (Hv name rev Hget).
Qed.

(** A run of X25: a resource that the master list does not have, paid at
    the default of 50. *)
Lemma sample_rt_pass_in_closed_form_witness :
  exists rev',
    get "X9" (FinalSample.rt_pass
                [] [] [Sample.sced_row "X9" 12]
                (FinalSample.process_sample_file
                   (Dam.mk_file Sample.cols [Sample.stranger_row])))
    = Some rev' /\
    forall c,
      final_sample_value c rev'
      == final_sample_value c (FinalSample.mk_entry 140 0 24 0 0 0 0)
         + sumQ (fun r => for_name (Sced.Resource_Name r) "X9"
                                   (final_sample_rt_amount [] [] r c))
                (Corrected.sced_bess_rows
                   (firstn FinalSample.nrows [Sample.sced_row "X9" 12])).
Proof.
  apply (sample_rt_pass_in_closed_form
           [] [] [Sample.sced_row "X9" 12]
           (FinalSample.process_sample_file
              (Dam.mk_file Sample.cols [Sample.stranger_row]))
           "X9" (FinalSample.mk_entry 140 0 24 0 0 0 0)).
  vm_compute. reflexivity.
Defined.

(** * X26. The day-ahead pass of the sample analysis *)

Lemma final_sample_value_add_as (p : product) (v : Q) (e : FinalSample.entry)
      (c : component) :
  final_sample_value c (FinalSample.add_as p v e)
  == final_sample_value c e + as_inc p v c.
Proof.
  destruct p, c as [| |q]; try destruct q; simpl; ring.
Qed.

Lemma final_sample_product_update (p : product) (mw mcpc : cell)
      (e : FinalSample.entry) (c : component) :
  final_sample_value c (FinalSample.product_update p mw mcpc e)
  == final_sample_value c e + as_inc p (paid_award mw mcpc) c.
Proof.
  unfold FinalSample.product_update, paid_award.
  destruct mw as [mw|], mcpc as [m|]; try (rewrite as_inc_zero; ring).
  destruct (Qgtb mw 0); [apply final_sample_value_add_as | rewrite as_inc_zero; ring].
Qed.

Lemma final_sample_rrs_update (cols : list string) (mcpc : cell) (bess : Dam.row)
      (e : FinalSample.entry) (c : component) :
  final_sample_value c (FinalSample.rrs_update cols mcpc bess e)
  == final_sample_value c e
     + as_inc RRS (paid_award (Some (FinalSample.rrs_total cols bess)) mcpc) c.
Proof.
  unfold FinalSample.rrs_update, paid_award.
  destruct mcpc as [m|]; [|rewrite as_inc_zero; ring].
  destruct (Qgtb (FinalSample.rrs_total cols bess) 0);
    [apply final_sample_value_add_as | rewrite as_inc_zero; ring].
Qed.

Lemma final_sample_energy_update (energy_price : cell) (bess : Dam.row)
      (e : FinalSample.entry) (c : component) :
  final_sample_value c (FinalSample.energy_update energy_price bess e)
  == final_sample_value c e
     + match c with
       | DamEnergy =>
           match Dam.Awarded_Quantity bess, energy_price with
           | Some energy_mw, Some price => energy_mw * price
           | _, _ => 0
           end
       | _ => 0
       end.
Proof.
  unfold FinalSample.energy_update.
  destruct (Dam.Awarded_Quantity bess) as [mw|], energy_price as [price|];
    destruct c as [| |q]; try destruct q; simpl; ring.
Qed.

Lemma final_sample_row_update (cols : list string) (hour_group : list Dam.row)
      (bess : Dam.row) (e : FinalSample.entry) (c : component) :
  final_sample_value
    c (FinalSample.row_update cols hour_group (first_energy_price hour_group) bess e)
  == final_sample_value c e + final_sample_row_amount cols hour_group bess c.
Proof.
  unfold FinalSample.row_update. cbv zeta.
  rewrite final_sample_product_update.
  unfold FinalSample.ecrs_update.
  destruct (has_col "ECRSSD Awarded" cols) eqn:Ecol.
  - rewrite final_sample_product_update, final_sample_rrs_update,
      !final_sample_product_update, final_sample_energy_update.
    unfold final_sample_row_amount. rewrite Ecol.
    destruct c as [| |q]; [| |destruct q]; cbn [as_inc product_eqb]; ring.
  - rewrite final_sample_rrs_update,
      !final_sample_product_update, final_sample_energy_update.
    unfold final_sample_row_amount. rewrite Ecol.
    destruct c as [| |q]; [| |destruct q]; cbn [as_inc product_eqb]; ring.
Qed.

Lemma entry_value_bess_step (cols : list string) (hour_group : list Dam.row)
      (revenues : FinalSample.ledger) (bess : Dam.row) (n : string) (c : component) :
  entry_value c n (FinalSample.bess_step cols hour_group
                                         (first_energy_price hour_group) revenues bess)
  == entry_value c n revenues
     + for_name (Dam.Resource_Name bess) n
                (final_sample_row_amount cols hour_group bess c).
Proof.
  unfold entry_value, FinalSample.bess_step, for_name. cbv zeta.
  rewrite get_update.
  destruct (Dam.Resource_Name bess =? n)%string eqn:En.
  - apply String.eqb_eq in En. subst n.
    unfold contains.
    destruct (get (Dam.Resource_Name bess) revenues) as [e|] eqn:Eg.
    + rewrite Eg. cbn [option_map]. apply final_sample_row_update.
    + rewrite get_set, String.eqb_refl. cbn [option_map].
      rewrite final_sample_row_update.
      destruct c as [| |q]; try destruct q; simpl; ring.
  - destruct (contains (Dam.Resource_Name bess) revenues).
    + destruct (get n revenues); ring.
    + rewrite get_set, En. destruct (get n revenues); ring.
Qed.

Lemma entry_value_hour_step (cols : list string) (revenues : FinalSample.ledger)
      (hour_group : list Dam.row) (n : string) (c : component) :
  entry_value c n (FinalSample.hour_step cols revenues hour_group)
  == entry_value c n revenues
     + sumQ (fun r => for_name (Dam.Resource_Name r) n
                               (final_sample_row_amount cols hour_group r c))
            (Corrected.bess_rows hour_group).
Proof.
  unfold FinalSample.hour_step. cbv zeta.
  fold (Corrected.bess_rows hour_group). fold (first_energy_price hour_group).
  destruct (List.length (Corrected.bess_rows hour_group) =? 0)%nat eqn:E.
  - apply Nat.eqb_eq, length_zero_iff_nil in E. rewrite E. simpl. ring.
  - clear E. generalize (Corrected.bess_rows hour_group) as rows. intro rows.
    revert revenues. induction rows as [|r rows IH]; intro revenues; cbn [fold_left sumQ].
    + ring.
    + rewrite IH, entry_value_bess_step. ring.
Qed.

(** X26.  The day-ahead pass of the sample analysis in closed form: an
    accumulator of a resource is the sum, over the hour groups of the
    sample file and over the storage rows of the resource in the group, of
    what the row is worth [final_sample_row_amount]: its energy award
    times the settlement point price of the first row of the hour group,
    whatever resource that row belongs to, and each AS award greater than
    0 times the MCPC of the first row of the group.  A resource without a
    storage row has no entry. *)
Theorem sample_day_ahead_in_closed_form
        (file : Dam.file) (name : string) (c : component) :
  entry_value c name (FinalSample.process_sample_file file)
  == sumQ (fun hour_group =>
             sumQ (fun r => for_name (Dam.Resource_Name r) name
                                     (final_sample_row_amount
                                        (Dam.columns file) hour_group r c))
                  (Corrected.bess_rows hour_group))
          (groupby (Dam.rows file)).
Proof.
  unfold FinalSample.process_sample_file.
  assert (H : forall (groups : list (list Dam.row)) (revenues : FinalSample.ledger),
             entry_value c name
                         (fold_left (FinalSample.hour_step (Dam.columns file))
                                    groups revenues)
             == entry_value c name revenues
                + sumQ (fun hour_group =>
                          sumQ (fun r => for_name (Dam.Resource_Name r) name
                                                  (final_sample_row_amount
                                                     (Dam.columns file) hour_group r c))
                               (Corrected.bess_rows hour_group))
                       groups).
  { induction groups as [|g groups IH]; intro revenues; cbn [fold_left sumQ].
    - ring.
    - rewrite IH, entry_value_hour_step. ring. }
  rewrite H. unfold entry_value. simpl. ring.
Qed.

(** * X27. The revenue breakdown *)

Lemma with_logging_run_rows_positive (bess_resources : dict Registry.row)
      (years : list nat) (data : nat -> WithLogging.year_data)
      (row : WithLogging.result) :
  In row (WithLogging.run_years bess_resources years data) ->
  0 < WithLogging.Total_Revenue row.
Proof.
  intro H. apply with_logging_run_rows in H. destruct H as [year [revenues H]].
  rewrite with_logging_create_results in H.
  apply in_kept_rows in H. destruct H as [[name rev] [_ [Hpos ->]]].
  apply Qgtb_true in Hpos. exact Hpos.
Qed.

(** X27.  "Revenue Breakdown (All Years)", read from the table that the
    logging variant writes: with at least one row the summed total is
    greater than 0 and the seven percentages sum to 100; with no row each
    of them is 0.  No division by zero takes place. *)
Theorem breakdown_sums_to_100
        (bess_resources : dict Registry.row) (years : list nat)
        (data : nat -> WithLogging.year_data) :
  let df := WithLogging.run_years bess_resources years data in
  (df <> [] ->
   0 < Qsum (map WithLogging.Total_Revenue df) /\
   Qsum (Results.breakdown df) == 100) /\
  (df = [] -> forall q, In q (Results.breakdown df) -> q = 0).
Proof.
  intro df. split.
  - intro Hne.
    assert (Hpos : 0 < Qsum (map WithLogging.Total_Revenue df)).
    { rewrite Qsum_map. apply sumQ_pos; [exact Hne|].
      intros row Hrow.
      apply (with_logging_run_rows_positive bess_resources years data row Hrow). }
    split; [exact Hpos|].
    assert (Hsum : Qsum (map WithLogging.Total_Revenue df)
                   == Qsum (map WithLogging.RT_Revenue df)
                      + Qsum (map WithLogging.DA_Revenue df)
                      + (Qsum (map WithLogging.Spin_Revenue df)
                         + Qsum (map WithLogging.NonSpin_Revenue df)
                         + Qsum (map WithLogging.RegUp_Revenue df)
                         + Qsum (map WithLogging.RegDown_Revenue df)
                         + Qsum (map WithLogging.ECRS_Revenue df))).
    { rewrite !Qsum_map, <- !sumQ_plus. apply sumQ_ext_in. intros row Hrow.
      destruct (with_logging_run_rows bess_resources years data row Hrow)
        as [y [revenues H]].
      apply (with_logging_row_total y revenues row H). }
    unfold Results.breakdown, Results.revenue_cols, Results.pct. cbv zeta.
    rewrite (proj2 (Qgtb_true _ _) Hpos).
    cbn [map snd]. unfold Qsum at 1. cbn [fold_left].
    set (t := Qsum (map WithLogging.Total_Revenue df)) in *.
    assert (Hnz : ~ t == 0) by (intro E; rewrite E in Hpos; discriminate Hpos).
    transitivity
      ((Qsum (map WithLogging.RT_Revenue df)
        + Qsum (map WithLogging.DA_Revenue df)
        + (Qsum (map WithLogging.Spin_Revenue df)
           + Qsum (map WithLogging.NonSpin_Revenue df)
           + Qsum (map WithLogging.RegUp_Revenue df)
           + Qsum (map WithLogging.RegDown_Revenue df)
           + Qsum (map WithLogging.ECRS_Revenue df))) / t * 100);
      [field; exact Hnz|].
    rewrite <- Hsum. field. exact Hnz.
  - intros Hnil q Hq. rewrite Hnil in Hq. simpl in Hq.
    repeat (destruct Hq as [<-|Hq]; [reflexivity|]). contradiction.
Qed.

(** * X28. The average clearing price of the structure analysis *)

Lemma sumQ_between {A : Type} (f : A -> Q) (lo hi : Q) (l : list A) :
  (forall a, In a l -> lo <= f a <= hi) ->
  lo * inject_Z (Z.of_nat (List.length l)) <= sumQ f l
  <= hi * inject_Z (Z.of_nat (List.length l)).
Proof.
  induction l as [|a l IH]; intro H; cbn [sumQ List.length].
  - unfold inject_Z. simpl. split; ring_simplify; apply Qle_refl.
  - destruct (H a (or_introl eq_refl)) as [H1 H2].
    destruct IH as [IH1 IH2]; [intros b Hb; apply H; right; exact Hb|].
    rewrite Nat2Z.inj_succ. unfold Z.succ. rewrite inject_Z_plus.
    split; ring_simplify; lra.
Qed.

(** X28.  The price by which [analyze_bess_as_revenue_structure.py]
    multiplies the awards of a file: when some MCPC of the file is greater
    than 0 and every such MCPC lies between [lo] and [hi], the price is
    greater than 0 and lies between [lo] and [hi]; the MCPCs that are 0 or
    negative do not enter it, and for a file with one positive MCPC value
    it is that value. *)
Theorem avg_mcpc_between (mcpcs : list Q) (lo hi : Q) :
  (forall q, In q mcpcs -> 0 < q -> lo <= q <= hi) ->
  (exists q, In q mcpcs /\ 0 < q) ->
  0 < Structure.avg_mcpc mcpcs /\ lo <= Structure.avg_mcpc mcpcs <= hi.
Proof.
  intros Hb [q0 [Hin0 Hpos0]].
  unfold Structure.avg_mcpc. cbv zeta.
  set (positive := filter (fun q => Qgtb q 0) mcpcs).
  assert (Hq0 : In q0 positive).
  { apply filter_In. split; [exact Hin0 | apply Qgtb_true; exact Hpos0]. }
  assert (Hall : forall q, In q positive -> 0 < q /\ lo <= q <= hi).
  { intros q Hq. apply filter_In in Hq. destruct Hq as [Hq Hp].
    apply Qgtb_true in Hp. split; [exact Hp | apply Hb; assumption]. }
  destruct positive as [|p ps] eqn:E; [contradiction|].
  rewrite <- E in *. clear E.
  assert (Hne : positive <> []) by (intro E; rewrite E in Hq0; contradiction).
  unfold mean. rewrite <- (map_id positive) at 1 3 5. rewrite Qsum_map.
  set (n := inject_Z (Z.of_nat (List.length positive))).
  assert (Hn : 0 < n).
  { unfold n. destruct positive as [|x xs]; [contradiction|].
    cbn [List.length]. rewrite Nat2Z.inj_succ. unfold Z.succ.
    rewrite inject_Z_plus.
    assert (0 <= inject_Z (Z.of_nat (List.length xs))).
    { unfold Qle, inject_Z. cbn [Qnum Qden]. lia. }
    unfold inject_Z at 2. lra. }
  destruct (sumQ_between (fun q => q) lo hi positive
                         (fun q Hq => proj2 (Hall q Hq))) as [H1 H2].
  fold n in H1, H2.
  assert (Hs : 0 < sumQ (fun q => q) positive).
  { apply sumQ_pos; [exact Hne | intros q Hq; apply (Hall q Hq)]. }
  split; [|split].
  - apply Qlt_shift_div_l; [exact Hn | lra].
  - apply Qle_shift_div_l; [exact Hn | exact H1].
  - apply Qle_shift_div_r; [exact Hn | exact H2].
Qed.

(** A run of X28: MCPCs of 8, 0, 8 and -3. *)
Lemma avg_mcpc_between_witness :
  0 < Structure.avg_mcpc [8; 0; 8; -3] /\ 8 <= Structure.avg_mcpc [8; 0; 8; -3] <= 8.
Proof.
  apply (avg_mcpc_between [8; 0; 8; -3] 8 8).
  - intros q [<-|[<-|[<-|[<-|[]]]]] Hq; try (split; apply Qle_refl);
      exfalso; revert Hq; apply Qle_not_lt; discriminate.
  - exists 8. split; [left; reflexivity | reflexivity].
Defined.

(** * X29. The revenue of the sample hour of the quick check *)

Lemma add_award_paid (mw mcpc : cell) (bess_revenue : Q) :
  QuickCheck.add_award mw mcpc bess_revenue == bess_revenue + paid_award mw mcpc.
Proof.
  unfold QuickCheck.add_award, paid_award.
  destruct mw as [mw|], mcpc as [m|]; try ring.
  destruct (Qgtb mw 0); ring.
Qed.

Lemma paid_award_compat (x y : Q) (mcpc : cell) :
  x == y -> paid_award (Some x) mcpc == paid_award (Some y) mcpc.
Proof.
  intro H. unfold paid_award. destruct mcpc as [m|]; [|reflexivity].
  rewrite (Qgtb_compat x y 0 H). destruct (Qgtb y 0); [rewrite H|]; reflexivity.
Qed.

Lemma quick_check_rrs_total (cols : list string) (bess : Dam.row) :
  QuickCheck.rrs_total cols bess == FinalSample.rrs_total cols bess.
Proof.
  unfold QuickCheck.rrs_total, FinalSample.rrs_total, FinalSample.rrs_cols.
  cbn [fold_left fst snd].
  destruct (has_col "RRSPFR Awarded" cols), (has_col "RRSFFR Awarded" cols),
    (has_col "RRSUFR Awarded" cols);
    destruct (Dam.RRSPFR_Awarded bess), (Dam.RRSFFR_Awarded bess),
      (Dam.RRSUFR_Awarded bess); ring.
Qed.

Lemma total_as_revenue_nonneg (f : Dam.row -> Q) (rows : list Dam.row) :
  forall total : Q,
    0 <= total ->
    0 <= fold_left (fun total_as_revenue bess =>
                      if Qgtb (f bess) 0
                      then total_as_revenue + f bess
                      else total_as_revenue)
                   rows total.
Proof.
  induction rows as [|r rows IH]; intros total H; cbn [fold_left]; [exact H|].
  apply IH. destruct (Qgtb (f r) 0) eqn:E; [|exact H].
  apply Qgtb_true in E. lra.
Qed.

(** X29.  On a file that has the columns the quick check reads, the
    revenue that [quick_as_revenue_check.py] computes for a storage row of
    the sample hour is what the sample analysis credits to the row for
    RegUp, RegDown, RRS and ECRS together, NonSpin being left out; and the
    total of the hour, which adds the row revenues greater than 0 only, is
    never negative. *)
Theorem quick_check_hour_revenue
        (cols : list string) (df hour_all : list Dam.row) (bess : Dam.row) :
  has_quick_check_cols cols = true ->
  QuickCheck.bess_revenue cols hour_all bess
  == final_sample_row_amount cols hour_all bess (As RegUp)
     + final_sample_row_amount cols hour_all bess (As RegDown)
     + final_sample_row_amount cols hour_all bess (As RRS)
     + final_sample_row_amount cols hour_all bess (As ECRS)
  /\ forall total, QuickCheck.total_as_revenue cols df = Some total -> 0 <= total.
Proof.
  intro Hcols. unfold has_quick_check_cols in Hcols.
  apply andb_prop in Hcols. destruct Hcols as [Hcols H5].
  apply andb_prop in Hcols. destruct Hcols as [Hcols H4].
  apply andb_prop in Hcols. destruct Hcols as [Hcols H3].
  apply andb_prop in Hcols. destruct Hcols as [H1 H2].
  split.
  - unfold QuickCheck.bess_revenue. cbv zeta. rewrite !add_award_paid.
    cbn [final_sample_row_amount]. rewrite H5.
    unfold FinalSample.mcpcs. cbn [mcpc_col]. rewrite H1, H2, H3, H4.
    assert (Hm : forall p, match hour_all with
                           | first :: _ => mcpc_cell p first
                           | [] => None
                           end = QuickCheck.first_mcpc p hour_all) by reflexivity.
    rewrite !Hm.
    rewrite (paid_award_compat _ _ (QuickCheck.first_mcpc RRS hour_all)
                               (quick_check_rrs_total cols bess)).
    ring.
  - intros total H. unfold QuickCheck.total_as_revenue in H. cbv zeta in H.
    destruct (filter (fun r => is_PWRSTR (Dam.Resource_Type r)) df) as [|first rest];
      [discriminate|].
    destruct (0 <? List.length (filter (in_hour (key_of first)) df))%nat.
    + inversion H; subst.
      apply (total_as_revenue_nonneg
               (QuickCheck.bess_revenue cols (filter (in_hour (key_of first)) df))).
      apply Qle_refl.
    + inversion H; subst. apply Qle_refl.
Qed.

(** A run of X29: 5 MW of RegUp at an MCPC of 8. *)
Lemma quick_check_hour_revenue_witness :
  QuickCheck.bess_revenue Sample.cols [Sample.dam_row 10 20 5 8]
                          (Sample.dam_row 10 20 5 8)
  == final_sample_row_amount Sample.cols [Sample.dam_row 10 20 5 8]
                             (Sample.dam_row 10 20 5 8) (As RegUp)
     + final_sample_row_amount Sample.cols [Sample.dam_row 10 20 5 8]
                               (Sample.dam_row 10 20 5 8) (As RegDown)
     + final_sample_row_amount Sample.cols [Sample.dam_row 10 20 5 8]
                               (Sample.dam_row 10 20 5 8) (As RRS)
     + final_sample_row_amount Sample.cols [Sample.dam_row 10 20 5 8]
                               (Sample.dam_row 10 20 5 8) (As ECRS)
  /\ forall total,
      QuickCheck.total_as_revenue Sample.cols [Sample.dam_row 10 20 5 8] = Some total ->
      0 <= total.
Proof.
  apply (quick_check_hour_revenue
           Sample.cols [Sample.dam_row 10 20 5 8] [Sample.dam_row 10 20 5 8]
           (Sample.dam_row 10 20 5 8)).
  reflexivity.
Defined.
